(** * DahuaVTO2MQTT: the device session client of [DahuaVTO.py]

    A shallow embedding of [DahuaVTOClient] and [DahuaVTOManager] and the
    properties of the credential hash, the decoder, the login state machine,
    the event dispatcher and the reconnect loop.

    Conventions of the embedding.
    - A Python [str] is a [string] holding the UTF-8 encoding of its text, so
      that [s.encode('utf-8')] is the identity.  Text with lone surrogates has
      no such encoding and is outside the model.
    - A Python [bytes] object is a [string] too, one character per byte.
    - A Python [int] is a [Z].
    - A handler returns the new client together with the list of effects it
      performed, in order; the [try]/[except Exception] blocks of the source
      are written out with a sum type for a raised exception. *)

From Stdlib Require Import ZArith List String Ascii Bool Lia.
From Stdlib Require Import DecimalString.
Import ListNotations.

Local Open Scope string_scope.
Local Open Scope Z_scope.
Set Warnings "-register-all".

(* ================================================================== *)
(** * Python strings and bytes *)

Module Py.

Definition dquote : ascii := "034"%char.

(** The NUL byte, as a [bytes] object of length one. *)
Definition NUL : string := String "000"%char EmptyString.

(** [s.startswith(p)] *)
Fixpoint startswith (p s : string) : bool :=
  match p, s with
  | EmptyString, _ => true
  | String a p', String b s' => Ascii.eqb a b && startswith p' s'
  | String _ _, EmptyString => false
  end.

(** [s[0:n]] for [0 <= n] *)
Definition slice_to (n : nat) (s : string) : string := String.substring 0 n s.

(** Position of the first character of the last occurrence of the one
    character [c] in [s], counted from [i], the position of the head of [s]. *)
Fixpoint rindex_from (c : ascii) (s : string) (i : nat) : option nat :=
  match s with
  | EmptyString => None
  | String a r =>
      match rindex_from c r (S i) with
      | Some j => Some j
      | None => if Ascii.eqb a c then Some i else None
      end
  end.

(** [s.rindex(c)] for a one-character [c]; [None] is the [ValueError]. *)
Definition rindex (c : ascii) (s : string) : option nat := rindex_from c s 0.

(** [s.split(sep)] for a non-empty [sep]: the pieces between the
    occurrences of [sep], found from left to right without overlap.  [acc] is
    the piece being read and [skip] the number of characters of an occurrence
    of [sep] still to pass over. *)
Fixpoint split_go (sep : string) (s : string) (skip : nat) (acc : string)
  : list string :=
  match s with
  | EmptyString => [acc]
  | String a r =>
      match skip with
      | S k => split_go sep r k acc
      | O =>
          if startswith sep s
          then acc :: split_go sep r (Nat.pred (String.length sep)) EmptyString
          else split_go sep r O (acc ++ String a EmptyString)
      end
  end.

Definition split (sep s : string) : list string :=
  split_go sep s O EmptyString.

(** [sep.join(l)] *)
Definition join (sep : string) (l : list string) : string := String.concat sep l.

(** [c in s] for a one-character [c] *)
Fixpoint contains (c : ascii) (s : string) : bool :=
  match s with
  | EmptyString => false
  | String a r => Ascii.eqb a c || contains c r
  end.

Definition byte_val (c : ascii) : Z := Z.of_N (N_of_ascii c).
Definition byte_chr (z : Z) : ascii := ascii_of_N (Z.to_N z).

(** The lowercase hexadecimal digit of [0 <= d < 16]. *)
Definition hex_digit (d : Z) : ascii :=
  if d <? 10 then byte_chr (48 + d) else byte_chr (87 + d).

(** ["%02x" % b] for a byte [b] *)
Definition hex2 (b : Z) : string :=
  String (hex_digit (b / 16)) (String (hex_digit (b mod 16)) EmptyString).

(** [str(n)] for an [int] *)
Definition str_of_int (n : Z) : string := NilZero.string_of_int (Z.to_int n).

(** [s.upper()] on ASCII text: the letters a..z become A..Z. *)
Definition upper_char (c : ascii) : ascii :=
  let v := byte_val c in
  if (97 <=? v) && (v <=? 122) then byte_chr (v - 32) else c.

Fixpoint upper (s : string) : string :=
  match s with
  | EmptyString => EmptyString
  | String a r => String (upper_char a) (upper r)
  end.

(** [str(b)] for a [bytes] object [b], which is its [repr]: the literal
    [b'...'], in double quotes when [b] holds a single quote and no double
    quote; the quote in use and the backslash are escaped with a backslash,
    tab, newline and carriage return read [\t], [\n] and [\r], every other
    byte below the space or from 0x7f up reads [\xNN], the rest are kept. *)
Definition repr_quote (b : string) : ascii :=
  if contains "'"%char b && negb (contains dquote b)
  then dquote else "'"%char.

Definition repr_byte (quote c : ascii) : string :=
  let v := byte_val c in
  if Ascii.eqb c quote || Ascii.eqb c "\"%char then String "\"%char (String c EmptyString)
  else if v =? 9 then "\t"
  else if v =? 10 then "\n"
  else if v =? 13 then "\r"
  else if (v <? 32) || (127 <=? v) then "\x" ++ hex2 v
  else String c EmptyString.

Fixpoint repr_body (quote : ascii) (b : string) : string :=
  match b with
  | EmptyString => EmptyString
  | String c r => repr_byte quote c ++ repr_body quote r
  end.

Definition bytes_repr (b : string) : string :=
  let q := repr_quote b in
  String "b"%char (String q (repr_body q b ++ String q EmptyString)).

(** The sixteen characters of an upper-case hexadecimal text. *)
Definition is_upper_hex (c : ascii) : bool :=
  let v := byte_val c in
  ((48 <=? v) && (v <=? 57)) || ((65 <=? v) && (v <=? 70)).

End Py.

(* ================================================================== *)
(** * hashlib.md5 *)

Module MD5.

Definition w32 (x : Z) : Z := x mod 2 ^ 32.

Definition rotl32 (x n : Z) : Z :=
  w32 (Z.lor (Z.shiftl x n) (Z.shiftr x (32 - n))).

Definition not32 (x : Z) : Z := Z.lxor x 0xffffffff.

Definition shifts : list Z :=
  [7; 12; 17; 22; 7; 12; 17; 22; 7; 12; 17; 22; 7; 12; 17; 22;
   5; 9; 14; 20; 5; 9; 14; 20; 5; 9; 14; 20; 5; 9; 14; 20;
   4; 11; 16; 23; 4; 11; 16; 23; 4; 11; 16; 23; 4; 11; 16; 23;
   6; 10; 15; 21; 6; 10; 15; 21; 6; 10; 15; 21; 6; 10; 15; 21].

Definition sines : list Z :=
  [0xd76aa478; 0xe8c7b756; 0x242070db; 0xc1bdceee;
   0xf57c0faf; 0x4787c62a; 0xa8304613; 0xfd469501;
   0x698098d8; 0x8b44f7af; 0xffff5bb1; 0x895cd7be;
   0x6b901122; 0xfd987193; 0xa679438e; 0x49b40821;
   0xf61e2562; 0xc040b340; 0x265e5a51; 0xe9b6c7aa;
   0xd62f105d; 0x02441453; 0xd8a1e681; 0xe7d3fbc8;
   0x21e1cde6; 0xc33707d6; 0xf4d50d87; 0x455a14ed;
   0xa9e3e905; 0xfcefa3f8; 0x676f02d9; 0x8d2a4c8a;
   0xfffa3942; 0x8771f681; 0x6d9d6122; 0xfde5380c;
   0xa4beea44; 0x4bdecfa9; 0xf6bb4b60; 0xbebfbc70;
   0x289b7ec6; 0xeaa127fa; 0xd4ef3085; 0x04881d05;
   0xd9d4d039; 0xe6db99e5; 0x1fa27cf8; 0xc4ac5665;
   0xf4292244; 0x432aff97; 0xab9423a7; 0xfc93a039;
   0x655b59c3; 0x8f0ccc92; 0xffeff47d; 0x85845dd1;
   0x6fa87e4f; 0xfe2ce6e0; 0xa3014314; 0x4e0811a1;
   0xf7537e82; 0xbd3af235; 0x2ad7d2bb; 0xeb86d391].

(** The message, the byte 0x80, zero bytes up to 56 modulo 64, and the
    length in bits as eight little-endian bytes. *)
Definition le_bytes (n : nat) (x : Z) : list Z :=
  map (fun i => (x / 2 ^ (8 * Z.of_nat i)) mod 256) (seq 0 n).

Definition pad (msg : list Z) : list Z :=
  let len := Z.of_nat (List.length msg) in
  let zeros := Z.to_nat ((55 - len) mod 64) in
  msg ++ [0x80] ++ repeat 0 zeros ++ le_bytes 8 ((8 * len) mod 2 ^ 64).

Definition le_word (bs : list Z) : Z :=
  fold_right (fun b acc => b + 256 * acc) 0 bs.

Fixpoint words (n : nat) (bs : list Z) : list Z :=
  match n with
  | O => []
  | S n' => le_word (firstn 4 bs) :: words n' (skipn 4 bs)
  end.

Record state := mkState { sa : Z; sb : Z; sc : Z; sd : Z }.

Definition init : state :=
  mkState 0x67452301 0xefcdab89 0x98badcfe 0x10325476.

Definition round (m : list Z) (st : state) (i : nat) : state :=
  let '(mkState a b c d) := st in
  let zi := Z.of_nat i in
  let '(f, g) :=
    if zi <? 16 then (Z.lor (Z.land b c) (Z.land (not32 b) d), zi)
    else if zi <? 32 then (Z.lor (Z.land d b) (Z.land (not32 d) c), (5 * zi + 1) mod 16)
    else if zi <? 48 then (Z.lxor (Z.lxor b c) d, (3 * zi + 5) mod 16)
    else (Z.lxor c (Z.lor b (not32 d)), (7 * zi) mod 16) in
  let f' := w32 (f + a + nth i sines 0 + nth (Z.to_nat g) m 0) in
  mkState d (w32 (b + rotl32 f' (nth i shifts 0))) b c.

Definition block (st : state) (bs : list Z) : state :=
  let m := words 16 bs in
  let '(mkState a b c d) := fold_left (round m) (seq 0 64) st in
  mkState (w32 (sa st + a)) (w32 (sb st + b)) (w32 (sc st + c)) (w32 (sd st + d)).

Fixpoint blocks (n : nat) (st : state) (bs : list Z) : state :=
  match n with
  | O => st
  | S n' => blocks n' (block st (firstn 64 bs)) (skipn 64 bs)
  end.

(** [hashlib.md5(data).digest()]: sixteen bytes. *)
Definition digest (data : string) : list Z :=
  let bs := pad (map Py.byte_val (list_ascii_of_string data)) in
  let '(mkState a b c d) := blocks (List.length bs / 64) init bs in
  le_bytes 4 a ++ le_bytes 4 b ++ le_bytes 4 c ++ le_bytes 4 d.

(** [hashlib.md5(data).hexdigest()] *)
Definition hexdigest (data : string) : string :=
  String.concat EmptyString (map Py.hex2 (digest data)).

End MD5.


(* ================================================================== *)
(** * Python values *)

(** What the embedding takes from the platform without modelling it: the
    binary64 arithmetic and printing behind Python's [float], the [repr] of a
    [str] (which depends on the Unicode tables), whether the publication of
    an event raises, and the two limits of the interpreter that a JSON text
    can meet.  Every definition below is given for an arbitrary platform. *)
Class Platform : Type := {
  float : Type;
  (** [float(s)] for the text of a JSON number, of [nan], [inf] or [-inf] *)
  float_of_literal : string -> float;
  (** [f == n] and [f - n] for an [int] [n] *)
  float_eq_int : float -> Z -> bool;
  float_sub_int : float -> Z -> float;
  (** [repr(f)], and the text [json.dumps] writes for [f] *)
  float_repr : float -> string;
  float_json : float -> string;
  (** [repr(s)] for a [str] *)
  str_repr : string -> string;
  (** [mqtt_client.publish(topic, json.dumps(message, indent=4))] raises,
      [payload] being the text of the message: the client refuses the topic
      (a [ValueError]), or the message is nested so deep that the encoder
      meets the recursion limit before the text is written *)
  publish_raises : string -> string -> bool;
  (** [sys.get_int_max_str_digits()]: [int(s)] raises [ValueError] for a
      text of more digits than this; 0 where the interpreter has no limit *)
  int_max_str_digits : nat;
  (** The number of arrays and objects, one inside the other, that
      [json.loads] enters before the recursion limit ends it with a
      [RecursionError]; the stack is taken to stand as deep at each of the
      two places [json.loads] is called from *)
  json_nesting_limit : nat
}.

(** The values [json.loads] returns.  A [dict] keeps its keys in insertion
    order, as Python's does; all keys are [str]. *)
Inductive pyval {P : Platform} : Type :=
| PyNone
| PyBool (b : bool)
| PyInt (n : Z)
| PyFloat (f : float)
| PyStr (s : string)
| PyList (l : list pyval)
| PyDict (d : list (string * pyval)).

Module Dict.
Section Dict.
Context {V : Type}.

(** [d.get(k)], [None] when [k] is no key of [d] *)
Fixpoint get (d : list (string * V)) (k : string) : option V :=
  match d with
  | [] => None
  | (k', v) :: r => if String.eqb k' k then Some v else get r k
  end.

(** [d[k] = v]: the value of an existing key is replaced where it stands,
    a new key goes last. *)
Fixpoint set (d : list (string * V)) (k : string) (v : V) : list (string * V) :=
  match d with
  | [] => [(k, v)]
  | (k', v') :: r =>
      if String.eqb k' k then (k', v) :: r else (k', v') :: set r k v
  end.

Definition keys (d : list (string * V)) : list string := map fst d.

End Dict.
End Dict.

Section Values.
Context {P : Platform}.

(** [d.get(k)] for a [dict] [d]: Python's [None] when [k] is no key. *)
Definition field (d : list (string * pyval)) (k : string) : pyval :=
  match Dict.get d k with
  | Some v => v
  | None => PyNone
  end.

(** [x.get(k)]: only a [dict] has the method; [None] is the
    [AttributeError] of the other values. *)
Definition py_get (x : pyval) (k : string) : option pyval :=
  match x with
  | PyDict d => Some (field d k)
  | _ => None
  end.

Definition is_dict (x : pyval) : bool :=
  match x with
  | PyDict _ => true
  | _ => false
  end.

Definition bool_int (b : bool) : Z := if b then 1 else 0.

(** [x == n] for an [int] constant [n] *)
Definition py_eq_int (x : pyval) (n : Z) : bool :=
  match x with
  | PyInt m => m =? n
  | PyBool b => bool_int b =? n
  | PyFloat f => float_eq_int f n
  | _ => false
  end.

(** [x == s] for a [str] constant [s] *)
Definition py_eq_str (x : pyval) (s : string) : bool :=
  match x with
  | PyStr t => String.eqb t s
  | _ => false
  end.

(** [x is not None] *)
Definition py_is_not_none (x : pyval) : bool :=
  match x with
  | PyNone => false
  | _ => true
  end.

(** [x - n] for an [int] constant [n]; [None] is the [TypeError]. *)
Definition py_sub_int (x : pyval) (n : Z) : option pyval :=
  match x with
  | PyInt m => Some (PyInt (m - n))
  | PyBool b => Some (PyInt (bool_int b - n))
  | PyFloat f => Some (PyFloat (float_sub_int f n))
  | _ => None
  end.

(** [repr(x)] *)
Fixpoint py_repr (x : pyval) : string :=
  match x with
  | PyNone => "None"
  | PyBool true => "True"
  | PyBool false => "False"
  | PyInt n => Py.str_of_int n
  | PyFloat f => float_repr f
  | PyStr s => str_repr s
  | PyList l => "[" ++ Py.join ", " (map py_repr l) ++ "]"
  | PyDict d =>
      "{" ++ Py.join ", "
               (map (fun kv => let '(k, v) := kv in str_repr k ++ ": " ++ py_repr v) d)
          ++ "}"
  end.

(** [str(x)], which is what an f-string puts for [{x}] *)
Definition py_str (x : pyval) : string :=
  match x with
  | PyStr s => s
  | _ => py_repr x
  end.

End Values.

(* ================================================================== *)
(** * json.loads and json.dumps

    The decoder follows [json.decoder] and [json.scanner] with their default
    settings, the encoder [json.encoder] with [indent=4].  A text can meet
    two limits of the interpreter, the limit on the number of digits of an
    [int] and the recursion limit on nested arrays and objects: both are
    those of the platform, and a text that meets one is a text on which
    [json.loads] raises. *)

Module Json.
Section Json.
Context {P : Platform}.

Definition is_ws (c : ascii) : bool :=
  let v := Py.byte_val c in
  (v =? 32) || (v =? 9) || (v =? 10) || (v =? 13).

Fixpoint skip_ws (s : string) : string :=
  match s with
  | String c r => if is_ws c then skip_ws r else s
  | EmptyString => s
  end.

Definition is_digit (c : ascii) : bool :=
  let v := Py.byte_val c in (48 <=? v) && (v <=? 57).

(** The longest run of digits at the head of [s], and what follows it. *)
Fixpoint take_digits (s : string) : string * string :=
  match s with
  | String c r =>
      if is_digit c
      then let '(ds, rest) := take_digits r in (String c ds, rest)
      else (EmptyString, s)
  | EmptyString => (EmptyString, s)
  end.

(** [int(ds)] for a run of digits, most significant first *)
Definition int_of_digits (ds : string) : Z :=
  fold_left (fun acc c => 10 * acc + (Py.byte_val c - 48)) (list_ascii_of_string ds) 0.

(** [NUMBER_RE] matched at the head of [s]: an optional minus sign and then
    either 0 or a digit from 1 to 9 and any digits; optionally a point and at
    least one digit; optionally e or E, an optional sign and at least one
    digit.  The three groups, and what follows the match. *)
Definition match_integer (s : string) : option (string * string) :=
  let '(sign, s1) :=
    match s with
    | String c r => if Ascii.eqb c "-" then ("-", r) else (EmptyString, s)
    | EmptyString => (EmptyString, s)
    end in
  match s1 with
  | String c r =>
      if Ascii.eqb c "0" then Some (sign ++ "0", r)
      else if is_digit c
      then let '(ds, rest) := take_digits r in Some (sign ++ String c ds, rest)
      else None
  | EmptyString => None
  end.

Definition match_frac (s : string) : string * string :=
  match s with
  | String c r =>
      if Ascii.eqb c "." then
        match take_digits r with
        | (EmptyString, _) => (EmptyString, s)
        | (ds, rest) => (String c ds, rest)
        end
      else (EmptyString, s)
  | EmptyString => (EmptyString, s)
  end.

Definition match_exp (s : string) : string * string :=
  match s with
  | String e r =>
      if Ascii.eqb e "e" || Ascii.eqb e "E" then
        let '(sign, r1) :=
          match r with
          | String c r' =>
              if Ascii.eqb c "-" || Ascii.eqb c "+"
              then (String c EmptyString, r') else (EmptyString, r)
          | EmptyString => (EmptyString, r)
          end in
        match take_digits r1 with
        | (EmptyString, _) => (EmptyString, s)
        | (ds, rest) => (String e (sign ++ ds), rest)
        end
      else (EmptyString, s)
  | EmptyString => (EmptyString, s)
  end.

(** [int(s)] for an optional minus sign and a run of digits *)
Definition int_of_text (s : string) : Z :=
  match s with
  | String c ds => if Ascii.eqb c "-" then - int_of_digits ds else int_of_digits s
  | EmptyString => 0
  end.

(** [int(s)] raises for the text [s] of an integer: it has more digits
    than the platform allows (a limit below 640 digits cannot be set, and
    texts up to that length are not checked). *)
Definition int_too_long (integer : string) : bool :=
  let digits :=
    match integer with
    | String c ds => if Ascii.eqb c "-" then String.length ds else String.length integer
    | EmptyString => O
    end in
  Nat.ltb 640 digits && Nat.ltb 0 int_max_str_digits && Nat.ltb int_max_str_digits digits.

(** The number at the head of [s], and what follows it: an [int] when the
    text has neither a fraction nor an exponent, a [float] otherwise; no
    value when [int] raises for the text. *)
Definition scan_number (s : string) : option (option pyval * string) :=
  match match_integer s with
  | None => None
  | Some (integer, r1) =>
      let '(frac, r2) := match_frac r1 in
      let '(exp, r3) := match_exp r2 in
      match frac, exp with
      | EmptyString, EmptyString =>
          Some (if int_too_long integer then None
                else Some (PyInt (int_of_text integer)), r3)
      | _, _ => Some (Some (PyFloat (float_of_literal (integer ++ frac ++ exp))), r3)
      end
  end.

(** ** Strings *)

(** One character of a string as the scanner reads it: a character of the
    text, or the code unit of a [\uXXXX] escape. *)
Inductive code : Type :=
| Raw (c : ascii)
| Esc (u : Z).

Definition hex_val (c : ascii) : option Z :=
  let v := Py.byte_val c in
  if (48 <=? v) && (v <=? 57) then Some (v - 48)
  else if (97 <=? v) && (v <=? 102) then Some (v - 87)
  else if (65 <=? v) && (v <=? 70) then Some (v - 55)
  else None.

Definition hex4 (a b c d : ascii) : option Z :=
  match hex_val a, hex_val b, hex_val c, hex_val d with
  | Some x, Some y, Some z, Some w => Some (((x * 16 + y) * 16 + z) * 16 + w)
  | _, _, _, _ => None
  end.

(** [BACKSLASH]: the one-letter escapes *)
Definition backslash (e : ascii) : option ascii :=
  if Ascii.eqb e Py.dquote then Some Py.dquote
  else if Ascii.eqb e "\" then Some "\"%char
  else if Ascii.eqb e "/" then Some "/"%char
  else if Ascii.eqb e "b" then Some (Py.byte_chr 8)
  else if Ascii.eqb e "f" then Some (Py.byte_chr 12)
  else if Ascii.eqb e "n" then Some (Py.byte_chr 10)
  else if Ascii.eqb e "r" then Some (Py.byte_chr 13)
  else if Ascii.eqb e "t" then Some (Py.byte_chr 9)
  else None.

(** [scanstring] in strict mode, from just after the opening quote: the
    characters up to the closing quote and what follows it; [None] for an
    unterminated string, a control character or an invalid escape. *)
Fixpoint scanstring (s : string) : option (list code * string) :=
  match s with
  | EmptyString => None
  | String c r =>
      if Ascii.eqb c Py.dquote then Some ([], r)
      else if Ascii.eqb c "\" then
        match r with
        | String e r2 =>
            if Ascii.eqb e "u" then
              match r2 with
              | String h1 (String h2 (String h3 (String h4 r3))) =>
                  match hex4 h1 h2 h3 h4 with
                  | Some u =>
                      match scanstring r3 with
                      | Some (cs, rest) => Some (Esc u :: cs, rest)
                      | None => None
                      end
                  | None => None
                  end
              | _ => None
              end
            else
              match backslash e with
              | Some ch =>
                  match scanstring r2 with
                  | Some (cs, rest) => Some (Raw ch :: cs, rest)
                  | None => None
                  end
              | None => None
              end
        | EmptyString => None
        end
      else if Py.byte_val c <? 32 then None
      else
        match scanstring r with
        | Some (cs, rest) => Some (Raw c :: cs, rest)
        | None => None
        end
  end.

(** The UTF-8 encoding of a code point (a lone surrogate, which has none,
    is written with the three-byte pattern). *)
Definition utf8 (u : Z) : string :=
  let ch z := String (Py.byte_chr z) EmptyString in
  let cont k := ch (0x80 + (u / 2 ^ (6 * k)) mod 64) in
  if u <? 0x80 then ch u
  else if u <? 0x800 then ch (0xc0 + u / 64) ++ cont 0
  else if u <? 0x10000 then ch (0xe0 + u / 4096) ++ cont 1 ++ cont 0
  else ch (0xf0 + u / 262144) ++ cont 2 ++ cont 1 ++ cont 0.

Definition is_high (u : Z) : bool := (0xd800 <=? u) && (u <=? 0xdbff).
Definition is_low (u : Z) : bool := (0xdc00 <=? u) && (u <=? 0xdfff).

Definition flush (hi : option Z) : string :=
  match hi with
  | Some h => utf8 h
  | None => EmptyString
  end.

(** The text of the scanned characters: an escaped high surrogate directly
    followed by an escaped low surrogate is one character.  [hi] is a high
    surrogate read and not yet written. *)
Fixpoint text_of (hi : option Z) (cs : list code) : string :=
  match cs with
  | [] => flush hi
  | Raw c :: r => flush hi ++ String c (text_of None r)
  | Esc u :: r =>
      match hi with
      | Some h =>
          if is_low u
          then utf8 (0x10000 + ((h - 0xd800) * 1024 + (u - 0xdc00))) ++ text_of None r
          else if is_high u then utf8 h ++ text_of (Some u) r
          else utf8 h ++ utf8 u ++ text_of None r
      | None =>
          if is_high u then text_of (Some u) r
          else utf8 u ++ text_of None r
      end
  end.

(** ** Values *)

(** What scanning the head of a text gives: a value and the rest of the
    text, an error (a [JSONDecodeError], or the [ValueError] or
    [RecursionError] of a limit of the interpreter), or [OutOfFuel] when the
    bound on the recursion of the model is reached, which [loads] shows not
    to happen. *)
Inductive scanned (A : Type) : Type :=
| Scanned (a : A) (rest : string)
| Invalid
| OutOfFuel.
Arguments Scanned {A} a rest.
Arguments Invalid {A}.
Arguments OutOfFuel {A}.

(** [scan_once], [JSONObject] (from the first key's opening quote on) and
    [JSONArray] (from the first element on).  [room] is the number of arrays
    and objects that can still be entered: the scanner enters one before it
    looks at what is inside. *)
Fixpoint scan_once (fuel : nat) (room : nat) (s : string) : scanned pyval :=
  match fuel with
  | O => OutOfFuel
  | S fuel' =>
      match s with
      | EmptyString => Invalid
      | String c r =>
          if Ascii.eqb c Py.dquote then
            match scanstring r with
            | Some (cs, rest) => Scanned (PyStr (text_of None cs)) rest
            | None => Invalid
            end
          else if Ascii.eqb c "{" then
            match room with
            | O => Invalid
            | S room' =>
                match skip_ws r with
                | String c1 r1 =>
                    if Ascii.eqb c1 "}" then Scanned (PyDict []) r1
                    else if Ascii.eqb c1 Py.dquote then scan_members fuel' room' r1 []
                    else Invalid
                | EmptyString => Invalid
                end
            end
          else if Ascii.eqb c "[" then
            match room with
            | O => Invalid
            | S room' =>
                match skip_ws r with
                | String c1 r1 =>
                    if Ascii.eqb c1 "]" then Scanned (PyList []) r1
                    else scan_elements fuel' room' (String c1 r1) []
                | EmptyString => scan_elements fuel' room' EmptyString []
                end
            end
          else if Py.startswith "null" s then Scanned PyNone (String.substring 4 (String.length s) s)
          else if Py.startswith "true" s then Scanned (PyBool true) (String.substring 4 (String.length s) s)
          else if Py.startswith "false" s then Scanned (PyBool false) (String.substring 5 (String.length s) s)
          else
            match scan_number s with
            | Some (Some v, rest) => Scanned v rest
            | Some (None, _) => Invalid
            | None =>
                if Py.startswith "NaN" s
                then Scanned (PyFloat (float_of_literal "nan")) (String.substring 3 (String.length s) s)
                else if Py.startswith "Infinity" s
                then Scanned (PyFloat (float_of_literal "inf")) (String.substring 8 (String.length s) s)
                else if Py.startswith "-Infinity" s
                then Scanned (PyFloat (float_of_literal "-inf")) (String.substring 9 (String.length s) s)
                else Invalid
            end
      end
  end

with scan_members (fuel : nat) (room : nat) (s : string)
  (acc : list (string * pyval)) : scanned pyval :=
  match fuel with
  | O => OutOfFuel
  | S fuel' =>
      match scanstring s with
      | None => Invalid
      | Some (cs, r) =>
          let key := text_of None cs in
          match skip_ws r with
          | String c1 r1 =>
              if negb (Ascii.eqb c1 ":") then Invalid else
              match scan_once fuel' room (skip_ws r1) with
              | Scanned v r2 =>
                  let acc' := Dict.set acc key v in
                  match skip_ws r2 with
                  | String c3 r3 =>
                      if Ascii.eqb c3 "}" then Scanned (PyDict acc') r3
                      else if Ascii.eqb c3 "," then
                        match skip_ws r3 with
                        | String c4 r4 =>
                            if Ascii.eqb c4 Py.dquote
                            then scan_members fuel' room r4 acc'
                            else Invalid
                        | EmptyString => Invalid
                        end
                      else Invalid
                  | EmptyString => Invalid
                  end
              | Invalid => Invalid
              | OutOfFuel => OutOfFuel
              end
          | EmptyString => Invalid
          end
      end
  end

with scan_elements (fuel : nat) (room : nat) (s : string) (acc : list pyval)
  : scanned pyval :=
  match fuel with
  | O => OutOfFuel
  | S fuel' =>
      match scan_once fuel' room s with
      | Scanned v r =>
          match skip_ws r with
          | String c1 r1 =>
              if Ascii.eqb c1 "]" then Scanned (PyList (acc ++ [v])) r1
              else if Ascii.eqb c1 ","
              then scan_elements fuel' room (skip_ws r1) (acc ++ [v])
              else Invalid
          | EmptyString => Invalid
          end
      | Invalid => Invalid
      | OutOfFuel => OutOfFuel
      end
  end.

(** [json.loads(s)]; [None] is the exception it raises: a
    [JSONDecodeError], or the [ValueError] or [RecursionError] of a limit. *)
Definition loads (s : string) : option pyval :=
  let s' := skip_ws s in
  match scan_once (2 * String.length s' + 2) json_nesting_limit s' with
  | Scanned v rest =>
      match skip_ws rest with
      | EmptyString => Some v
      | _ => None
      end
  | _ => None
  end.

(** ** The encoder *)

(** The code points of a text, from its UTF-8 encoding. *)
Fixpoint utf8_decode (s : string) : list Z :=
  match s with
  | EmptyString => []
  | String c r =>
      let v := Py.byte_val c in
      let low x := Py.byte_val x mod 64 in
      if v <? 0x80 then v :: utf8_decode r
      else if v <? 0xe0 then
        match r with
        | String c1 r1 => ((v mod 32) * 64 + low c1) :: utf8_decode r1
        | _ => [v]
        end
      else if v <? 0xf0 then
        match r with
        | String c1 (String c2 r2) =>
            (((v mod 16) * 64 + low c1) * 64 + low c2) :: utf8_decode r2
        | _ => [v]
        end
      else
        match r with
        | String c1 (String c2 (String c3 r3)) =>
            ((((v mod 8) * 64 + low c1) * 64 + low c2) * 64 + low c3) :: utf8_decode r3
        | _ => [v]
        end
  end.

(** ["\\u{0:04x}".format(u)] *)
Definition u_escape (u : Z) : string :=
  "\u" ++ Py.hex2 (u / 256) ++ Py.hex2 (u mod 256).

(** [ESCAPE_ASCII] and its replacement: the quote and the backslash are
    escaped, the other characters from the space to the tilde are kept, and
    every other character is written as an escape. *)
Definition escape_ascii (u : Z) : string :=
  if u =? 34 then String "\" (String Py.dquote EmptyString)
  else if u =? 92 then "\\"
  else if u =? 10 then "\n"
  else if u =? 13 then "\r"
  else if u =? 9 then "\t"
  else if u =? 12 then "\f"
  else if u =? 8 then "\b"
  else if (32 <=? u) && (u <=? 126) then String (Py.byte_chr u) EmptyString
  else if u <? 0x10000 then u_escape u
  else
    let n := u - 0x10000 in
    u_escape (0xd800 + (n / 1024) mod 1024) ++ u_escape (0xdc00 + n mod 1024).

(** [py_encode_basestring_ascii(s)] *)
Definition encode_string (s : string) : string :=
  String Py.dquote
    (String.concat EmptyString (map escape_ascii (utf8_decode s))
     ++ String Py.dquote EmptyString).

Definition newline_indent (level : nat) : string :=
  String (Py.byte_chr 10) (String.concat EmptyString (repeat "    " level)).

(** [_iterencode(x, level)] with [indent=4], joined. *)
Fixpoint iterencode (level : nat) (x : pyval) : string :=
  match x with
  | PyNone => "null"
  | PyBool true => "true"
  | PyBool false => "false"
  | PyInt n => Py.str_of_int n
  | PyFloat f => float_json f
  | PyStr s => encode_string s
  | PyList [] => "[]"
  | PyList l =>
      "[" ++ newline_indent (S level)
          ++ Py.join ("," ++ newline_indent (S level)) (map (iterencode (S level)) l)
          ++ newline_indent level ++ "]"
  | PyDict [] => "{}"
  | PyDict d =>
      "{" ++ newline_indent (S level)
          ++ Py.join ("," ++ newline_indent (S level))
               (map (fun kv => let '(k, v) := kv in
                               encode_string k ++ ": " ++ iterencode (S level) v) d)
          ++ newline_indent level ++ "}"
  end.

(** [json.dumps(x, indent=4)] *)
Definition dumps_indent4 (x : pyval) : string := iterencode 0 x.

End Json.

Arguments Scanned {A} a rest.
Arguments Invalid {A}.
Arguments OutOfFuel {A}.

End Json.

Section Fuel.
Context {P : Platform}.

(** With fuel above twice the length of the text, a scan ends before the
    fuel does, and what it leaves is shorter than the text. *)
Definition within (s : string) (r : Json.scanned pyval) : Prop :=
  match r with
  | Json.Scanned _ rest => (String.length rest < String.length s)%nat
  | Json.Invalid => True
  | Json.OutOfFuel => False
  end.

End Fuel.

(* ================================================================== *)
(** * Messages.MessageData *)

Module Messages.
Section Messages.
Context {P : Platform}.

(** Modelled from the spec: [Messages.py], which declares [MessageData], is
    not part of the sources at hand.  Section 6 of the spec gives the shape of
    the three requests; the texts it leaves open (the client type of a login,
    the method and the parameters of the attach request) and the value a
    login without a password carries are taken as they stand there.  The
    byte framing of [to_message] is left out: a write is recorded with the
    [MessageData] it encodes. *)
Record MessageData : Type := mkMessageData {
  id : Z;
  session : pyval;
  method : string;
  params : pyval
}.

Definition new (request_id : Z) (session_id : pyval) : MessageData :=
  mkMessageData request_id session_id EmptyString PyNone.

Definition set_id (m : MessageData) (n : Z) : MessageData :=
  mkMessageData n (session m) (method m) (params m).

Definition login (m : MessageData) (username password : pyval) : MessageData :=
  mkMessageData (id m) (session m) "global.login"
    (PyDict [("userName", username); ("password", password);
             ("clientType", PyStr "..."); ("loginType", PyStr "Direct")]).

(** [login(username)], the password left to its default *)
Definition default_password : pyval := PyStr EmptyString.

Definition attach (m : MessageData) : MessageData :=
  mkMessageData (id m) (session m) "<event-attach method>" (PyDict []).

Definition keep_alive (m : MessageData) (interval : pyval) : MessageData :=
  mkMessageData (id m) (session m) "global.keepAlive"
    (PyDict [("timeout", interval); ("active", PyBool true)]).

End Messages.
End Messages.

(* ================================================================== *)
(** * DahuaVTOClient *)

Definition DAHUA_ALLOWED_DETAILS : list string := ["deviceType"; "serialNumber"].

Definition ENDPOINT_MAGICBOX_SYSINFO : string := "magicBox.cgi?action=getSystemInfo".

Definition LOGIN_CHALLENGE : string := "Component error: login challenge!".

Inductive level : Type := DEBUG | INFO | WARNING | ERROR.

(** The exceptions the handlers can meet.  [JSONDecodeError] stands for
    whatever [json.loads] raises: at a limit of the interpreter that is a
    [ValueError] or a [RecursionError], which the handlers treat alike. *)
Inductive exn : Type :=
| AttributeError
| TypeError
| ValueError
| JSONDecodeError
| RequestException
| MqttError.

Record Transport : Type := mkTransport { is_closing : bool }.

Section Client.
Context {P : Platform}.

(** What a handler does to the world, in the order it does it.  A log
    entry keeps the fixed head of its message. *)
Inductive effect : Type :=
| Log (lv : level) (text : string)
| Write (m : Messages.MessageData)
| StartTimer (interval : pyval)
| Publish (topic payload : string)
| HttpGet (url : string)
| MqttConnect
| LoopStop.

Record DahuaVTOClient : Type := mkClient {
  dahua_details : list (string * string);
  base_url : string;
  username : pyval;
  password : pyval;
  mqtt_broker_topic_prefix : pyval;
  realm : pyval;
  random : pyval;
  request_id : Z;
  sessionId : pyval;
  keep_alive_interval : pyval;
  transport : option Transport
}.

(** [os.environ.get(name)] *)
Definition environ_get (environ : string -> option string) (name : string) : pyval :=
  match environ name with
  | Some s => PyStr s
  | None => PyNone
  end.

(** [__init__] *)
Definition init (environ : string -> option string) : DahuaVTOClient :=
  {| dahua_details := [];
     base_url := "http://" ++ py_str (environ_get environ "DAHUA_VTO_HOST") ++ "/cgi-bin/";
     username := environ_get environ "DAHUA_VTO_USERNAME";
     password := environ_get environ "DAHUA_VTO_PASSWORD";
     mqtt_broker_topic_prefix := environ_get environ "MQTT_BROKER_TOPIC_PREFIX";
     realm := PyNone;
     random := PyNone;
     request_id := 1;
     sessionId := PyInt 0;
     keep_alive_interval := PyInt 0;
     transport := None |}.

Definition set_dahua_details (d : list (string * string)) (c : DahuaVTOClient) :=
  mkClient d (base_url c) (username c) (password c) (mqtt_broker_topic_prefix c)
    (realm c) (random c) (request_id c) (sessionId c) (keep_alive_interval c) (transport c).

Definition set_realm (v : pyval) (c : DahuaVTOClient) :=
  mkClient (dahua_details c) (base_url c) (username c) (password c)
    (mqtt_broker_topic_prefix c) v (random c) (request_id c) (sessionId c)
    (keep_alive_interval c) (transport c).

Definition set_random (v : pyval) (c : DahuaVTOClient) :=
  mkClient (dahua_details c) (base_url c) (username c) (password c)
    (mqtt_broker_topic_prefix c) (realm c) v (request_id c) (sessionId c)
    (keep_alive_interval c) (transport c).

Definition set_request_id (n : Z) (c : DahuaVTOClient) :=
  mkClient (dahua_details c) (base_url c) (username c) (password c)
    (mqtt_broker_topic_prefix c) (realm c) (random c) n (sessionId c)
    (keep_alive_interval c) (transport c).

Definition set_sessionId (v : pyval) (c : DahuaVTOClient) :=
  mkClient (dahua_details c) (base_url c) (username c) (password c)
    (mqtt_broker_topic_prefix c) (realm c) (random c) (request_id c) v
    (keep_alive_interval c) (transport c).

Definition set_keep_alive_interval (v : pyval) (c : DahuaVTOClient) :=
  mkClient (dahua_details c) (base_url c) (username c) (password c)
    (mqtt_broker_topic_prefix c) (realm c) (random c) (request_id c) (sessionId c)
    v (transport c).

Definition set_transport (t : option Transport) (c : DahuaVTOClient) :=
  mkClient (dahua_details c) (base_url c) (username c) (password c)
    (mqtt_broker_topic_prefix c) (realm c) (random c) (request_id c) (sessionId c)
    (keep_alive_interval c) t.

(** ** The monad of the methods

    A method takes the client and returns the client as it leaves it, the
    effects it performed and either its result or the exception it raised.
    Assignments made and effects performed before a [raise] stay. *)
Definition M (A : Type) : Type :=
  DahuaVTOClient -> DahuaVTOClient * list effect * (A + exn).

Definition ret {A} (a : A) : M A := fun c => (c, [], inl a).

Definition bind {A B} (m : M A) (f : A -> M B) : M B :=
  fun c =>
    let '(c1, e1, r) := m c in
    match r with
    | inl a => let '(c2, e2, r2) := f a c1 in (c2, (e1 ++ e2)%list, r2)
    | inr x => (c1, e1, inr x)
    end.

Definition raise {A} (x : exn) : M A := fun c => (c, [], inr x).

Definition emit (e : effect) : M unit := fun c => (c, [e], inl tt).

Definition self : M DahuaVTOClient := fun c => (c, [], inl c).

Definition assign (f : DahuaVTOClient -> DahuaVTOClient) : M unit :=
  fun c => (f c, [], inl tt).

(** A call that raises [x] when it has no result. *)
Definition orelse {A} (x : exn) (o : option A) : M A :=
  match o with
  | Some a => ret a
  | None => raise x
  end.

(** [try: body  except Exception: handler] *)
Definition try_except (body handler : M unit) : M unit :=
  fun c =>
    let '(c1, e1, r) := body c in
    match r with
    | inl _ => (c1, e1, inl tt)
    | inr _ => let '(c2, e2, r2) := handler c1 in (c2, (e1 ++ e2)%list, r2)
    end.

End Client.

Declare Scope py_scope.
Delimit Scope py_scope with py.
Notation "x <- m ;; k" := (bind m (fun x => k))
  (at level 61, m at next level, right associativity) : py_scope.
Notation "m ;; k" := (bind m (fun _ => k))
  (at level 61, right associativity) : py_scope.

Section Methods.
Context {P : Platform}.
Local Open Scope py_scope.

(** ** The decoder *)

(** The segments [parse_response] scans: the pieces of the text of the
    chunk between the occurrences of the four characters [\x00]. *)
Definition response_parts (response : string) : list string :=
  Py.split "\x00" (Py.bytes_repr response).

(** The loop of [parse_response] over the segments still to scan: [result]
    as the loop leaves it, and the exception that ended it, if one did. *)
Fixpoint scan_parts (parts : list string) (result : pyval) : pyval * option exn :=
  match parts with
  | [] => (result, None)
  | response_part :: rest =>
      if Py.startswith "{" response_part then
        match Py.rindex "}" response_part with
        | None => (result, Some ValueError)
        | Some i =>
            let message := Py.slice_to (i + 1) response_part in
            match Json.loads message with
            | Some v => scan_parts rest v
            | None => (result, Some JSONDecodeError)
            end
        end
      else scan_parts rest result
  end.

(** [parse_response(response)]: the result, and the error it logs. *)
Definition parse_response (response : string) : pyval * list effect :=
  match scan_parts (response_parts response) PyNone with
  | (result, None) => (result, [])
  | (result, Some _) => (result, [Log ERROR "Failed to read data"])
  end.

(** What one segment that begins with [{] gives: the object its text up to
    the last [}] parses to, if there is such a brace and the text parses. *)
Definition segment_json (response_part : string) : option pyval :=
  match Py.rindex "}" response_part with
  | None => None
  | Some i => Json.loads (Py.slice_to (i + 1) response_part)
  end.

(** A segment the scan gets past: one that does not begin with [{], or one
    whose text parses. *)
Definition segment_passes (response_part : string) : bool :=
  negb (Py.startswith "{" response_part)
  || match segment_json response_part with Some _ => true | None => false end.

(** The objects of the segments of [parts] that begin with [{] and parse. *)
Fixpoint parsed_objects (parts : list string) : list pyval :=
  match parts with
  | [] => []
  | response_part :: rest =>
      if Py.startswith "{" response_part then
        match segment_json response_part with
        | Some v => v :: parsed_objects rest
        | None => parsed_objects rest
        end
      else parsed_objects rest
  end.

(** The NUL-delimited segments of a chunk. *)
Definition nul_segments (chunk : string) : list string := Py.split Py.NUL chunk.

(** The decoder as the specification words it: the chunk is split at its
    NUL bytes, each segment that begins with a brace is parsed up to its
    last closing brace, and the last object successfully parsed is what is
    surfaced, no message when there is none.  A segment that does not parse
    gives no object and has no bearing on the others. *)
Definition last_parsed_object (chunk : string) : pyval :=
  last (parsed_objects (nul_segments chunk)) PyNone.

(** The segments before the first one that begins with a brace and does
    not parse. *)
Fixpoint before_failure (segments : list string) : list string :=
  match segments with
  | [] => []
  | segment :: rest =>
      if segment_passes segment then segment :: before_failure rest else []
  end.

(** What the scan looks at in a segment: nothing when it does not begin
    with [{], and otherwise its text up to the last [}], if it has one. *)
Definition view (response_part : string) : option (option string) :=
  if Py.startswith "{" response_part
  then Some (match Py.rindex "}" response_part with
             | Some i => Some (Py.slice_to (i + 1) response_part)
             | None => None
             end)
  else None.

(** A byte that reads the same in the text of a chunk as in the chunk: a
    printable ASCII character other than the apostrophe and the backslash
    (and other than the quote [q] the text is written in, which for the
    double quote says nothing: that text is the one of a chunk without
    double quotes). *)
Definition plain_byte (c : ascii) : bool :=
  let v := Py.byte_val c in
  (32 <=? v) && (v <? 127) && negb (v =? 39) && negb (v =? 92).

Definition quiet (q c : ascii) : bool := plain_byte c && negb (Ascii.eqb c q).

(** A backslash followed by the three characters of the escape of NUL. *)
Definition literal_nul_escape (c : ascii) (r : string) : bool :=
  Ascii.eqb c "\" && Py.startswith "x00" r.

(** No closing brace up to the next NUL byte. *)
Fixpoint no_closing_brace (s : string) : bool :=
  match s with
  | EmptyString => true
  | String c r =>
      Ascii.eqb c "000" || (negb (Ascii.eqb c "}") && no_closing_brace r)
  end.

(** Where a scan of the bytes of a chunk stands: at the first byte of the
    chunk, at the first byte of a later segment, inside a segment that
    begins with a brace, outside such a segment, or inside one behind its
    last closing brace. *)
Inductive place : Type := First | AtStart | Inside | Outside | Behind.

(** A chunk whose text the decoder splits where the chunk has its NUL
    bytes, and whose segments it reads as they stand in the chunk: it does
    not begin with a brace, no backslash in it is followed by the characters
    [x00], and in each NUL-delimited segment that begins with a brace the
    bytes up to the last closing brace are plain. *)
Fixpoint readable (q : ascii) (pl : place) (s : string) : bool :=
  match s with
  | EmptyString => true
  | String c r =>
      if Ascii.eqb c "000" then readable q AtStart r
      else
        negb (literal_nul_escape c r) &&
        match pl with
        | First => negb (Ascii.eqb c "{") && readable q Outside r
        | AtStart =>
            if Ascii.eqb c "{" then readable q Inside r else readable q Outside r
        | Inside =>
            if quiet q c then readable q Inside r
            else no_closing_brace r && readable q Behind r
        | Outside => readable q Outside r
        | Behind => readable q Behind r
        end
  end.

Definition framed_chunk (chunk : string) : bool :=
  readable (Py.repr_quote chunk) First chunk.

(** The segments in the making of the scan over the text and of the scan
    over the bytes, at a place of the chunk. *)
Definition alike (pl : place) (acc acc' rest : string) : Prop :=
  match pl with
  | First => False
  | AtStart => acc = EmptyString /\ acc' = EmptyString
  | Inside => acc = acc' /\ Py.startswith "{" acc' = true
  | Outside =>
      acc <> EmptyString /\ acc' <> EmptyString /\ view acc = None /\ view acc' = None
  | Behind =>
      acc <> EmptyString /\ acc' <> EmptyString /\ view acc = view acc'
      /\ no_closing_brace rest = true
  end.

(** The two quotes the text of a chunk can be written in. *)
Definition is_quote (q : ascii) : Prop := q = "'"%char \/ q = Py.dquote.

(** A text with no place where [\x00] begins goes to the segment in the
    making as it is. *)
Fixpoint unsplit (u X : string) : Prop :=
  match u with
  | EmptyString => True
  | String a u' => Py.startswith "\x00" (String a (u' ++ X)) = false /\ unsplit u' X
  end.

(** ** The credential hash *)

Definition _get_hashed_password (random realm username password : pyval) : string :=
  let password_str := py_str username ++ ":" ++ py_str realm ++ ":" ++ py_str password in
  let password_hash := Py.upper (MD5.hexdigest password_str) in
  let random_str := py_str username ++ ":" ++ py_str random ++ ":" ++ password_hash in
  let random_hash := Py.upper (MD5.hexdigest random_str) in
  random_hash.

(** ** Sending *)

(** [self.transport.is_closing()]; the transport is [None] until
    [connection_made]. *)
Definition transport_is_closing : M bool :=
  c <- self ;;
  t <- orelse AttributeError (transport c) ;;
  ret (is_closing t).

Definition send (message_data : Messages.MessageData) : M unit :=
  assign (fun c => set_request_id (request_id c + 1) c) ;;
  c <- self ;;
  let message_data := Messages.set_id message_data (request_id c) in
  closing <- transport_is_closing ;;
  if negb closing then emit (Write message_data) else ret tt.

Definition pre_login : M unit :=
  emit (Log DEBUG "Prepare pre-login message") ;;
  c <- self ;;
  let message_data := Messages.new (request_id c) (sessionId c) in
  let message_data := Messages.login message_data (username c) Messages.default_password in
  closing <- transport_is_closing ;;
  if negb closing then emit (Write message_data) else ret tt.

Definition login : M unit :=
  emit (Log DEBUG "Prepare login message") ;;
  c <- self ;;
  let password_ := _get_hashed_password (random c) (realm c) (username c) (password c) in
  let message_data := Messages.new (request_id c) (sessionId c) in
  let message_data := Messages.login message_data (username c) (PyStr password_) in
  send message_data.

Definition attach_event_manager : M unit :=
  emit (Log INFO "Attach event manager") ;;
  c <- self ;;
  let message_data := Messages.new (request_id c) (sessionId c) in
  let message_data := Messages.attach message_data in
  send message_data.

Definition keep_alive : M unit :=
  emit (Log DEBUG "Keep alive") ;;
  c <- self ;;
  let message_data := Messages.new (request_id c) (sessionId c) in
  let message_data := Messages.keep_alive message_data (keep_alive_interval c) in
  send message_data ;;
  c <- self ;;
  emit (StartTimer (keep_alive_interval c)).

(** ** The handlers of a response *)

Definition handle_login_error (error message params : pyval) : M unit :=
  error_message <- orelse AttributeError (py_get error "message") ;;
  if py_eq_str error_message LOGIN_CHALLENGE then
    v <- orelse AttributeError (py_get params "random") ;;
    assign (set_random v) ;;
    v <- orelse AttributeError (py_get params "realm") ;;
    assign (set_realm v) ;;
    v <- orelse AttributeError (py_get message "session") ;;
    assign (set_sessionId v) ;;
    login
  else ret tt.

Definition handle_login (params : pyval) : M unit :=
  keep_alive_interval_ <- orelse AttributeError (py_get params "keepAliveInterval") ;;
  if py_is_not_none keep_alive_interval_ then
    v <- orelse TypeError (py_sub_int keep_alive_interval_ 5) ;;
    assign (set_keep_alive_interval v) ;;
    c <- self ;;
    emit (StartTimer (keep_alive_interval c)) ;;
    attach_event_manager
  else ret tt.

(** The error of a response is the login challenge: an object whose
    [message] is the text of the challenge. *)
Definition is_login_challenge (error : pyval) : bool :=
  match error with
  | PyDict e => py_eq_str (field e "message") LOGIN_CHALLENGE
  | _ => false
  end.

(** The interval a response to the login carries, less five: none when
    [params] is no object, when it has no [keepAliveInterval] (or [null]
    for it), or when that is no number. *)
Definition login_interval (params : pyval) : option pyval :=
  match params with
  | PyDict p =>
      if py_is_not_none (field p "keepAliveInterval")
      then py_sub_int (field p "keepAliveInterval") 5
      else None
  | _ => None
  end.

(** ** The event dispatcher *)

(** [for k in self.dahua_details: if k in DAHUA_ALLOWED_DETAILS:
    message[k] = self.dahua_details.get(k)], over the keys [ks] still to
    visit. *)
Fixpoint merge_details (details : list (string * string)) (ks : list string)
  (message : list (string * pyval)) : list (string * pyval) :=
  match ks with
  | [] => message
  | k :: rest =>
      if existsb (String.eqb k) DAHUA_ALLOWED_DETAILS
      then merge_details details rest
             (Dict.set message k
                (match Dict.get details k with Some v => PyStr v | None => PyNone end))
      else merge_details details rest message
  end.

(** The event as published: the details merged in, the topic and the
    payload. *)
Definition enriched (c : DahuaVTOClient) (message : list (string * pyval))
  : list (string * pyval) :=
  merge_details (dahua_details c) (Dict.keys (dahua_details c)) message.

Definition event_topic (c : DahuaVTOClient) (message : list (string * pyval)) : string :=
  py_str (mqtt_broker_topic_prefix c) ++ "/" ++ py_str (field message "Code") ++ "/Event".

Definition event_payload (c : DahuaVTOClient) (message : list (string * pyval)) : string :=
  Json.dumps_indent4 (PyDict (enriched c message)).

(** What the dispatcher does for one event that is published. *)
Definition publication (c : DahuaVTOClient) (message : list (string * pyval))
  : list effect :=
  [Log DEBUG "Publishing MQTT message";
   Publish (event_topic c message) (event_payload c message)].

(** The events of a list that the dispatcher publishes: the elements up
    to the first that is no object or whose publication is refused. *)
Fixpoint accepted (c : DahuaVTOClient) (event_list : list pyval)
  : list (list (string * pyval)) :=
  match event_list with
  | PyDict message :: rest =>
      if publish_raises (event_topic c message) (event_payload c message)
      then []
      else message :: accepted c rest
  | _ => []
  end.

(** The merge as the specification words it: a field the event already has
    is not overwritten. *)
Fixpoint merge_details_keeping (details : list (string * string)) (ks : list string)
  (message : list (string * pyval)) : list (string * pyval) :=
  match ks with
  | [] => message
  | k :: rest =>
      if existsb (String.eqb k) DAHUA_ALLOWED_DETAILS
      then match Dict.get message k with
           | Some _ => merge_details_keeping details rest message
           | None =>
               merge_details_keeping details rest
                 (Dict.set message k
                    (match Dict.get details k with Some v => PyStr v | None => PyNone end))
           end
      else merge_details_keeping details rest message
  end.

(** The body of the loop over the event list, for one element. *)
Definition dispatch_event (message : pyval) : M unit :=
  code_ <- orelse AttributeError (py_get message "Code") ;;
  c <- self ;;
  match message with
  | PyDict d =>
      let d' := merge_details (dahua_details c) (Dict.keys (dahua_details c)) d in
      let topic := py_str (mqtt_broker_topic_prefix c) ++ "/" ++ py_str code_ ++ "/Event" in
      let payload := Json.dumps_indent4 (PyDict d') in
      emit (Log DEBUG "Publishing MQTT message") ;;
      if publish_raises topic payload then raise ValueError
      else emit (Publish topic payload)
  | _ => raise AttributeError
  end.

Fixpoint dispatch_events (event_list : list pyval) : M unit :=
  match event_list with
  | [] => ret tt
  | message :: rest => dispatch_event message ;; dispatch_events rest
  end.

(** [for message in event_list]: a list gives its elements; a [dict] gives
    its keys and a [str] its characters, which are [str]s; the other values
    are not iterable. *)
Definition for_each_event (event_list : pyval) : M unit :=
  match event_list with
  | PyList l => dispatch_events l
  | PyDict d => dispatch_events (map (fun k => PyStr k) (Dict.keys d))
  | PyStr s =>
      dispatch_events (map (fun ch => PyStr (String ch EmptyString)) (list_ascii_of_string s))
  | _ => raise TypeError
  end.

Definition handle_notify_event_stream (params : pyval) : M unit :=
  try_except
    (event_list <- orelse AttributeError (py_get params "eventList") ;;
     for_each_event event_list)
    (emit (Log ERROR "Failed to handle event")).

(** ** The callbacks of the protocol *)

Definition data_received (data : string) : M unit :=
  try_except
    (let '(message, logged) := parse_response data in
     (fun c => (c, logged, inl tt)) ;;
     emit (Log DEBUG "Data received") ;;
     message_id <- orelse AttributeError (py_get message "id") ;;
     params <- orelse AttributeError (py_get message "params") ;;
     if py_eq_int message_id 1 then
       error <- orelse AttributeError (py_get message "error") ;;
       if py_is_not_none error
       then handle_login_error error message params
       else ret tt
     else if py_eq_int message_id 2 then
       handle_login params
     else
       method <- orelse AttributeError (py_get message "method") ;;
       if py_eq_str method "client.notifyEventStream"
       then handle_notify_event_stream params
       else ret tt)
    (emit (Log ERROR "Failed to handle message")).

(** [load_dahua_info]; [http] is the text of the response to the request,
    or [None] when the request or [raise_for_status] raises. *)
Definition CRLF : string := String (Py.byte_chr 13) (String (Py.byte_chr 10) EmptyString).

Fixpoint read_details (lines : list string) (details : list (string * string))
  : list (string * string) :=
  match lines with
  | [] => details
  | line :: rest =>
      if Py.contains "=" line then
        match Py.split "=" line with
        | k :: v :: _ => read_details rest (Dict.set details k v)
        | _ => read_details rest details
        end
      else read_details rest details
  end.

Definition load_dahua_info (http : option string) : M unit :=
  try_except
    (emit (Log DEBUG "Loading Dahua details") ;;
     c <- self ;;
     emit (HttpGet (base_url c ++ ENDPOINT_MAGICBOX_SYSINFO)) ;;
     text <- orelse RequestException http ;;
     assign (fun c => set_dahua_details (read_details (Py.split CRLF text) (dahua_details c)) c))
    (emit (Log ERROR "Failed to retrieve Dahua model")).

(** [initialize_mqtt_client]; [mqtt_ok] tells whether the broker is
    reached, [connect] raising otherwise. *)
Definition initialize_mqtt_client (mqtt_ok : bool) : M unit :=
  emit (Log INFO "Websockets: Connecting MQTT Broker") ;;
  if mqtt_ok then emit MqttConnect else raise MqttError.

Definition connection_made (t : Transport) (http : option string) (mqtt_ok : bool)
  : M unit :=
  emit (Log DEBUG "Connection established") ;;
  try_except
    (assign (set_transport (Some t)) ;;
     load_dahua_info http ;;
     initialize_mqtt_client mqtt_ok ;;
     pre_login)
    (emit (Log ERROR "Failed to handle message")).

Definition eof_received : M unit :=
  emit (Log INFO "Server sent EOF message") ;;
  emit LoopStop.

Definition connection_lost : M unit :=
  emit (Log ERROR "server closed the connection") ;;
  emit LoopStop.

End Methods.

(* ================================================================== *)
(** * One connection, as a run of events *)

Section Connection.
Context {P : Platform}.

(** What happens to a client once [connection_made] has run: the loop
    calls [data_received], [eof_received] or [connection_lost], a [Timer]
    thread calls [keep_alive], or the transport starts closing (after which
    its [is_closing()] stays true).  One call runs to its end before the
    next starts; the interleaving of a [Timer] thread with the loop inside
    one call is not modelled. *)
Inductive event : Type :=
| DataReceived (data : string)
| TimerFires
| TransportCloses
| EofReceived
| ConnectionLost.

Definition close_transport (c : DahuaVTOClient) : DahuaVTOClient :=
  match transport c with
  | Some _ => set_transport (Some (mkTransport true)) c
  | None => c
  end.

Definition react (ev : event) : M unit :=
  match ev with
  | DataReceived data => data_received data
  | TimerFires => keep_alive
  | TransportCloses => assign close_transport
  | EofReceived => eof_received
  | ConnectionLost => connection_lost
  end.

(** The client and the effects after the events [evs], an exception that
    leaves a call being lost with the call. *)
Fixpoint run (evs : list event) (c : DahuaVTOClient) : DahuaVTOClient * list effect :=
  match evs with
  | [] => (c, [])
  | ev :: rest =>
      let '(c1, e1, _) := react ev c in
      let '(c2, e2) := run rest c1 in
      (c2, (e1 ++ e2)%list)
  end.

(** A connection from its start: [__init__], [connection_made], and then
    the events. *)
Definition connect (environ : string -> option string) (t : Transport)
  (http : option string) (mqtt_ok : bool) : DahuaVTOClient * list effect :=
  fst (connection_made t http mqtt_ok (init environ)).

Definition connection (environ : string -> option string) (t : Transport)
  (http : option string) (mqtt_ok : bool) (evs : list event)
  : DahuaVTOClient * list effect :=
  let '(c0, es0) := connect environ t http mqtt_ok in
  let '(c1, es1) := run evs c0 in
  (c1, (es0 ++ es1)%list).

(** The requests written to the transport, and their ids. *)
Fixpoint written (es : list effect) : list Messages.MessageData :=
  match es with
  | [] => []
  | Write m :: rest => m :: written rest
  | _ :: rest => written rest
  end.

Definition written_ids (es : list effect) : list Z := map Messages.id (written es).

Fixpoint timers (es : list effect) : list pyval :=
  match es with
  | [] => []
  | StartTimer i :: rest => i :: timers rest
  | _ :: rest => timers rest
  end.

Fixpoint published (es : list effect) : list (string * string) :=
  match es with
  | [] => []
  | Publish t p :: rest => (t, p) :: published rest
  | _ :: rest => published rest
  end.

Fixpoint logged (es : list effect) : list (level * string) :=
  match es with
  | [] => []
  | Log lv t :: rest => (lv, t) :: logged rest
  | _ :: rest => logged rest
  end.

(** The transport is there and not closing. *)
Definition is_open (c : DahuaVTOClient) : bool :=
  match transport c with
  | Some t => negb (is_closing t)
  | None => false
  end.

(** The [k] integers that follow [n]. *)
Definition ids_after (n : Z) (k : nat) : list Z :=
  map (fun i => n + Z.of_nat i) (seq 1 k).

(** What a method may do to the request counter and the transport: it
    leaves the transport as it is; on an open transport the requests it
    writes carry the ids that follow the counter, which it leaves at the
    last of them; on a transport that is closing, or absent, it writes
    nothing. *)
Definition sends (c : DahuaVTOClient) (es : list effect) (c' : DahuaVTOClient) : Prop :=
  transport c' = transport c /\
  if is_open c
  then written_ids es = ids_after (request_id c) (List.length (written es))
       /\ request_id c' = request_id c + Z.of_nat (List.length (written es))
  else written es = [].

(** The invariant of a connection: the transport is there, the ids written
    so far are 1, 2, ... and, while the transport is open, the counter is
    the last of them. *)
Definition in_sequence (c : DahuaVTOClient) (ids : list Z) : Prop :=
  transport c <> None
  /\ ids = ids_after 0 (List.length ids)
  /\ (is_open c = true -> request_id c = Z.of_nat (List.length ids)).

Definition counts {A : Type} (m : M A) : Prop :=
  forall c, sends c (snd (fst (m c))) (fst (fst (m c))).

End Connection.

(* ================================================================== *)
(** * DahuaVTOManager *)

Module Manager.

(** How one pass through the body of [while True] goes: one of the calls
    in the [try] raises an [Exception], or all return, [run_forever]
    returning once [eof_received] or [connection_lost] has stopped the
    loop. *)
Inductive call : Type :=
| new_event_loop
| run_until_complete
| run_forever
| close.

Inductive attempt : Type :=
| Raises (at_call : call)
| Returns.

Inductive effect : Type :=
| Log (lv : level) (text : string)
| Sleep (seconds : Z).

(** The body of the loop. *)
Definition iteration (a : attempt) : list effect :=
  Log INFO "Connecting" ::
  match a with
  | Returns =>
      [Log WARNING "Disconnected, will try to connect in 5 seconds"; Sleep 5]
  | Raises _ =>
      [Log ERROR "Connection failed will try to connect in 30 seconds"; Sleep 30]
  end.

(** [initialize], as far as its first [n] passes; [attempts i] tells how
    pass [i] goes.  The loop has no exit: pass [n] follows pass [n - 1]
    whatever that one did. *)
Fixpoint initialize (attempts : nat -> attempt) (n : nat) : list effect :=
  match n with
  | O => []
  | S n' => (initialize attempts n' ++ iteration (attempts n'))%list
  end.

Fixpoint sleeps (es : list effect) : list Z :=
  match es with
  | [] => []
  | Sleep s :: rest => s :: sleeps rest
  | Log _ _ :: rest => sleeps rest
  end.

End Manager.

(* ================================================================== *)
(** * The door command and the broker callbacks *)

Definition ENDPOINT_ACCESS_CONTROL : string :=
  "accessControl.cgi?action=openDoor&UserID=101&Type=Remote&channel=".

Section Commands.
Context {P : Platform}.
Local Open Scope py_scope.

(** [self.mqtt_open_door_topic], which [__init__] sets from the topic
    prefix; neither is assigned again. *)
Definition mqtt_open_door_topic (c : DahuaVTOClient) : string :=
  py_str (mqtt_broker_topic_prefix c) ++ "/Command/Open".

(** [b.decode("utf-8")] succeeds: the bytes are well-formed UTF-8 (no
    overlong form, no surrogate, nothing above U+10FFFF).  [pending] is the
    number of continuation bytes still due and [lo], [hi] bound the next of
    them. *)
Fixpoint utf8_valid (pending : nat) (lo hi : Z) (b : string) : bool :=
  match b with
  | EmptyString => Nat.eqb pending 0
  | String c r =>
      let v := Py.byte_val c in
      match pending with
      | S k => (lo <=? v) && (v <=? hi) && utf8_valid k 0x80 0xbf r
      | O =>
          if v <? 0x80 then utf8_valid 0 0x80 0xbf r
          else if v <? 0xc2 then false
          else if v <? 0xe0 then utf8_valid 1 0x80 0xbf r
          else if v =? 0xe0 then utf8_valid 2 0xa0 0xbf r
          else if v =? 0xed then utf8_valid 2 0x80 0x9f r
          else if v <? 0xf0 then utf8_valid 2 0x80 0xbf r
          else if v =? 0xf0 then utf8_valid 3 0x90 0xbf r
          else if v <? 0xf4 then utf8_valid 3 0x80 0xbf r
          else if v =? 0xf4 then utf8_valid 3 0x80 0x8f r
          else false
      end
  end.

(** [None if payload is None else payload.decode("utf-8")]; the
    [UnicodeDecodeError] of bytes that are no UTF-8 is a [ValueError]. *)
Definition decode_payload (payload : option string) : M pyval :=
  match payload with
  | None => ret PyNone
  | Some b => if utf8_valid 0 0x80 0xbf b then ret (PyStr b) else raise ValueError
  end.

(** [x.get(k, default)] *)
Definition py_get_default (x : pyval) (k : string) (default : pyval) : option pyval :=
  match x with
  | PyDict d =>
      Some (match Dict.get d k with
            | Some v => v
            | None => default
            end)
  | _ => None
  end.

(** [access_control_open_door(door_id)]; [http_ok] tells whether the
    request and [raise_for_status] return. *)
Definition access_control_open_door (door_id : pyval) (http_ok : bool) : M unit :=
  try_except
    (emit (Log DEBUG "Access Control - Open door") ;;
     c <- self ;;
     let url := base_url c ++ ENDPOINT_ACCESS_CONTROL ++ py_str door_id in
     emit (HttpGet url) ;;
     (if http_ok then ret tt else raise RequestException) ;;
     emit (Log INFO "Access Control - Door was opened"))
    (emit (Log ERROR "Failed to open door")).

(** [on_mqtt_message(client, userdata, msg)], [userdata] being the client;
    [topic] and [payload] are those of [msg].  The callback has no [try]:
    what it raises leaves it. *)
Definition on_mqtt_message (topic : string) (payload : option string) (http_ok : bool)
  : M unit :=
  payload_ <- decode_payload payload ;;
  emit (Log DEBUG "MQTT Message") ;;
  c <- self ;;
  if String.eqb topic (mqtt_open_door_topic c) then
    data <- match payload_ with
            | PyStr (String a r) => orelse JSONDecodeError (Json.loads (String a r))
            | _ => ret (PyDict [])
            end ;;
    door_id <- orelse AttributeError (py_get_default data "Door" (PyInt 1)) ;;
    access_control_open_door door_id http_ok
  else ret tt.

(** The requests made to the device over HTTP. *)
Fixpoint requested (es : list effect) : list string :=
  match es with
  | [] => []
  | HttpGet url :: rest => url :: requested rest
  | _ :: rest => requested rest
  end.

(** The door a command names: [Door] of the object it carries, door 1
    when the object has no such key. *)
Definition door_of (d : list (string * pyval)) : pyval :=
  match Dict.get d "Door" with
  | Some v => v
  | None => PyInt 1
  end.

(** ** Predicates on a decoded message and on a chunk *)

(** The message is one [data_received] hands to the event dispatcher: an
    object whose id is neither 1 nor 2 and whose method is that of an event
    notification. *)
Definition is_event_notification (message : pyval) : bool :=
  match message with
  | PyDict m =>
      negb (py_eq_int (field m "id") 1)
      && negb (py_eq_int (field m "id") 2)
      && py_eq_str (field m "method") "client.notifyEventStream"
  | _ => false
  end.

(** A chunk with no NUL byte and no backslash followed by the characters
    [x00]. *)
Fixpoint no_nul (chunk : string) : bool :=
  match chunk with
  | EmptyString => true
  | String c r =>
      negb (Ascii.eqb c "000") && negb (literal_nul_escape c r) && no_nul r
  end.

(** The text of the response of the device to the request of its details:
    one line [key=value] for each detail, each ended by CR LF. *)
Definition detail_line (kv : string * string) : string :=
  fst kv ++ "=" ++ snd kv ++ CRLF.

Definition details_text (kvs : list (string * string)) : string :=
  String.concat EmptyString (map detail_line kvs).

(** A text without the character [c]. *)
Definition free_of (c : ascii) (s : string) : bool := negb (Py.contains c s).

Definition plain_detail (kv : string * string) : bool :=
  free_of "=" (fst kv) && free_of (Py.byte_chr 13) (fst kv)
  && free_of "=" (snd kv) && free_of (Py.byte_chr 13) (snd kv).

(** The keep-alive request a firing of the timer writes under the id [n]. *)
Definition keep_alive_request (c : DahuaVTOClient) (n : Z) : Messages.MessageData :=
  Messages.mkMessageData n (sessionId c) "global.keepAlive"
    (PyDict [("timeout", keep_alive_interval c); ("active", PyBool true)]).

(** What the device cannot change: the details read when the connection
    was made, the address and the credentials, and the topic prefix. *)
Definition settings (c : DahuaVTOClient)
  : list (string * string) * string * pyval * pyval * pyval :=
  (dahua_details c, base_url c, username c, password c, mqtt_broker_topic_prefix c).

(** ** What a callback leaves alone *)

(** A method that leaves [proj] of the client as it finds it and performs
    only effects that satisfy [ok]. *)
Definition stays {X A : Type} (proj : DahuaVTOClient -> X) (ok : effect -> bool)
  (m : M A) : Prop :=
  forall c, proj (fst (fst (m c))) = proj c /\ forallb ok (snd (fst (m c))) = true.

(** The effects of the dispatcher: a log entry or a publication. *)
Definition dispatcher_effect (e : effect) : bool :=
  match e with
  | Log _ _ | Publish _ _ => true
  | _ => false
  end.

(** The effects of the handshake: anything but a publication. *)
Definition handshake_effect (e : effect) : bool :=
  match e with
  | Publish _ _ => false
  | _ => true
  end.

Definition any_effect (e : effect) : bool := true.

End Commands.

(** [on_mqtt_disconnect]: the passes of its loop, which ends with the
    first pass whose [connect] returns.  [attempts i] tells whether the
    [connect] of pass [i] returns; [int(mqtt_broker_port)] raising counts
    as a [connect] that does not. *)
Module Broker.

Inductive effect : Type :=
| Log (lv : level) (text : string)
| Sleep (seconds : Z).

(** The body of the loop: its effects, and [connected] as it leaves it. *)
Definition pass (returns : bool) : list effect * bool :=
  if returns
  then ([Log INFO "MQTT Broker got disconnected trying to reconnect"], true)
  else ([Log INFO "MQTT Broker got disconnected trying to reconnect";
         Log ERROR "Failed to reconnect, retry in 60 seconds";
         Sleep 60], false).

(** The loop from pass [i] on, for at most [fuel] passes: the effects, and
    whether the loop has ended. *)
Fixpoint reconnect (attempts : nat -> bool) (i fuel : nat) : list effect * bool :=
  match fuel with
  | O => ([], false)
  | S fuel' =>
      let '(es, connected) := pass (attempts i) in
      if connected then (es, true)
      else let '(es', done) := reconnect attempts (S i) fuel' in
           ((es ++ es')%list, done)
  end.

Definition on_mqtt_disconnect (attempts : nat -> bool) (fuel : nat)
  : list effect * bool :=
  reconnect attempts 0 fuel.

Fixpoint sleeps (es : list effect) : list Z :=
  match es with
  | [] => []
  | Sleep s :: rest => s :: sleeps rest
  | Log _ _ :: rest => sleeps rest
  end.

End Broker.

(* ================================================================== *)
(** * A platform for the examples *)

(** The examples below hold no [float] and take the [repr] of no [str]; the
    platform they run on keeps a [float] as the text it was read from and
    does no arithmetic on it.  Its [publish] refuses a topic with a wildcard,
    as the paho client does; its limits are the defaults of the interpreter,
    4300 digits and what a recursion limit of 1000 leaves for nesting. *)
Definition example_platform : Platform :=
  {| float := string;
     float_of_literal := fun s => s;
     float_eq_int := fun _ _ => false;
     float_sub_int := fun f n => f ++ "-" ++ Py.str_of_int n;
     float_repr := fun f => f;
     float_json := fun f => f;
     str_repr := fun s => "'" ++ s ++ "'";
     publish_raises := fun topic _ => Py.contains "+" topic || Py.contains "#" topic;
     int_max_str_digits := 4300;
     json_nesting_limit := 990 |}.

(** JSON text is written with a backquote for each double quote. *)
Fixpoint lit (s : string) : string :=
  match s with
  | EmptyString => EmptyString
  | String c r => String (if Ascii.eqb c "`" then Py.dquote else c) (lit r)
  end.

Definition example_environ (name : string) : option string :=
  if String.eqb name "DAHUA_VTO_HOST" then Some "192.168.1.110"
  else if String.eqb name "DAHUA_VTO_USERNAME" then Some "admin"
  else if String.eqb name "DAHUA_VTO_PASSWORD" then Some "secret"
  else if String.eqb name "MQTT_BROKER_TOPIC_PREFIX" then Some "Dahua"
  else None.

(** A client whose connection has just been made, on an open transport,
    with the device details read and the broker reached. *)
Definition example_client : @DahuaVTOClient example_platform :=
  fst (fst (@connection_made example_platform (mkTransport false)
              (Some ("deviceType=VTO2000A" ++ CRLF ++ "serialNumber=ABC123" ++ CRLF))
              true (init example_environ))).

(** The chunks of a login: the challenge, the success, and a rejection that
    carries an interval. *)
Definition challenge_chunk : string :=
  Py.NUL ++ lit "{`error`:{`code`:268632079,`message`:`Component error: login challenge!`},`id`:1,`params`:{`random`:`123`,`realm`:`abc`},`result`:false,`session`:42}" ++ Py.NUL.

Definition challenge_message : list (string * @pyval example_platform) :=
  [("error", PyDict [("code", PyInt 268632079); ("message", PyStr LOGIN_CHALLENGE)]);
   ("id", PyInt 1);
   ("params", PyDict [("random", PyStr "123"); ("realm", PyStr "abc")]);
   ("result", PyBool false);
   ("session", PyInt 42)].

Definition success_chunk : string :=
  Py.NUL ++ lit "{`id`:2,`params`:{`keepAliveInterval`:30},`result`:true,`session`:42}" ++ Py.NUL.

Definition success_message : list (string * @pyval example_platform) :=
  [("id", PyInt 2); ("params", PyDict [("keepAliveInterval", PyInt 30)]);
   ("result", PyBool true); ("session", PyInt 42)].

Definition rejected_chunk : string :=
  Py.NUL ++ lit "{`error`:{`code`:268632085,`message`:`Component error: password not valid!`},`id`:2,`params`:{`keepAliveInterval`:30},`result`:false,`session`:42}" ++ Py.NUL.

(** The client of the examples once it is attached. *)
Definition attached_client : @DahuaVTOClient example_platform :=
  fst (@run example_platform
         [DataReceived challenge_chunk; DataReceived success_chunk] example_client).

(** A notification of one local alarm, and one whose event already has a
    [deviceType]. *)
Definition alarm_params : @pyval example_platform :=
  PyDict [("eventList", PyList [PyDict [("Code", PyStr "AlarmLocal")]])].

Definition typed_alarm : list (string * @pyval example_platform) :=
  [("Code", PyStr "AlarmLocal"); ("deviceType", PyStr "Keypad")].

Definition typed_alarm_params : @pyval example_platform :=
  PyDict [("eventList", PyList [PyDict typed_alarm])].

(** A chunk as the device frames it: a header of 32 bytes (a magic number,
    the session and request ids and, twice, the length of the body), and the
    body, which ends with a newline. *)
Definition device_header : list Z :=
  [32; 0; 0; 0; 68; 72; 73; 80; 42; 0; 0; 0; 2; 0; 0; 0;
   70; 0; 0; 0; 0; 0; 0; 0; 70; 0; 0; 0; 0; 0; 0; 0].

Definition device_chunk : string :=
  string_of_list_ascii (map Py.byte_chr device_header)
  ++ lit "{`id`:2,`params`:{`keepAliveInterval`:30},`result`:true,`session`:42}"
  ++ String (Py.byte_chr 10) EmptyString.

(* ================================================================== *)
(** * Properties *)

(* ================================================================== *)
(** * The credential hash *)

Section HashFacts.

Lemma digest_bytes (data : string) :
  List.length (MD5.digest data) = 16%nat /\
  Forall (fun b => 0 <= b < 256) (MD5.digest data).
Proof.
  unfold MD5.digest.
  destruct (MD5.blocks _ MD5.init _) as [a b c d].
  cbn [MD5.le_bytes map seq app].
  split; [reflexivity|].
  repeat constructor; apply Z.mod_pos_bound; lia.
Qed.

Lemma upper_hex2 (b : Z) :
  0 <= b < 256 ->
  exists x y, Py.upper (Py.hex2 b) = String x (String y EmptyString)
              /\ Py.is_upper_hex x = true /\ Py.is_upper_hex y = true.
Proof.
  intros Hb. unfold Py.hex2. cbn [Py.upper].
  do 2 eexists. split; [reflexivity|].
  assert (Hd : forall d, 0 <= d < 16 ->
               Py.is_upper_hex (Py.upper_char (Py.hex_digit d)) = true).
  { intros d Hd.
    assert (d = 0 \/ d = 1 \/ d = 2 \/ d = 3 \/ d = 4 \/ d = 5 \/ d = 6 \/ d = 7 \/
            d = 8 \/ d = 9 \/ d = 10 \/ d = 11 \/ d = 12 \/ d = 13 \/ d = 14 \/ d = 15)
      as Hcases by lia.
    repeat (destruct Hcases as [-> | Hcases]; [reflexivity|]).
    subst d. reflexivity. }
  split; apply Hd.
  - split; [apply Z.div_pos; lia | apply Z.div_lt_upper_bound; lia].
  - apply Z.mod_pos_bound; lia.
Qed.

Lemma upper_append (s t : string) : Py.upper (s ++ t) = Py.upper s ++ Py.upper t.
Proof. induction s as [|c s IH]; cbn; [reflexivity | now rewrite IH]. Qed.

Lemma upper_hexdigest_chars (bs : list Z) :
  Forall (fun b => 0 <= b < 256) bs ->
  String.length (Py.upper (String.concat EmptyString (map Py.hex2 bs)))
    = (2 * List.length bs)%nat
  /\ Forall (fun c => Py.is_upper_hex c = true)
       (list_ascii_of_string (Py.upper (String.concat EmptyString (map Py.hex2 bs)))).
Proof.
  induction 1 as [|b bs Hb Hbs [IHlen IHall]].
  - split; [reflexivity | constructor].
  - assert (Hcat : String.concat EmptyString (map Py.hex2 (b :: bs))
                   = Py.hex2 b ++ String.concat EmptyString (map Py.hex2 bs)).
    { cbn [map String.concat]. destruct (map Py.hex2 bs) eqn:E; [|reflexivity].
      cbn. unfold Py.hex2. reflexivity. }
    rewrite Hcat, upper_append.
    destruct (upper_hex2 b Hb) as (x & y & -> & Hx & Hy).
    cbn [append String.length list_ascii_of_string].
    split; [rewrite IHlen; cbn; lia | repeat constructor; assumption].
Qed.

End HashFacts.

(** C2.  For all strings [username], [realm], [nonce] and [password] the
    credential hash is the upper-case hexadecimal MD5 digest of
    [username:nonce:h1], where [h1] is the upper-case hexadecimal MD5 digest of
    [username:realm:password]; it is a function of its four arguments alone,
    always has a value, and that value is a text of 32 characters, each one
    of 0..9 and A..F. *)
Theorem hashed_password_two_stage_md5 :
  forall (P : Platform) (username realm nonce password_ : string),
    let upperHex_md5 s := Py.upper (MD5.hexdigest s) in
    let h1 := upperHex_md5 (username ++ ":" ++ realm ++ ":" ++ password_) in
    let h2 := upperHex_md5 (username ++ ":" ++ nonce ++ ":" ++ h1) in
    _get_hashed_password (PyStr nonce) (PyStr realm) (PyStr username) (PyStr password_) = h2
    /\ String.length h2 = 32%nat
    /\ Forall (fun c => Py.is_upper_hex c = true) (list_ascii_of_string h2).
Proof.
  intros P username realm nonce password_ upperHex_md5 h1 h2.
  split; [reflexivity|].
  subst h2 upperHex_md5. cbv beta. unfold MD5.hexdigest.
  destruct (digest_bytes (username ++ ":" ++ nonce ++ ":" ++ h1)) as [Hlen Hall].
  destruct (upper_hexdigest_chars _ Hall) as [Hl Hc].
  rewrite Hlen in Hl. split; assumption.
Qed.

(** The test vector of the specification, section 8. *)
Example hashed_password_vector :
  @_get_hashed_password example_platform
    (PyStr "123") (PyStr "abc") (PyStr "admin") (PyStr "secret")
  = "E817FB850DFB426FB006DD8A0A2FEA7A".
Proof. vm_compute. reflexivity. Qed.
Example md5_empty : MD5.hexdigest "" = "d41d8cd98f00b204e9800998ecf8427e".
Proof. vm_compute. reflexivity. Qed.

Example md5_abc : MD5.hexdigest "abc" = "900150983cd24fb0d6963f7d28e17f72".
Proof. vm_compute. reflexivity. Qed.

Example md5_a64 :
  MD5.hexdigest "aaaaaaaaaaaaaaaaaaaaaaaaaaaaaaaaaaaaaaaaaaaaaaaaaaaaaaaaaaaaaaaa"
  = "014842d480b571495a4a0363793f7367".
Proof. vm_compute. reflexivity. Qed.

Example md5_a56 :
  MD5.hexdigest "aaaaaaaaaaaaaaaaaaaaaaaaaaaaaaaaaaaaaaaaaaaaaaaaaaaaaaaa"
  = "3b0c8ac703f828b04c6c197006d17218".
Proof. vm_compute. reflexivity. Qed.

Example repr_example :
  Py.bytes_repr (Py.NUL ++ lit "{`id`:1}") = lit "b'\x00{`id`:1}'".
Proof. vm_compute. reflexivity. Qed.

Example split_example :
  Py.split "\x00" (lit "b'\x00{`id`:1}\x00garbage\x00'")
  = ["b'"; lit "{`id`:1}"; "garbage"; "'"].
Proof. vm_compute. reflexivity. Qed.

(* ================================================================== *)
(** * The decoder *)

Section DecoderFacts.
Context {P : Platform}.

Lemma append_assoc (a b c : string) : (a ++ b) ++ c = a ++ (b ++ c).
Proof. induction a as [|x a IH]; cbn; [reflexivity | now rewrite IH]. Qed.

Lemma append_nil_r (a : string) : a ++ EmptyString = a.
Proof. induction a as [|x a IH]; cbn; [reflexivity | now rewrite IH]. Qed.

Lemma startswith_brace_app (a t : string) :
  a <> EmptyString -> Py.startswith "{" (a ++ t) = Py.startswith "{" a.
Proof.
  destruct a as [|c a]; [congruence|]. intros _. cbn.
  destruct (Ascii.eqb "{" c); reflexivity.
Qed.

Lemma rindex_from_none (s : string) (i : nat) :
  Py.contains "}" s = false -> Py.rindex_from "}" s i = None.
Proof.
  revert i. induction s as [|c s IH]; intros i; cbn; [reflexivity|].
  intros H. apply orb_false_iff in H as [Hc Hs]. now rewrite IH, Hc.
Qed.

Lemma rindex_from_app (s x : string) (i : nat) :
  Py.contains "}" x = false ->
  Py.rindex_from "}" (s ++ x) i = Py.rindex_from "}" s i.
Proof.
  intros Hx. revert i. induction s as [|c s IH]; intros i; cbn.
  - now apply rindex_from_none.
  - now rewrite IH.
Qed.

Lemma rindex_from_bound (c : ascii) (s : string) (i j : nat) :
  Py.rindex_from c s i = Some j -> (i <= j < i + String.length s)%nat.
Proof.
  revert i j. induction s as [|a s IH]; intros i j; cbn; [discriminate|].
  destruct (Py.rindex_from c s (S i)) as [k|] eqn:E.
  - intros [= <-]. apply IH in E. lia.
  - destruct (Ascii.eqb a c); [intros [= <-]; lia | discriminate].
Qed.

Lemma substring_app_short (n : nat) (s t : string) :
  (n <= String.length s)%nat ->
  String.substring 0 n (s ++ t) = String.substring 0 n s.
Proof.
  revert s. induction n as [|n IH]; intros s Hn.
  - destruct s; destruct t; reflexivity.
  - destruct s as [|c s]; cbn in Hn; [lia|].
    cbn. rewrite IH by lia. reflexivity.
Qed.

(** What follows the last closing brace of a segment is not looked at. *)
Lemma view_app (s x : string) :
  s <> EmptyString -> Py.contains "}" x = false -> view (s ++ x) = view s.
Proof.
  intros Hs Hx. unfold view. rewrite startswith_brace_app by assumption.
  destruct (Py.startswith "{" s); [|reflexivity].
  unfold Py.rindex. rewrite rindex_from_app by assumption.
  destruct (Py.rindex_from "}" s 0) as [i|] eqn:E; [|reflexivity].
  apply rindex_from_bound in E. unfold Py.slice_to.
  rewrite substring_app_short by lia. reflexivity.
Qed.

Lemma view_app_none (s x : string) :
  s <> EmptyString -> view s = None -> view (s ++ x) = None.
Proof.
  intros Hs. unfold view. rewrite startswith_brace_app by assumption.
  destruct (Py.startswith "{" s); [discriminate | reflexivity].
Qed.

(** The scan of a segment depends on its view alone. *)
Lemma scan_parts_view (s s' : string) (rest rest' : list string) (r : pyval) :
  view s = view s' ->
  (forall r', scan_parts rest r' = scan_parts rest' r') ->
  scan_parts (s :: rest) r = scan_parts (s' :: rest') r.
Proof.
  unfold view. intros Hv Hrest. cbn [scan_parts].
  destruct (Py.startswith "{" s), (Py.startswith "{" s'); try discriminate Hv.
  - destruct (Py.rindex "}" s) as [i|], (Py.rindex "}" s') as [i'|];
      try discriminate Hv; [|reflexivity].
    injection Hv as ->. destruct (Json.loads _); [apply Hrest | reflexivity].
  - apply Hrest.
Qed.

Lemma app_not_empty (a b : string) : a <> EmptyString -> a ++ b <> EmptyString.
Proof. destruct a; [congruence | discriminate]. Qed.

(** The text of one byte. *)
Lemma quiet_repr (q c : ascii) :
  quiet q c = true -> Py.repr_byte q c = String c EmptyString.
Proof.
  unfold quiet. intros H. apply andb_true_iff in H as [Hp Hq].
  apply negb_true_iff in Hq. unfold Py.repr_byte. rewrite Hq.
  destruct c as [[] [] [] [] [] [] [] []]; try discriminate Hp; reflexivity.
Qed.

Lemma quiet_not_special (q c : ascii) :
  quiet q c = true ->
  Ascii.eqb "\" c = false /\ Ascii.eqb "000" c = false.
Proof.
  unfold quiet. intros H. apply andb_true_iff in H as [Hp _].
  destruct c as [[] [] [] [] [] [] [] []]; try discriminate Hp; split; reflexivity.
Qed.

Lemma repr_byte_shape (q c : ascii) :
  is_quote q ->
  Py.repr_byte q c <> EmptyString
  /\ (Ascii.eqb c "{" = false -> forall t, Py.startswith "{" (Py.repr_byte q c ++ t) = false)
  /\ (Ascii.eqb c "}" = false -> Py.contains "}" (Py.repr_byte q c) = false).
Proof.
  intros [-> | ->]; destruct c as [[] [] [] [] [] [] [] []];
    (split; [discriminate|]); split; intros H; try discriminate H; reflexivity.
Qed.

Lemma startswith_cons (a b : ascii) (p s : string) :
  Py.startswith (String a p) (String b s) = Ascii.eqb a b && Py.startswith p s.
Proof. reflexivity. Qed.

(** A text of the letter x and the digit 0 that the bytes do not begin
    with is not what their text begins with either. *)
Lemma repr_body_kept (q : ascii) (p : string) :
  is_quote q ->
  forallb (fun a => (Py.byte_val a =? 120) || (Py.byte_val a =? 48))
    (list_ascii_of_string p) = true ->
  p <> EmptyString ->
  forall r, Py.startswith p r = false ->
            Py.startswith p (Py.repr_body q r ++ String q EmptyString) = false.
Proof.
  intros Hq.
  assert (Hfirst : forall (c : ascii) (t : string),
             (exists u, Py.repr_byte q c ++ t = String c u)
             \/ (exists u, Py.repr_byte q c ++ t = String "\" u)).
  { intros c t. destruct Hq as [-> | ->];
      destruct c as [[] [] [] [] [] [] [] []];
      first [ left; eexists; reflexivity | right; eexists; reflexivity ]. }
  assert (Hkeep : forall (c : ascii) (t : string),
             (Py.byte_val c =? 120) || (Py.byte_val c =? 48) = true ->
             Py.repr_byte q c ++ t = String c t
             /\ Ascii.eqb c q = false /\ Py.byte_val c <> 92).
  { intros c t Hc. destruct Hq as [-> | ->];
      destruct c as [[] [] [] [] [] [] [] []];
      try discriminate Hc; repeat split; discriminate. }
  induction p as [|a p IH]; intros Hall Hne r Hr; [congruence|].
  cbn [list_ascii_of_string forallb] in Hall. apply andb_true_iff in Hall as [Ha Hp].
  destruct (Hkeep a EmptyString Ha) as (_ & Haq & Ha92).
  destruct r as [|c1 r1].
  - cbn [Py.repr_body append]. rewrite startswith_cons, Haq. reflexivity.
  - cbn [Py.repr_body]. rewrite append_assoc.
    rewrite startswith_cons in Hr.
    destruct (Ascii.eqb a c1) eqn:E.
    + apply Ascii.eqb_eq in E. subst c1. cbn [andb] in Hr.
      rewrite (proj1 (Hkeep a _ Ha)), startswith_cons, Ascii.eqb_refl. cbn [andb].
      destruct p as [|a' p']; [discriminate Hr|].
      apply IH; [assumption | discriminate | assumption].
    + destruct (Hfirst c1 (Py.repr_body q r1 ++ String q EmptyString))
        as [[u ->] | [u ->]]; rewrite startswith_cons; [now rewrite E|].
      destruct (Ascii.eqb a "\") eqn:E'; [|reflexivity].
      apply Ascii.eqb_eq in E'. subst a. exfalso. now apply Ha92.
Qed.

Lemma split_go_unsplit (u X acc : string) :
  unsplit u X ->
  Py.split_go "\x00" (u ++ X) 0 acc = Py.split_go "\x00" X 0 (acc ++ u).
Proof.
  revert acc. induction u as [|a u IH]; intros acc Hu.
  - now rewrite append_nil_r.
  - destruct Hu as [Ha Hu]. cbn [append Py.split_go]. rewrite Ha, (IH _ Hu).
    now rewrite append_assoc.
Qed.

(** The text of a byte other than NUL holds no place where the text splits,
    unless the byte is a backslash before the characters [x00]. *)
Lemma split_go_repr_byte (q c : ascii) (r acc : string) :
  is_quote q ->
  Ascii.eqb c "000" = false ->
  literal_nul_escape c r = false ->
  Py.split_go "\x00" (Py.repr_byte q c ++ (Py.repr_body q r ++ String q EmptyString)) 0 acc
  = Py.split_go "\x00" (Py.repr_body q r ++ String q EmptyString) 0
      (acc ++ Py.repr_byte q c).
Proof.
  intros Hq Hnul Hesc. apply split_go_unsplit.
  unfold literal_nul_escape in Hesc.
  destruct (Ascii.eqb c "\") eqn:Eb.
  - apply Ascii.eqb_eq in Eb. subst c. cbn [andb] in Hesc.
    assert (Hx : Py.startswith "x00" (Py.repr_body q r ++ String q EmptyString) = false).
    { apply repr_body_kept; [assumption | reflexivity | discriminate | assumption]. }
    assert (Hu : Py.repr_byte q "\" = "\\") by (destruct Hq as [-> | ->]; reflexivity).
    rewrite Hu. cbn [unsplit append]. rewrite !startswith_cons, Hx.
    repeat split; reflexivity.
  - clear Hesc. generalize (Py.repr_body q r ++ String q EmptyString). intros X.
    destruct Hq as [-> | ->]; destruct c as [[] [] [] [] [] [] [] []];
      try discriminate Hnul; try discriminate Eb;
      repeat split; reflexivity.
Qed.

Lemma not_quiet_not_brace (q c : ascii) :
  is_quote q -> quiet q c = false -> Ascii.eqb c "}" = false.
Proof.
  intros Hq H. destruct (Ascii.eqb c "}") eqn:E; [|reflexivity].
  apply Ascii.eqb_eq in E. subst c. destruct Hq as [-> | ->]; discriminate H.
Qed.

Lemma view_one (c : ascii) :
  Ascii.eqb c "{" = false -> view (String c EmptyString) = None.
Proof.
  intros H. unfold view. cbn [Py.startswith]. now rewrite Ascii.eqb_sym, H.
Qed.

Lemma is_quote_tail (q : ascii) :
  is_quote q ->
  Py.contains "}" (String q EmptyString) = false
  /\ view (String q EmptyString) = None
  /\ forall acc, Py.split_go "\x00" (String q EmptyString) 0 acc
                 = [acc ++ String q EmptyString].
Proof. intros [-> | ->]; repeat split. Qed.

(** From a later place of a readable chunk on, the segments of the text
    and of the bytes scan alike. *)
Lemma scan_split_readable (q : ascii) (data : string) :
  is_quote q ->
  forall (pl : place) (acc acc' : string) (r : pyval),
    readable q pl data = true ->
    alike pl acc acc' data ->
    scan_parts (Py.split_go "\x00" (Py.repr_body q data ++ String q EmptyString) 0 acc) r
    = scan_parts (Py.split_go Py.NUL data 0 acc') r.
Proof.
  intros Hq. destruct (is_quote_tail q Hq) as (Hqb & Hqv & Hqs).
  induction data as [|c data IH]; intros pl acc acc' r Hread Hlike.
  - cbn [Py.repr_body append]. rewrite Hqs.
    apply scan_parts_view; [|reflexivity].
    destruct pl; cbn [alike] in Hlike.
    + contradiction.
    + destruct Hlike as [-> ->]. exact Hqv.
    + destruct Hlike as [-> Hs]. apply view_app; [|assumption].
      destruct acc'; [discriminate Hs | discriminate].
    + destruct Hlike as (Ha & _ & Hv & Hv'). rewrite Hv'. now apply view_app_none.
    + destruct Hlike as (Ha & _ & Hv & _). rewrite <- Hv. now apply view_app.
  - cbn [readable] in Hread. cbn [Py.repr_body]. rewrite append_assoc.
    destruct (Ascii.eqb c "000") eqn:Enul.
    + apply Ascii.eqb_eq in Enul. subst c.
      assert (Hu : Py.repr_byte q "000" = "\x00") by (destruct Hq as [-> | ->]; reflexivity).
      rewrite Hu. cbn [append Py.split_go Py.startswith Py.NUL String.length Nat.pred].
      cbn [Ascii.eqb Bool.eqb andb].
      apply scan_parts_view.
      * destruct pl; cbn [alike] in Hlike.
        -- contradiction.
        -- now destruct Hlike as [-> ->].
        -- now destruct Hlike as [-> _].
        -- destruct Hlike as (_ & _ & Hv & Hv'). congruence.
        -- now destruct Hlike as (_ & _ & Hv & _).
      * intros r'. apply (IH AtStart); [assumption | now split].
    + apply andb_true_iff in Hread as [Hesc Hread]. apply negb_true_iff in Hesc.
      rewrite (split_go_repr_byte q c data acc Hq Enul Hesc).
      assert (Hbyte : forall a, Py.split_go Py.NUL (String c data) 0 a
                                = Py.split_go Py.NUL data 0 (a ++ String c EmptyString)).
      { intros a. cbn [Py.split_go Py.NUL Py.startswith].
        now rewrite Ascii.eqb_sym, Enul. }
      rewrite Hbyte.
      destruct (repr_byte_shape q c Hq) as (Hne & Hfirst & Hclose).
      destruct pl; cbn [alike] in Hlike.
      * contradiction.
      * destruct Hlike as [-> ->]. cbn [append].
        destruct (Ascii.eqb c "{") eqn:Eb.
        -- apply Ascii.eqb_eq in Eb. subst c.
           assert (Hu : Py.repr_byte q "{" = "{") by (destruct Hq as [-> | ->]; reflexivity).
           rewrite Hu. apply (IH Inside); [assumption | now split].
        -- apply (IH Outside); [assumption|].
           split; [assumption | split; [discriminate | split; [|now apply view_one]]].
           unfold view. specialize (Hfirst eq_refl EmptyString).
           rewrite append_nil_r in Hfirst. now rewrite Hfirst.
      * destruct Hlike as [-> Hs].
        assert (Hacc : acc' <> EmptyString) by (destruct acc'; [discriminate Hs | discriminate]).
        destruct (quiet q c) eqn:Eq.
        -- rewrite (quiet_repr q c Eq). apply (IH Inside); [assumption|].
           split; [reflexivity | now rewrite startswith_brace_app].
        -- apply andb_true_iff in Hread as [Hno Hread].
           pose proof (not_quiet_not_brace q c Hq Eq) as Hc.
           apply (IH Behind); [assumption|].
           split; [now apply app_not_empty | split; [now apply app_not_empty|]].
           split; [|assumption].
           rewrite !view_app; try assumption; try reflexivity;
             try (now apply Hclose); cbn [Py.contains]; now rewrite Hc.
      * destruct Hlike as (Ha & Ha' & Hv & Hv').
        apply (IH Outside); [assumption|].
        split; [now apply app_not_empty | split; [now apply app_not_empty|]].
        split; now apply view_app_none.
      * destruct Hlike as (Ha & Ha' & Hv & Hno).
        cbn [no_closing_brace] in Hno. rewrite Enul in Hno. cbn [orb] in Hno.
        apply andb_true_iff in Hno as [Hc Hno]. apply negb_true_iff in Hc.
        apply (IH Behind); [assumption|].
        split; [now apply app_not_empty | split; [now apply app_not_empty|]].
        split; [|assumption].
        rewrite !view_app; try assumption; try reflexivity;
          try (now apply Hclose); cbn [Py.contains]; now rewrite Hc.
Qed.

Lemma repr_quote_is_quote (data : string) : is_quote (Py.repr_quote data).
Proof. unfold Py.repr_quote, is_quote. destruct (_ && _); [now right | now left]. Qed.

(** On a framed chunk the segments of the decoder and the NUL-delimited
    segments of the chunk scan alike. *)
Lemma scan_parts_framed (data : string) :
  framed_chunk data = true ->
  scan_parts (response_parts data) PyNone = scan_parts (nul_segments data) PyNone.
Proof.
  unfold framed_chunk, nul_segments, response_parts, Py.split, Py.bytes_repr.
  pose proof (repr_quote_is_quote data) as Hq.
  set (q := Py.repr_quote data) in *. cbv zeta. intros Hread.
  assert (Hhead : forall t, Py.split_go "\x00" (String "b" (String q t)) 0 EmptyString
                            = Py.split_go "\x00" t 0 (String "b" (String q EmptyString))).
  { intros t. destruct Hq as [-> | ->]; reflexivity. }
  rewrite Hhead.
  assert (Hbq : view (String "b" (String q EmptyString)) = None) by reflexivity.
  destruct (is_quote_tail q Hq) as (Hqb & Hqv & Hqs).
  destruct data as [|c data].
  - cbn [Py.repr_body append]. rewrite Hqs.
    apply scan_parts_view; reflexivity.
  - cbn [readable] in Hread. cbn [Py.repr_body]. rewrite append_assoc.
    destruct (Ascii.eqb c "000") eqn:Enul.
    + apply Ascii.eqb_eq in Enul. subst c.
      assert (Hu : Py.repr_byte q "000" = "\x00") by (destruct Hq as [-> | ->]; reflexivity).
      rewrite Hu. cbn [append Py.split_go Py.startswith Py.NUL String.length Nat.pred].
      cbn [Ascii.eqb Bool.eqb andb].
      apply scan_parts_view; [reflexivity|].
      intros r'. apply (scan_split_readable q data Hq AtStart); [assumption | now split].
    + apply andb_true_iff in Hread as [Hesc Hread]. apply negb_true_iff in Hesc.
      apply andb_true_iff in Hread as [Hb Hread]. apply negb_true_iff in Hb.
      rewrite (split_go_repr_byte q c data _ Hq Enul Hesc).
      assert (Hbyte : Py.split_go Py.NUL (String c data) 0 EmptyString
                      = Py.split_go Py.NUL data 0 (String c EmptyString)).
      { cbn [Py.split_go Py.NUL Py.startswith]. now rewrite Ascii.eqb_sym, Enul. }
      rewrite Hbyte.
      apply (scan_split_readable q data Hq Outside); [assumption|].
      split; [discriminate | split; [discriminate | split; [|now apply view_one]]].
      now apply view_app_none.
Qed.

(** The scan of segments that all pass: the last object parsed, or the
    result so far, and no exception. *)
Lemma scan_parts_passes (parts : list string) :
  forallb segment_passes parts = true ->
  forall r, scan_parts parts r = (last (parsed_objects parts) r, None).
Proof.
  induction parts as [|s parts IH]; intros Hall r; [reflexivity|].
  cbn [forallb] in Hall. apply andb_true_iff in Hall as [Hs Hp].
  cbn [scan_parts parsed_objects].
  unfold segment_passes, segment_json in *.
  destruct (Py.startswith "{" s); cbn [negb orb] in Hs.
  - destruct (Py.rindex "}" s) as [i|]; [|discriminate Hs].
    destruct (Json.loads _) as [v|]; [|discriminate Hs].
    rewrite (IH Hp). f_equal.
    destruct (parsed_objects parts) as [|w ws] eqn:E; [reflexivity|].
    cbn [last]. clear. revert w. induction ws as [|x ws IHw]; intros w; [reflexivity|].
    cbn [last] in *. apply IHw.
  - apply IH, Hp.
Qed.

(** The scan up to and with a segment that begins with a brace and does
    not parse: what follows that segment is not looked at. *)
Lemma scan_parts_cutoff (pre : list string) (s : string) (post : list string) :
  forallb segment_passes pre = true ->
  Py.startswith "{" s = true ->
  segment_json s = None ->
  forall r, exists x,
    scan_parts (pre ++ s :: post) r = (last (parsed_objects pre) r, Some x).
Proof.
  induction pre as [|p pre IH]; intros Hall Hs Hj r.
  - cbn [app scan_parts parsed_objects last]. rewrite Hs.
    unfold segment_json in Hj.
    destruct (Py.rindex "}" s) as [i|]; [|now eexists].
    rewrite Hj. now eexists.
  - cbn [forallb] in Hall. apply andb_true_iff in Hall as [Hp Hpre].
    cbn [app scan_parts parsed_objects].
    unfold segment_passes, segment_json in Hp |- *.
    destruct (Py.startswith "{" p); cbn [negb orb] in Hp.
    + destruct (Py.rindex "}" p) as [i|]; [|discriminate Hp].
      destruct (Json.loads _) as [v|]; [|discriminate Hp].
      destruct (IH Hpre Hs Hj v) as [x Hx]. exists x. rewrite Hx. f_equal.
      destruct (parsed_objects pre) as [|w ws] eqn:E; [reflexivity|].
      cbn [last]. clear. revert w. induction ws as [|y ws IHw]; intros w; [reflexivity|].
      cbn [last] in *. apply IHw.
    + apply IH; assumption.
Qed.

Lemma last_cons {A : Type} (l : list A) (a d : A) : last (a :: l) d = last l a.
Proof.
  revert a d. induction l as [|b l IH]; intros a d; [reflexivity|].
  change (last (a :: b :: l) d) with (last (b :: l) d).
  now rewrite (IH b d), (IH b a).
Qed.

Lemma before_failure_passes (parts : list string) :
  forallb segment_passes parts = true -> before_failure parts = parts.
Proof.
  induction parts as [|s parts IH]; [reflexivity|].
  cbn [forallb before_failure]. intros H. apply andb_true_iff in H as [Hs Hp].
  now rewrite Hs, (IH Hp).
Qed.

(** One step of the scan. *)
Lemma scan_parts_cons (s : string) (parts : list string) (r : pyval) :
  scan_parts (s :: parts) r
  = if Py.startswith "{" s then
      match segment_json s with
      | Some v => scan_parts parts v
      | None =>
          (r, Some (match Py.rindex "}" s with
                    | Some _ => JSONDecodeError
                    | None => ValueError
                    end))
      end
    else scan_parts parts r.
Proof.
  cbn [scan_parts]. unfold segment_json.
  destruct (Py.startswith "{" s); [|reflexivity].
  destruct (Py.rindex "}" s) as [i|]; [|reflexivity].
  destruct (Json.loads _); reflexivity.
Qed.

(** The scan of any segments: the last object parsed before the first
    segment that fails, and an exception if one fails. *)
Lemma scan_parts_before_failure (parts : list string) :
  forall r,
    fst (scan_parts parts r) = last (parsed_objects (before_failure parts)) r
    /\ (forallb segment_passes parts = true -> snd (scan_parts parts r) = None)
    /\ (forallb segment_passes parts = false ->
        exists x, snd (scan_parts parts r) = Some x).
Proof.
  induction parts as [|s parts IH]; intros r.
  - cbn. split; [reflexivity | split; [reflexivity | discriminate]].
  - rewrite scan_parts_cons. cbn [before_failure forallb].
    destruct (Py.startswith "{" s) eqn:Hs.
    + destruct (segment_json s) as [v|] eqn:Hv.
      * assert (Hp : segment_passes s = true)
          by (unfold segment_passes; now rewrite Hs, Hv).
        rewrite Hp. cbn [andb parsed_objects]. rewrite Hs, Hv, last_cons. apply IH.
      * assert (Hp : segment_passes s = false)
          by (unfold segment_passes; now rewrite Hs, Hv).
        rewrite Hp. cbn [andb parsed_objects last fst snd].
        split; [reflexivity | split; [discriminate | intros _; now eexists]].
    + assert (Hp : segment_passes s = true)
        by (unfold segment_passes; now rewrite Hs).
      rewrite Hp. cbn [andb parsed_objects]. rewrite Hs. apply IH.
Qed.

End DecoderFacts.

(** Segments none of which begins with a brace all pass and give no
    object. *)
Lemma no_brace_segments (P : Platform) (parts : list string) :
  forallb (fun s => negb (Py.startswith "{" s)) parts = true ->
  parsed_objects parts = [] /\ forallb segment_passes parts = true.
Proof.
  induction parts as [|s l IH]; intros Hnone; [split; reflexivity|].
  cbn [forallb] in Hnone. apply andb_true_iff in Hnone as [Hs Hl].
  destruct (IH Hl) as [IH1 IH2].
  cbn [parsed_objects forallb]. unfold segment_passes at 1. rewrite Hs, IH2.
  apply negb_true_iff in Hs. rewrite Hs. split; [assumption | reflexivity].
Qed.

(** C3, as the code has it.  For every inbound chunk that does not begin
    with a brace, in which no backslash is followed by the characters [x00],
    and in whose NUL-delimited segments that begin with a brace every byte up
    to the last closing brace is a printable ASCII character other than the
    apostrophe and the backslash, the decoder splits the chunk into its
    NUL-delimited segments and, for each segment beginning with a brace, in
    their order and as far as the first of them that does not parse, parses
    the text up to the last closing brace of the segment as one JSON object.
    The invocation surfaces the last object parsed before that segment, and
    logs an error for the segment; when every segment that begins with a
    brace parses, that is the last successfully parsed object of the chunk
    and nothing is logged.  A chunk with no segment beginning with a brace
    yields no message and raises (and logs) nothing.  From the bytes of the
    specification's example, where the interpreter lets [json.loads] enter
    one object, it extracts the object with [id] 1 and [foo] [a}b]. *)
Theorem parse_response_nul_segments :
  forall (P : Platform) (data : string),
    framed_chunk data = true ->
    let segments := nul_segments data in
    parse_response data
    = (last (parsed_objects (before_failure segments)) PyNone,
       if forallb segment_passes segments then []
       else [Log ERROR "Failed to read data"])
    /\ (forallb segment_passes segments = true ->
        parse_response data = (last_parsed_object data, []))
    /\ (forallb (fun s => negb (Py.startswith "{" s)) segments = true ->
        parse_response data = (PyNone, []))
    /\ ((1 <= json_nesting_limit)%nat ->
        parse_response
          (Py.NUL ++ lit "{`id`:1,`foo`:`a}b`}" ++ Py.NUL ++ "garbage" ++ Py.NUL)
        = (PyDict [("id", PyInt 1); ("foo", PyStr "a}b")], [])).
Proof.
  intros P data Hf segments. subst segments.
  assert (Hgen : parse_response data
                 = (last (parsed_objects (before_failure (nul_segments data))) PyNone,
                    if forallb segment_passes (nul_segments data) then []
                    else [Log ERROR "Failed to read data"])).
  { unfold parse_response. rewrite (scan_parts_framed data Hf).
    destruct (scan_parts_before_failure (nul_segments data) PyNone) as (H1 & H2 & H3).
    destruct (scan_parts (nul_segments data) PyNone) as [r x]. cbn [fst snd] in *.
    subst r. destruct (forallb segment_passes (nul_segments data)).
    - now rewrite (H2 eq_refl).
    - destruct (H3 eq_refl) as [y ->]. reflexivity. }
  assert (Hpass : forallb segment_passes (nul_segments data) = true ->
                  parse_response data = (last_parsed_object data, [])).
  { intros Hall. rewrite Hgen, Hall, (before_failure_passes _ Hall). reflexivity. }
  split; [exact Hgen | split; [exact Hpass | split]].
  - intros Hnone. destruct (no_brace_segments P _ Hnone) as [Hobjs Hall].
    rewrite (Hpass Hall). unfold last_parsed_object. now rewrite Hobjs.
  - intros Hroom. destruct P as [fl fol fei fsi fr fj sr pr digits room].
    cbn [json_nesting_limit] in Hroom. destruct room as [|room]; [lia|].
    vm_compute. reflexivity.
Qed.

(** The theorem at the chunk of the example and at a chunk of garbage. *)
Lemma parse_response_nul_segments_witness :
  @parse_response example_platform
     (Py.NUL ++ lit "{`id`:1,`foo`:`a}b`}" ++ Py.NUL ++ "garbage" ++ Py.NUL)
  = (PyDict [("id", PyInt 1); ("foo", PyStr "a}b")], [])
  /\ @parse_response example_platform ("garbage" ++ Py.NUL ++ "more")
     = (PyNone, []).
Proof.
  split.
  - exact (proj1 (proj2 (parse_response_nul_segments example_platform
                           (Py.NUL ++ lit "{`id`:1,`foo`:`a}b`}" ++ Py.NUL
                              ++ "garbage" ++ Py.NUL)
                           eq_refl))
             eq_refl).
  - exact (proj1 (proj2 (proj2 (parse_response_nul_segments example_platform
                                  ("garbage" ++ Py.NUL ++ "more") eq_refl)))
             eq_refl).
Defined.

(** C3 as the specification states it fails on a chunk whose JSON text
    holds an apostrophe: the segment between the two NUL bytes begins with a
    brace and is valid JSON, but the decoder reads the text of the chunk,
    where the apostrophe is escaped, and surfaces nothing. *)
Lemma parse_response_apostrophe :
  @parse_response example_platform (Py.NUL ++ lit "{`name`:`it's`}" ++ Py.NUL)
  = (PyNone, [Log ERROR "Failed to read data"])
  /\ @last_parsed_object example_platform (Py.NUL ++ lit "{`name`:`it's`}" ++ Py.NUL)
     = PyDict [("name", PyStr "it's")]
  /\ @response_parts (Py.NUL ++ lit "{`name`:`it's`}" ++ Py.NUL)
     = ["b'"; lit "{`name`:`it\'s`}"; "'"].
Proof. vm_compute. repeat split; reflexivity. Qed.

(** It fails as well on a framed chunk with a segment that does not parse
    before one that does: the specification surfaces the last object that
    parses, the decoder the last before the failure. *)
Example parse_response_stops_early :
  let chunk := Py.NUL ++ lit "{`id`:1}" ++ Py.NUL ++ lit "{`id`:}" ++ Py.NUL
               ++ lit "{`id`:3}" ++ Py.NUL in
  framed_chunk chunk = true
  /\ @parse_response example_platform chunk
     = (PyDict [("id", PyInt 1)], [Log ERROR "Failed to read data"])
  /\ @last_parsed_object example_platform chunk = PyDict [("id", PyInt 3)].
Proof. vm_compute. repeat split; reflexivity. Qed.

(** A chunk as the device sends it: the 32 bytes of a header, the JSON
    text, a newline.  It is framed, and decoded as the specification has
    it. *)
Example parse_response_with_header :
  framed_chunk device_chunk = true
  /\ @parse_response example_platform device_chunk
     = (PyDict [("id", PyInt 2); ("params", PyDict [("keepAliveInterval", PyInt 30)]);
                ("result", PyBool true); ("session", PyInt 42)], []).
Proof. vm_compute. split; reflexivity. Qed.

(** A chunk with a backslash before the characters [x00] is split there,
    though it holds no NUL byte. *)
Example parse_response_literal_escape :
  @parse_response example_platform "\x00{}" = (PyDict [], [])
  /\ @last_parsed_object example_platform "\x00{}" = PyNone.
Proof. vm_compute. split; reflexivity. Qed.

(** The decoder and the specification part ways on a chunk that begins with
    its JSON text, and on one with a newline between two tokens. *)
Example parse_response_unframed :
  @parse_response example_platform (lit "{`id`:1}") = (PyNone, [])
  /\ @last_parsed_object example_platform (lit "{`id`:1}") = PyDict [("id", PyInt 1)].
Proof. vm_compute. split; reflexivity. Qed.

Example parse_response_newline :
  let chunk := Py.NUL ++ lit "{`id`:" ++ String (Py.byte_chr 10) "1}" ++ Py.NUL in
  @parse_response example_platform chunk = (PyNone, [Log ERROR "Failed to read data"])
  /\ @last_parsed_object example_platform chunk = PyDict [("id", PyInt 1)].
Proof. vm_compute. split; reflexivity. Qed.

(** C10, as the code has it.  For any inbound chunk that does not begin
    with a brace, in which no backslash is followed by the characters [x00],
    and in whose NUL-delimited segments that begin with a brace every byte up
    to the last closing brace is a printable ASCII character other than the
    apostrophe and the backslash: when the NUL-delimited segments of the
    chunk hold one that begins with a brace and whose text up to its last
    closing brace does not parse as JSON, or that has no closing brace, the
    decoder stops at the first such segment.  It logs the failure and
    returns the last object parsed from a segment before that one, or no
    message when there is none; the segments after it are not examined,
    whatever they hold. *)
Theorem parse_response_cutoff :
  forall (P : Platform) (data : string) (pre : list string) (s : string)
         (post : list string),
    framed_chunk data = true ->
    nul_segments data = (pre ++ s :: post)%list ->
    forallb segment_passes pre = true ->
    Py.startswith "{" s = true ->
    segment_json s = None ->
    parse_response data
    = (last (parsed_objects pre) PyNone, [Log ERROR "Failed to read data"]).
Proof.
  intros P data pre s post Hf Hparts Hpre Hs Hj.
  unfold parse_response. rewrite (scan_parts_framed data Hf), Hparts.
  destruct (scan_parts_cutoff pre s post Hpre Hs Hj PyNone) as [x ->].
  reflexivity.
Qed.

(** The cutoff at a chunk of three objects the second of which is broken:
    the first is returned, the third is valid and never read. *)
Lemma parse_response_cutoff_witness :
  let chunk := Py.NUL ++ lit "{`id`:1}" ++ Py.NUL ++ lit "{`id`:}" ++ Py.NUL
               ++ lit "{`id`:3}" ++ Py.NUL in
  nul_segments chunk
  = ([EmptyString; lit "{`id`:1}"] ++ lit "{`id`:}" :: [lit "{`id`:3}"; EmptyString])%list
  /\ @segment_json example_platform (lit "{`id`:3}") = Some (PyDict [("id", PyInt 3)])
  /\ @parse_response example_platform chunk
     = (PyDict [("id", PyInt 1)], [Log ERROR "Failed to read data"]).
Proof.
  cbv zeta. split; [vm_compute; reflexivity|]. split; [vm_compute; reflexivity|].
  apply (parse_response_cutoff example_platform _
           [EmptyString; lit "{`id`:1}"] (lit "{`id`:}") [lit "{`id`:3}"; EmptyString]);
    vm_compute; reflexivity.
Defined.

(** C10 as it is stated fails on a chunk that begins with its first
    segment: that segment begins with a brace and does not parse, but the
    decoder, which reads it behind the two characters that open the text of
    the chunk, does not take it for one that begins with a brace; it goes on
    and returns the object of the second segment, and logs nothing. *)
Lemma parse_response_cutoff_first_segment :
  nul_segments (lit "{`id`:}" ++ Py.NUL ++ lit "{`id`:3}" ++ Py.NUL)
  = [lit "{`id`:}"; lit "{`id`:3}"; EmptyString]
  /\ Py.startswith "{" (lit "{`id`:}") = true
  /\ @segment_json example_platform (lit "{`id`:}") = None
  /\ @response_parts (lit "{`id`:}" ++ Py.NUL ++ lit "{`id`:3}" ++ Py.NUL)
     = [lit "b'{`id`:}"; lit "{`id`:3}"; "'"]
  /\ @parse_response example_platform
       (lit "{`id`:}" ++ Py.NUL ++ lit "{`id`:3}" ++ Py.NUL)
     = (PyDict [("id", PyInt 3)], []).
Proof. vm_compute. repeat split; reflexivity. Qed.

(** It fails as well on a segment with a raw tab inside a string, which is
    no JSON: the decoder reads the tab as its escape, which is, and goes
    on. *)
Example parse_response_cutoff_tab :
  let broken := lit "{`a`:`x" ++ String (Py.byte_chr 9) (lit "y`}") in
  let chunk := Py.NUL ++ broken ++ Py.NUL ++ lit "{`id`:3}" ++ Py.NUL in
  @segment_json example_platform broken = None
  /\ @parse_response example_platform chunk = (PyDict [("id", PyInt 3)], []).
Proof. vm_compute. split; reflexivity. Qed.

(* ================================================================== *)
(** * The login handshake *)

Section HandshakeFacts.
Context {P : Platform}.

Lemma send_open (c : DahuaVTOClient) (t : Transport) (md : Messages.MessageData) :
  transport c = Some t -> is_closing t = false ->
  send md c = (set_request_id (request_id c + 1) c,
               [Write (Messages.set_id md (request_id c + 1))], inl tt).
Proof.
  intros Ht Hc. unfold send, bind, assign, self, transport_is_closing, orelse, ret, emit.
  destruct c; cbn in *. rewrite Ht. cbn. rewrite Hc. reflexivity.
Qed.

Lemma send_closing (c : DahuaVTOClient) (t : Transport) (md : Messages.MessageData) :
  transport c = Some t -> is_closing t = true ->
  send md c = (set_request_id (request_id c + 1) c, [], inl tt).
Proof.
  intros Ht Hc. unfold send, bind, assign, self, transport_is_closing, orelse, ret, emit.
  destruct c; cbn in *. rewrite Ht. cbn. rewrite Hc. reflexivity.
Qed.

Lemma written_app (es es' : list effect) :
  written (es ++ es') = (written es ++ written es')%list.
Proof.
  induction es as [|e es IH]; [reflexivity|].
  destruct e; cbn; rewrite ?IH; reflexivity.
Qed.

Lemma timers_app (es es' : list effect) :
  timers (es ++ es') = (timers es ++ timers es')%list.
Proof.
  induction es as [|e es IH]; [reflexivity|].
  destruct e; cbn; rewrite ?IH; reflexivity.
Qed.

Lemma published_app (es es' : list effect) :
  published (es ++ es') = (published es ++ published es')%list.
Proof.
  induction es as [|e es IH]; [reflexivity|].
  destruct e; cbn; rewrite ?IH; reflexivity.
Qed.

(** The decoder performs no effect but the log of a failure. *)
Lemma parse_response_logged (data : string) (v : pyval) (logged : list effect) :
  parse_response data = (v, logged) ->
  written logged = [] /\ timers logged = [].
Proof.
  unfold parse_response.
  destruct (scan_parts (response_parts data) PyNone) as [r [x|]];
    intros [= _ <-]; split; reflexivity.
Qed.

End HandshakeFacts.

Ltac step_m :=
  cbv beta iota zeta delta
    [data_received handle_login_error handle_login login attach_event_manager
     keep_alive send transport_is_closing try_except bind ret emit self assign
     orelse raise py_get py_is_not_none].

(** C1, as the code has it.  For every inbound response with id 1 whose
    error carries exactly the message of the login challenge and whose params
    are an object, received on an open transport, the client stores
    [params.random], [params.realm] and the [session] of the message, and
    sends under the next request id a second [global.login] whose password is
    the credential hash of the stored nonce and realm and of the configured
    user name and password.  For a response with id 1 whose error is absent
    or is not the challenge, or whose params are no object, no request is
    written, no timer is started and the client is left as it was. *)
Theorem login_challenge_handshake :
  forall (P : Platform) (c : DahuaVTOClient) (data : string)
         (m : list (string * pyval)) (logged : list effect),
    parse_response data = (PyDict m, logged) ->
    py_eq_int (field m "id") 1 = true ->
    (forall (p : list (string * pyval)) (t : Transport),
        is_login_challenge (field m "error") = true ->
        field m "params" = PyDict p ->
        transport c = Some t -> is_closing t = false ->
        let digest :=
          _get_hashed_password (field p "random") (field p "realm")
            (username c) (password c) in
        data_received data c
        = (mkClient (dahua_details c) (base_url c) (username c) (password c)
             (mqtt_broker_topic_prefix c) (field p "realm") (field p "random")
             (request_id c + 1) (field m "session") (keep_alive_interval c)
             (transport c),
           (logged ++
            [Log DEBUG "Data received"; Log DEBUG "Prepare login message";
             Write (Messages.mkMessageData (request_id c + 1) (field m "session")
                      "global.login"
                      (PyDict [("userName", username c); ("password", PyStr digest);
                               ("clientType", PyStr "..."); ("loginType", PyStr "Direct")]))])%list,
           inl tt))
    /\ (is_login_challenge (field m "error") = false
        \/ is_dict (field m "params") = false ->
        exists es,
          data_received data c = (c, es, inl tt)
          /\ written es = [] /\ timers es = []).
Proof.
  intros P c data m logged Hparse Hid. split.
  - intros p t Hch Hp Ht Hopen digest.
    unfold is_login_challenge in Hch.
    destruct (field m "error") as [| | | | |l|e] eqn:He; try discriminate Hch.
    step_m. rewrite Hparse. step_m. rewrite Hid. step_m. rewrite He. step_m.
    rewrite Hch. step_m. rewrite Hp. step_m.
    destruct c; cbn in Ht |- *. rewrite Ht. cbn. rewrite Hopen. reflexivity.
  - intros Hno.
    destruct (parse_response_logged _ _ _ Hparse) as [Hw Ht].
    step_m. rewrite Hparse. step_m. rewrite Hid. step_m.
    destruct (is_login_challenge (field m "error")) eqn:Hch.
    + destruct Hno as [Hno | Hno]; [discriminate Hno|].
      unfold is_login_challenge in Hch.
      destruct (field m "error") as [| | | | |l|e] eqn:He; try discriminate Hch.
      step_m. rewrite Hch. step_m.
      destruct (field m "params") as [| | | | |l|p] eqn:Hp; try discriminate Hno;
        step_m; eexists; (split; [reflexivity|]);
        rewrite !written_app, !timers_app, Hw, Ht; split; reflexivity.
    + clear Hno. unfold is_login_challenge in Hch.
      destruct (field m "error") as [| | | | |l|e] eqn:He; step_m; rewrite ?Hch; step_m;
        eexists; (split; [reflexivity|]);
        rewrite !written_app, !timers_app, Hw, Ht; split; reflexivity.
Qed.

(** The theorem at the challenge of the examples: the password sent is the
    test vector of the credential hash. *)
Lemma login_challenge_handshake_witness :
  @data_received example_platform challenge_chunk example_client
  = (mkClient (dahua_details example_client) (base_url example_client)
       (PyStr "admin") (PyStr "secret") (PyStr "Dahua")
       (PyStr "abc") (PyStr "123") 2 (PyInt 42) (PyInt 0)
       (Some (mkTransport false)),
     [Log DEBUG "Data received"; Log DEBUG "Prepare login message";
      Write (Messages.mkMessageData 2 (PyInt 42) "global.login"
               (PyDict [("userName", PyStr "admin");
                        ("password", PyStr "E817FB850DFB426FB006DD8A0A2FEA7A");
                        ("clientType", PyStr "..."); ("loginType", PyStr "Direct")]))],
     inl tt).
Proof.
  refine (proj1 (login_challenge_handshake example_platform example_client
                   challenge_chunk challenge_message [] _ _)
            [("random", PyStr "123"); ("realm", PyStr "abc")] (mkTransport false)
            _ _ _ _);
    vm_compute; reflexivity.
Defined.

(** C1 as the specification states it fails on a challenge that carries no
    params: reading the nonce raises, nothing is stored and nothing is
    sent. *)
Lemma login_challenge_without_params :
  fst (@parse_response example_platform
         (Py.NUL ++ lit "{`error`:{`message`:`Component error: login challenge!`},`id`:1,`session`:42}" ++ Py.NUL))
  = PyDict [("error", PyDict [("message", PyStr LOGIN_CHALLENGE)]);
            ("id", PyInt 1); ("session", PyInt 42)]
  /\ @data_received example_platform
       (Py.NUL ++ lit "{`error`:{`message`:`Component error: login challenge!`},`id`:1,`session`:42}" ++ Py.NUL)
       example_client
     = (example_client,
        [Log DEBUG "Data received"; Log ERROR "Failed to handle message"],
        inl tt).
Proof. vm_compute. split; reflexivity. Qed.

(** What a response to the login without a usable interval does: nothing,
    or nothing but raise. *)
Lemma handle_login_no_interval (P : Platform) (params_ : pyval) (c : DahuaVTOClient) :
  login_interval params_ = None ->
  exists x, handle_login params_ c = (c, [], x).
Proof.
  intros H. unfold login_interval in H. step_m.
  destruct params_ as [| | | | |l|p]; step_m; try (eexists; reflexivity).
  destruct (field p "keepAliveInterval") as [| | | | | |] eqn:Hk; cbn in H |- *;
    try discriminate H; eexists; reflexivity.
Qed.

(** C4.  For every inbound response with id 2 whose params hold an integer
    [keepAliveInterval], received on an open transport, the client stores
    [keepAliveInterval - 5] as its interval, starts a timer of that many
    seconds for the first keep-alive, and then sends the attach request
    under the next request id; when [keepAliveInterval] is absent no timer
    is started, no request is written and the client is left as it was. *)
Theorem login_success_schedules_keep_alive :
  forall (P : Platform) (c : DahuaVTOClient) (data : string)
         (m : list (string * pyval)) (logged : list effect),
    parse_response data = (PyDict m, logged) ->
    py_eq_int (field m "id") 1 = false ->
    py_eq_int (field m "id") 2 = true ->
    (forall (p : list (string * pyval)) (k : Z) (t : Transport),
        field m "params" = PyDict p ->
        field p "keepAliveInterval" = PyInt k ->
        transport c = Some t -> is_closing t = false ->
        data_received data c
        = (mkClient (dahua_details c) (base_url c) (username c) (password c)
             (mqtt_broker_topic_prefix c) (realm c) (random c)
             (request_id c + 1) (sessionId c) (PyInt (k - 5)) (transport c),
           (logged ++
            [Log DEBUG "Data received"; StartTimer (PyInt (k - 5));
             Log INFO "Attach event manager";
             Write (Messages.mkMessageData (request_id c + 1) (sessionId c)
                      "<event-attach method>" (PyDict []))])%list,
           inl tt))
    /\ (forall p : list (string * pyval),
           field m "params" = PyDict p ->
           Dict.get p "keepAliveInterval" = None ->
           data_received data c = (c, (logged ++ [Log DEBUG "Data received"])%list, inl tt)).
Proof.
  intros P c data m logged Hparse Hid1 Hid2. split.
  - intros p k t Hp Hk Ht Hopen.
    step_m. rewrite Hparse. step_m. rewrite Hid1, Hid2. step_m. rewrite Hp. step_m.
    rewrite Hk. cbn [py_sub_int]. step_m.
    destruct c; cbn in Ht |- *. rewrite Ht. cbn. rewrite Hopen. reflexivity.
  - intros p Hp Hk.
    step_m. rewrite Hparse. step_m. rewrite Hid1, Hid2. step_m. rewrite Hp. step_m.
    unfold field. rewrite Hk. reflexivity.
Qed.

(** With [keepAliveInterval] 30 the timer is started for 25 seconds. *)
Lemma login_success_schedules_keep_alive_witness :
  @data_received example_platform success_chunk example_client
  = (mkClient (dahua_details example_client) (base_url example_client)
       (PyStr "admin") (PyStr "secret") (PyStr "Dahua")
       PyNone PyNone 2 (PyInt 0) (PyInt 25) (Some (mkTransport false)),
     [Log DEBUG "Data received"; StartTimer (PyInt 25);
      Log INFO "Attach event manager";
      Write (Messages.mkMessageData 2 (PyInt 0) "<event-attach method>" (PyDict []))],
     inl tt).
Proof.
  refine (proj1 (login_success_schedules_keep_alive example_platform example_client
                   success_chunk success_message [] _ _ _)
            [("keepAliveInterval", PyInt 30)] 30 (mkTransport false) _ _ _ _);
    vm_compute; reflexivity.
Defined.

Ltac tidy := rewrite ?app_nil_r, <- ?app_assoc; cbn [app]; reflexivity.

Ltac settle := first [left; tidy | right; tidy].

(** C9, as the code has it.  A response to id 1 that carries no error or
    an error other than the login challenge, or whose params are no object,
    and a response to id 2 whose params are no object or whose
    [keepAliveInterval] is absent, [null], or neither a number nor a boolean,
    whether or not it carries an error, makes no progress: no request is
    written, no timer is started, and the client (its session id, realm,
    nonce, interval and request counter) is left as it was.  The response is
    not logged as rejected.  After what the decoder logged, the log holds
    the debug entry that is written for every decoded message before its id
    is read and, when reading a field of the response raised, the error
    entry of the handler of all exceptions, and nothing else; a response to
    id 1 without an error, or with an error object that is not the
    challenge, leaves the debug entry alone. *)
Theorem unexpected_response_no_progress :
  forall (P : Platform) (c : DahuaVTOClient) (data : string)
         (m : list (string * pyval)) (logged : list effect),
    parse_response data = (PyDict m, logged) ->
    (py_eq_int (field m "id") 1 = true
     /\ (is_login_challenge (field m "error") = false
         \/ is_dict (field m "params") = false))
    \/ (py_eq_int (field m "id") 1 = false
        /\ py_eq_int (field m "id") 2 = true
        /\ login_interval (field m "params") = None) ->
    (data_received data c
     = (c, (logged ++ [Log DEBUG "Data received"])%list, inl tt)
     \/ data_received data c
        = (c,
           (logged ++ [Log DEBUG "Data received";
                       Log ERROR "Failed to handle message"])%list,
           inl tt))
    /\ written (snd (fst (data_received data c))) = []
    /\ timers (snd (fst (data_received data c))) = []
    /\ (py_eq_int (field m "id") 1 = true ->
        is_login_challenge (field m "error") = false ->
        field m "error" = PyNone \/ is_dict (field m "error") = true ->
        data_received data c
        = (c, (logged ++ [Log DEBUG "Data received"])%list, inl tt)).
Proof.
  intros P c data m logged Hparse Hcase.
  destruct (parse_response_logged _ _ _ Hparse) as [Hw Ht].
  assert (Hquiet : forall es,
             es = (logged ++ [Log DEBUG "Data received"])%list
             \/ es = (logged ++ [Log DEBUG "Data received";
                                 Log ERROR "Failed to handle message"])%list ->
             written es = [] /\ timers es = []).
  { intros es [-> | ->]; now rewrite written_app, timers_app, Hw, Ht. }
  assert (Hrun : data_received data c
                 = (c, (logged ++ [Log DEBUG "Data received"])%list, inl tt)
                 \/ data_received data c
                    = (c,
                       (logged ++ [Log DEBUG "Data received";
                                   Log ERROR "Failed to handle message"])%list,
                       inl tt)).
  { destruct Hcase as [[Hid Hno] | (Hid1 & Hid2 & Hint)].
    - step_m. rewrite Hparse. step_m. rewrite Hid. step_m.
      destruct (is_login_challenge (field m "error")) eqn:Hch.
      + destruct Hno as [Hno | Hno]; [discriminate Hno|].
        unfold is_login_challenge in Hch.
        destruct (field m "error") as [| | | | |l|e] eqn:He; try discriminate Hch.
        step_m. rewrite Hch. step_m.
        destruct (field m "params") as [| | | | |l|p] eqn:Hp; try discriminate Hno;
          step_m; settle.
      + clear Hno. unfold is_login_challenge in Hch.
        destruct (field m "error") as [| | | | |l|e] eqn:He; step_m; rewrite ?Hch;
          step_m; settle.
    - destruct (handle_login_no_interval P (field m "params") c Hint) as [x Hl].
      unfold data_received, try_except, bind. rewrite Hparse.
      cbn [py_get orelse ret]. rewrite Hid1, Hid2. cbn [emit]. rewrite Hl.
      destruct x as [[]|x]; settle. }
  split; [exact Hrun|].
  destruct (Hquiet _ (match Hrun with
                      | or_introl H => or_introl (f_equal (fun r => snd (fst r)) H)
                      | or_intror H => or_intror (f_equal (fun r => snd (fst r)) H)
                      end)) as [Hwe Hte].
  split; [exact Hwe | split; [exact Hte|]].
  intros Hid Hch Herr.
  step_m. rewrite Hparse. step_m. rewrite Hid. step_m.
  destruct Herr as [-> | Hd]; [step_m; tidy|].
  unfold is_login_challenge in Hch.
  destruct (field m "error") as [| | | | |l|e] eqn:He; try discriminate Hd.
  step_m. rewrite Hch. step_m. tidy.
Qed.

(** The theorem at a response to id 1 with another error, on the client of
    the examples. *)
Lemma unexpected_response_no_progress_witness :
  @data_received example_platform
    (Py.NUL ++ lit "{`error`:{`message`:`Component error: user locked!`},`id`:1,`params`:{},`session`:42}" ++ Py.NUL)
    example_client
  = (example_client, [Log DEBUG "Data received"], inl tt).
Proof.
  refine (proj2 (proj2 (proj2
            (unexpected_response_no_progress example_platform example_client _
               [("error", PyDict [("message", PyStr "Component error: user locked!")]);
                ("id", PyInt 1); ("params", PyDict []); ("session", PyInt 42)] [] _ _)))
            _ _ _).
  - vm_compute. reflexivity.
  - left. split; [vm_compute; reflexivity | left; vm_compute; reflexivity].
  - vm_compute. reflexivity.
  - vm_compute. reflexivity.
  - right. reflexivity.
Defined.

(** C9 as the specification states it fails on a response to id 2 that
    carries an error together with an interval: the handler of id 2 does
    not look at the error, stores the interval, starts the timer and sends
    the attach request. *)
Lemma login_error_with_interval_progresses :
  @data_received example_platform rejected_chunk example_client
  = (mkClient (dahua_details example_client) (base_url example_client)
       (PyStr "admin") (PyStr "secret") (PyStr "Dahua")
       PyNone PyNone 2 (PyInt 0) (PyInt 25) (Some (mkTransport false)),
     [Log DEBUG "Data received"; StartTimer (PyInt 25);
      Log INFO "Attach event manager";
      Write (Messages.mkMessageData 2 (PyInt 0) "<event-attach method>" (PyDict []))],
     inl tt).
Proof. vm_compute. reflexivity. Qed.

(** And on a challenge whose params hold neither nonce nor realm: [None] is
    stored for both and the login request is sent all the same. *)
Example login_challenge_with_empty_params :
  @data_received example_platform
    (Py.NUL ++ lit "{`error`:{`message`:`Component error: login challenge!`},`id`:1,`params`:{}}" ++ Py.NUL)
    example_client
  = (mkClient (dahua_details example_client) (base_url example_client)
       (PyStr "admin") (PyStr "secret") (PyStr "Dahua")
       PyNone PyNone 2 PyNone (PyInt 0) (Some (mkTransport false)),
     [Log DEBUG "Data received"; Log DEBUG "Prepare login message";
      Write (Messages.mkMessageData 2 PyNone "global.login"
               (PyDict [("userName", PyStr "admin");
                        ("password",
                         PyStr (@_get_hashed_password example_platform
                                  PyNone PyNone (PyStr "admin") (PyStr "secret")));
                        ("clientType", PyStr "..."); ("loginType", PyStr "Direct")]))],
     inl tt).
Proof. vm_compute. reflexivity. Qed.

(** A response to id 2 whose [keepAliveInterval] is [true] is not stopped
    either: five is subtracted from it as from the number 1. *)
Example login_interval_true_progresses :
  @data_received example_platform
    (Py.NUL ++ lit "{`id`:2,`params`:{`keepAliveInterval`:true}}" ++ Py.NUL)
    example_client
  = (mkClient (dahua_details example_client) (base_url example_client)
       (PyStr "admin") (PyStr "secret") (PyStr "Dahua")
       PyNone PyNone 2 (PyInt 0) (PyInt (-4)) (Some (mkTransport false)),
     [Log DEBUG "Data received"; StartTimer (PyInt (-4));
      Log INFO "Attach event manager";
      Write (Messages.mkMessageData 2 (PyInt 0) "<event-attach method>" (PyDict []))],
     inl tt).
Proof. vm_compute. reflexivity. Qed.

(* ================================================================== *)
(** * The event dispatcher *)

Section DispatcherFacts.
Context {P : Platform}.

Lemma dict_get_set {V : Type} (d : list (string * V)) (k k' : string) (v : V) :
  Dict.get (Dict.set d k v) k' = if String.eqb k k' then Some v else Dict.get d k'.
Proof.
  induction d as [|[k0 v0] d IH]; cbn.
  - reflexivity.
  - destruct (String.eqb k0 k) eqn:E0; cbn.
    + apply String.eqb_eq in E0. subst k0.
      destruct (String.eqb k k'); reflexivity.
    + destruct (String.eqb k0 k') eqn:E1.
      * apply String.eqb_eq in E1. subst k0.
        rewrite (String.eqb_sym k k'), E0. reflexivity.
      * apply IH.
Qed.

Lemma dict_get_keys {V : Type} (d : list (string * V)) (k : string) :
  existsb (String.eqb k) (Dict.keys d)
  = match Dict.get d k with Some _ => true | None => false end.
Proof.
  induction d as [|[k0 v0] d IH]; cbn; [reflexivity|].
  rewrite (String.eqb_sym k k0). destruct (String.eqb k0 k); [reflexivity | apply IH].
Qed.

Lemma get_merge_details (details : list (string * string)) (ks : list string)
  (message : list (string * pyval)) (k : string) :
  Dict.get (merge_details details ks message) k
  = if existsb (String.eqb k) DAHUA_ALLOWED_DETAILS && existsb (String.eqb k) ks
    then Some (match Dict.get details k with Some v => PyStr v | None => PyNone end)
    else Dict.get message k.
Proof.
  revert message. induction ks as [|k0 ks IH]; intros message.
  - cbn [merge_details existsb]. now rewrite andb_false_r.
  - cbn [merge_details existsb].
    destruct (existsb (String.eqb k0) DAHUA_ALLOWED_DETAILS) eqn:Ha0; rewrite IH.
    + destruct (existsb (String.eqb k) DAHUA_ALLOWED_DETAILS) eqn:Ha; cbn [andb].
      * destruct (existsb (String.eqb k) ks); [now rewrite orb_true_r|].
        rewrite orb_false_r, dict_get_set, (String.eqb_sym k k0).
        destruct (String.eqb k0 k) eqn:E; [|reflexivity].
        apply String.eqb_eq in E. now subst k0.
      * rewrite dict_get_set. destruct (String.eqb k0 k) eqn:E; [|reflexivity].
        apply String.eqb_eq in E. subst k0. congruence.
    + destruct (existsb (String.eqb k) DAHUA_ALLOWED_DETAILS) eqn:Ha; cbn [andb];
        [|reflexivity].
      destruct (String.eqb k k0) eqn:E; [|reflexivity].
      apply String.eqb_eq in E. subst k0. congruence.
Qed.

(** The fields of the event as published. *)
Lemma get_enriched (c : DahuaVTOClient) (message : list (string * pyval)) (k : string) :
  Dict.get (enriched c message) k
  = match Dict.get (dahua_details c) k with
    | Some v =>
        if existsb (String.eqb k) DAHUA_ALLOWED_DETAILS
        then Some (PyStr v) else Dict.get message k
    | None => Dict.get message k
    end.
Proof.
  unfold enriched. rewrite get_merge_details, dict_get_keys.
  destruct (Dict.get (dahua_details c) k);
    destruct (existsb (String.eqb k) DAHUA_ALLOWED_DETAILS); reflexivity.
Qed.

Lemma dispatch_events_publishes (c : DahuaVTOClient) (evs : list (list (string * pyval))) :
  (forall d, In d evs ->
             publish_raises (event_topic c d) (event_payload c d) = false) ->
  dispatch_events (map PyDict evs) c = (c, flat_map (publication c) evs, inl tt).
Proof.
  induction evs as [|d evs IH]; intros Hok; [reflexivity|].
  cbn [map dispatch_events flat_map]. unfold bind at 1.
  assert (Hd : dispatch_event (PyDict d) c = (c, publication c d, inl tt)).
  { unfold dispatch_event, bind, orelse, ret, self, emit, raise. cbn [py_get].
    fold (event_topic c d). fold (enriched c d). fold (event_payload c d).
    rewrite (Hok d (or_introl eq_refl)). reflexivity. }
  rewrite Hd, IH; [reflexivity|].
  intros d' Hin. apply Hok. now right.
Qed.

End DispatcherFacts.

Section DispatcherEdges.
Context {P : Platform}.

Lemma dispatch_event_publishes (c : DahuaVTOClient) (d : list (string * pyval)) :
  publish_raises (event_topic c d) (event_payload c d) = false ->
  dispatch_event (PyDict d) c = (c, publication c d, inl tt).
Proof.
  intros Hok. unfold dispatch_event, bind, orelse, ret, self, emit, raise. cbn [py_get].
  fold (event_topic c d). fold (enriched c d). fold (event_payload c d).
  now rewrite Hok.
Qed.

Lemma dispatch_event_refused (c : DahuaVTOClient) (d : list (string * pyval)) :
  publish_raises (event_topic c d) (event_payload c d) = true ->
  dispatch_event (PyDict d) c
  = (c, [Log DEBUG "Publishing MQTT message"], inr ValueError).
Proof.
  intros Hok. unfold dispatch_event, bind, orelse, ret, self, emit, raise. cbn [py_get].
  fold (event_topic c d). fold (enriched c d). fold (event_payload c d).
  now rewrite Hok.
Qed.

Lemma dispatch_event_no_object (c : DahuaVTOClient) (message : pyval) :
  is_dict message = false ->
  dispatch_event message c = (c, [], inr AttributeError).
Proof. destruct message; try discriminate; reflexivity. Qed.

(** The loop over the events that are published, and then over the rest. *)
Lemma dispatch_events_app (c : DahuaVTOClient) (evs : list (list (string * pyval)))
  (l : list pyval) :
  (forall d, In d evs ->
             publish_raises (event_topic c d) (event_payload c d) = false) ->
  dispatch_events (map PyDict evs ++ l) c
  = (fst (fst (dispatch_events l c)),
     (flat_map (publication c) evs ++ snd (fst (dispatch_events l c)))%list,
     snd (dispatch_events l c)).
Proof.
  induction evs as [|d evs IH]; intros Hok.
  - cbn [map app flat_map]. now destruct (dispatch_events l c) as [[c1 e1] r1].
  - cbn [map app dispatch_events flat_map]. unfold bind at 1.
    rewrite (dispatch_event_publishes c d (Hok d (or_introl eq_refl))).
    rewrite IH by (intros d' Hin; apply Hok; now right).
    now rewrite <- app_assoc.
Qed.

Lemma dispatch_events_texts {A : Type} (f : A -> string) (l : list A) (c : DahuaVTOClient) :
  fst (dispatch_events (map (fun x => PyStr (f x)) l) c) = (c, []).
Proof.
  destruct l as [|x l]; [reflexivity|].
  cbn [map dispatch_events]. unfold bind.
  now rewrite dispatch_event_no_object.
Qed.


(** The elements a list is made of: the events that are published, and
    then nothing, or an element the dispatcher fails on. *)
Lemma accepted_split (c : DahuaVTOClient) (l : list pyval) :
  exists rest,
    l = (map PyDict (accepted c l) ++ rest)%list
    /\ (forall d, In d (accepted c l) ->
                   publish_raises (event_topic c d) (event_payload c d) = false)
    /\ published (snd (fst (dispatch_events rest c))) = []
    /\ fst (fst (dispatch_events rest c)) = c
    /\ (rest = [] \/ exists x, snd (dispatch_events rest c) = inr x).
Proof.
  induction l as [|message l IH].
  - exists []. cbn. repeat split; [intros d [] | now left].
  - destruct (is_dict message) eqn:Hd.
    + destruct message as [| | | | | |d]; try discriminate Hd. cbn [accepted].
      destruct (publish_raises (event_topic c d) (event_payload c d)) eqn:Hr.
      * exists (PyDict d :: l). cbn [map app dispatch_events]. unfold bind.
        rewrite (dispatch_event_refused c d Hr). cbn [fst snd published].
        repeat split; [intros d' [] | right; now eexists].
      * destruct IH as (rest & Hl & Hok & Hpub & Hc & Hend).
        exists rest. cbn [map app]. rewrite <- Hl.
        repeat split; try assumption.
        intros d' [<- | Hin]; [exact Hr | now apply Hok].
    + exists (message :: l).
      assert (Ha : accepted c (message :: l) = [])
        by (destruct message; try reflexivity; discriminate Hd).
      rewrite Ha. cbn [map app dispatch_events]. unfold bind.
      rewrite (dispatch_event_no_object c message Hd). cbn [fst snd published].
      repeat split; [intros d' [] | right; now eexists].
Qed.

Lemma published_publications (c : DahuaVTOClient) (evs : list (list (string * pyval))) :
  published (flat_map (publication c) evs)
  = map (fun d => (event_topic c d, event_payload c d)) evs.
Proof.
  induction evs as [|d evs IH]; [reflexivity|]. cbn. now rewrite IH.
Qed.

End DispatcherEdges.

(** C5, as the code has it.  For every event object of the event list of a
    notification that comes before the first element the dispatcher fails
    on (an element that is no object, or an event whose publication the bus
    client refuses), and so for every event object of a list that has no
    such element, the dispatcher publishes the event, serialised as JSON
    indented by four spaces, to the topic
    [{topicPrefix}/{event.Code}/Event], after setting on it each field of
    DeviceDetails that is on the allow list ([deviceType], [serialNumber])
    to its value there, in place of the value the event had for the field if
    it had one; every other field of the event is left as it was.  Nothing
    is published for the elements from the failing one on, the client is
    left as it was, and the dispatcher returns. *)
Theorem notify_event_stream_publishes :
  forall (P : Platform) (c : DahuaVTOClient) (params_ : pyval)
         (event_list : list pyval),
    py_get params_ "eventList" = Some (PyList event_list) ->
    let after := handle_notify_event_stream params_ c in
    fst (fst after) = c
    /\ snd after = inl tt
    /\ published (snd (fst after))
       = map (fun d => (event_topic c d, Json.dumps_indent4 (PyDict (enriched c d))))
           (accepted c event_list)
    /\ (event_list = map PyDict (accepted c event_list) ->
        snd (fst after)
        = flat_map (fun d => [Log DEBUG "Publishing MQTT message";
                              Publish (event_topic c d)
                                (Json.dumps_indent4 (PyDict (enriched c d)))])
            (accepted c event_list))
    /\ forall d k,
         Dict.get (enriched c d) k
         = match Dict.get (dahua_details c) k with
           | Some v =>
               if existsb (String.eqb k) DAHUA_ALLOWED_DETAILS
               then Some (PyStr v) else Dict.get d k
           | None => Dict.get d k
           end.
Proof.
  intros P c params_ event_list Hlist after. subst after.
  destruct (accepted_split c event_list) as (rest & Hl & Hok & Hpub & Hc & Hend).
  pose proof (dispatch_events_app c (accepted c event_list) rest Hok) as Happ.
  rewrite <- Hl in Happ.
  assert (Hrun : handle_notify_event_stream params_ c
                 = match snd (dispatch_events rest c) with
                   | inl _ =>
                       (c, (flat_map (publication c) (accepted c event_list)
                            ++ snd (fst (dispatch_events rest c)))%list, inl tt)
                   | inr _ =>
                       (c, ((flat_map (publication c) (accepted c event_list)
                             ++ snd (fst (dispatch_events rest c)))
                            ++ [Log ERROR "Failed to handle event"])%list, inl tt)
                   end).
  { unfold handle_notify_event_stream, try_except, bind at 1. rewrite Hlist.
    cbn [orelse ret for_each_event]. rewrite Happ, Hc.
    destruct (snd (dispatch_events rest c)); reflexivity. }
  assert (Hp : published (snd (fst (handle_notify_event_stream params_ c)))
               = map (fun d => (event_topic c d, event_payload c d))
                   (accepted c event_list)).
  { rewrite Hrun. destruct (snd (dispatch_events rest c)); cbn [fst snd];
      rewrite ?published_app, Hpub, published_publications, ?app_nil_r; reflexivity. }
  split; [|split; [|split; [exact Hp | split]]].
  - rewrite Hrun. now destruct (snd (dispatch_events rest c)).
  - rewrite Hrun. now destruct (snd (dispatch_events rest c)).
  - intros Hall. rewrite Hall in Hl at 1.
    rewrite <- (app_nil_r (map PyDict (accepted c event_list))) in Hl at 1.
    apply app_inv_head in Hl. subst rest.
    rewrite Hrun. cbn [dispatch_events ret fst snd]. now rewrite app_nil_r.
  - intros d k. apply get_enriched.
Qed.

(** The theorem at the event of the specification, section 8: a local alarm
    with the device details of the examples and the prefix [Dahua]. *)
Lemma notify_event_stream_publishes_witness :
  snd (fst (@handle_notify_event_stream example_platform alarm_params example_client))
  = [Log DEBUG "Publishing MQTT message";
     Publish "Dahua/AlarmLocal/Event"
       (lit "{
    `Code`: `AlarmLocal`,
    `deviceType`: `VTO2000A`,
    `serialNumber`: `ABC123`
}")].
Proof.
  exact (proj1 (proj2 (proj2 (proj2
           (notify_event_stream_publishes example_platform example_client
              alarm_params [PyDict [("Code", PyStr "AlarmLocal")]] eq_refl))))
           eq_refl).
Defined.

(** A list whose second event the broker client refuses, its topic
    holding a wildcard: the first event is published, the third, which the
    client would accept, is not. *)
Example notify_event_stream_refused :
  let events := [PyDict [("Code", PyStr "AlarmLocal")]; PyDict [("Code", PyStr "A+B")];
                 PyDict [("Code", PyStr "DoorStatus")]] in
  @accepted example_platform example_client events = [[("Code", PyStr "AlarmLocal")]]
  /\ map fst
       (published
          (snd (fst (@handle_notify_event_stream example_platform
                       (PyDict [("eventList", PyList events)]) example_client))))
     = ["Dahua/AlarmLocal/Event"].
Proof. vm_compute. split; reflexivity. Qed.

(** C5 as the specification states it fails on an event that already has a
    [deviceType]: the published event carries the device's, where the merge
    that keeps the fields of the event would leave the event's own. *)
Lemma notify_event_stream_overwrites :
  published (snd (fst (@handle_notify_event_stream example_platform
                         typed_alarm_params example_client)))
  = [("Dahua/AlarmLocal/Event",
      lit "{
    `Code`: `AlarmLocal`,
    `deviceType`: `VTO2000A`,
    `serialNumber`: `ABC123`
}")]
  /\ merge_details_keeping (dahua_details example_client)
       (Dict.keys (dahua_details example_client)) typed_alarm
     = [("Code", PyStr "AlarmLocal"); ("deviceType", PyStr "Keypad");
        ("serialNumber", PyStr "ABC123")].
Proof. vm_compute. split; reflexivity. Qed.

(* ================================================================== *)
(** * The request counter *)

Section CounterFacts.
Context {P : Platform}.

Lemma ids_after_app (n : Z) (j k : nat) :
  (ids_after n j ++ ids_after (n + Z.of_nat j) k)%list = ids_after n (j + k).
Proof.
  unfold ids_after. rewrite seq_app, map_app. f_equal.
  generalize 1%nat as s. induction k as [|k IH]; intros s; cbn [seq map]; [reflexivity|].
  f_equal; [lia|]. rewrite IH. reflexivity.
Qed.

Lemma sends_nothing (c c' : DahuaVTOClient) (es : list effect) :
  transport c' = transport c -> request_id c' = request_id c -> written es = [] ->
  sends c es c'.
Proof.
  intros Ht Hr Hw. split; [assumption|].
  unfold written_ids. rewrite Hw. destruct (is_open c); [|reflexivity].
  cbn. split; [reflexivity | lia].
Qed.

Lemma sends_trans (c c1 c2 : DahuaVTOClient) (e1 e2 : list effect) :
  sends c e1 c1 -> sends c1 e2 c2 -> sends c (e1 ++ e2) c2.
Proof.
  intros [Ht1 H1] [Ht2 H2]. split; [congruence|].
  assert (Ho : is_open c1 = is_open c) by (unfold is_open; now rewrite Ht1).
  rewrite Ho in H2. unfold written_ids in *. rewrite written_app, map_app.
  destruct (is_open c).
  - destruct H1 as [H1 R1], H2 as [H2 R2].
    rewrite H1, H2, R1, length_app, ids_after_app. split; [reflexivity | lia].
  - now rewrite H1, H2.
Qed.

Lemma counts_ret {A} (a : A) : counts (ret a).
Proof. intros c. now apply sends_nothing. Qed.

Lemma counts_raise {A} (x : exn) : counts (@raise P A x).
Proof. intros c. now apply sends_nothing. Qed.

Lemma counts_self : counts self.
Proof. intros c. now apply sends_nothing. Qed.

Lemma counts_orelse {A} (x : exn) (o : option A) : counts (orelse x o).
Proof. destruct o; [apply counts_ret | apply counts_raise]. Qed.

Lemma counts_emit (e : effect) : written [e] = [] -> counts (emit e).
Proof. intros H c. now apply sends_nothing. Qed.

Lemma counts_assign (f : DahuaVTOClient -> DahuaVTOClient) :
  (forall c, transport (f c) = transport c /\ request_id (f c) = request_id c) ->
  counts (assign f).
Proof. intros H c. destruct (H c). now apply sends_nothing. Qed.

Lemma counts_bind {A B} (m : M A) (f : A -> M B) :
  counts m -> (forall a, counts (f a)) -> counts (bind m f).
Proof.
  intros Hm Hf c. specialize (Hm c). unfold bind.
  destruct (m c) as [[c1 e1] [a|x]]; cbn in Hm |- *; [|assumption].
  specialize (Hf a c1). destruct (f a c1) as [[c2 e2] r2]; cbn in Hf |- *.
  eapply sends_trans; eassumption.
Qed.

Lemma counts_try_except (body handler : M unit) :
  counts body -> counts handler -> counts (try_except body handler).
Proof.
  intros Hb Hh c. specialize (Hb c). unfold try_except.
  destruct (body c) as [[c1 e1] [a|x]]; cbn in Hb |- *; [assumption|].
  specialize (Hh c1). destruct (handler c1) as [[c2 e2] r2]; cbn in Hh |- *.
  eapply sends_trans; eassumption.
Qed.

(** [send] is where the counter moves: by one, before the write. *)
Lemma counts_send (md : Messages.MessageData) : counts (send md).
Proof.
  intros c. unfold send, bind, assign, self, transport_is_closing, orelse, ret, emit, raise.
  destruct c as [dd bu un pw pf rl rd rid sid kai [[[|]]|]]; cbn;
    (split; [reflexivity|]); cbn; try reflexivity.
  split; [reflexivity | lia].
Qed.

Ltac counts_step :=
  lazymatch goal with
  | |- counts (bind _ _) => apply counts_bind; [|intro]
  | |- counts (ret _) => apply counts_ret
  | |- counts (raise _) => apply counts_raise
  | |- counts self => apply counts_self
  | |- counts (orelse _ _) => apply counts_orelse
  | |- counts (emit _) => apply counts_emit; reflexivity
  | |- counts (assign _) => apply counts_assign; intros []; split; reflexivity
  | |- counts (send _) => apply counts_send
  | |- counts (try_except _ _) => apply counts_try_except
  | |- counts (if ?b then _ else _) => destruct b
  | |- counts (match ?x with _ => _ end) => destruct x
  | |- counts (let _ := _ in _) => cbv zeta
  end.

Lemma counts_login : counts login.
Proof. unfold login. repeat counts_step. Qed.

Lemma counts_attach_event_manager : counts attach_event_manager.
Proof. unfold attach_event_manager. repeat counts_step. Qed.

Lemma counts_keep_alive : counts keep_alive.
Proof. unfold keep_alive. repeat counts_step. Qed.

Lemma counts_handle_login_error (error message params_ : pyval) :
  counts (handle_login_error error message params_).
Proof. unfold handle_login_error. repeat counts_step. apply counts_login. Qed.

Lemma counts_handle_login (params_ : pyval) : counts (handle_login params_).
Proof. unfold handle_login. repeat counts_step. apply counts_attach_event_manager. Qed.

Lemma counts_dispatch_events (l : list pyval) : counts (dispatch_events l).
Proof.
  induction l as [|message l IH]; cbn [dispatch_events]; [apply counts_ret|].
  apply counts_bind; [|intros _; exact IH].
  unfold dispatch_event. repeat counts_step.
Qed.

Lemma counts_handle_notify_event_stream (params_ : pyval) :
  counts (handle_notify_event_stream params_).
Proof.
  unfold handle_notify_event_stream, for_each_event.
  repeat counts_step; apply counts_dispatch_events.
Qed.

Lemma counts_data_received (data : string) : counts (data_received data).
Proof.
  unfold data_received.
  destruct (parse_response data) as [message logged] eqn:Hparse.
  apply parse_response_logged in Hparse as [Hw _].
  apply counts_try_except; [|repeat counts_step].
  apply counts_bind; [intros c; now apply sends_nothing | intros _].
  repeat counts_step;
    first [ apply counts_handle_login_error | apply counts_handle_login
          | apply counts_handle_notify_event_stream ].
Qed.

Lemma event_eq_closes (ev : event) : ev = TransportCloses \/ ev <> TransportCloses.
Proof. destruct ev; (now left) || (right; discriminate). Qed.

(** Every callback but the closing of the transport. *)
Lemma counts_react (ev : event) : ev <> TransportCloses -> counts (react ev).
Proof.
  destruct ev; intros Hev; cbn [react].
  - apply counts_data_received.
  - apply counts_keep_alive.
  - congruence.
  - unfold eof_received. repeat counts_step.
  - unfold connection_lost. repeat counts_step.
Qed.

Lemma length_ids_after (n : Z) (k : nat) : List.length (ids_after n k) = k.
Proof. unfold ids_after. now rewrite length_map, length_seq. Qed.

Lemma in_sequence_sends (c c' : DahuaVTOClient) (es : list effect) (ids : list Z) :
  in_sequence c ids -> sends c es c' -> in_sequence c' (ids ++ written_ids es).
Proof.
  intros (Ht & Hids & Hreq) [Hs1 Hs2].
  assert (Ho : is_open c' = is_open c) by (unfold is_open; now rewrite Hs1).
  unfold in_sequence. rewrite Ho, Hs1. split; [assumption|].
  destruct (is_open c).
  - destruct Hs2 as [Hw Hr]. specialize (Hreq eq_refl).
    rewrite Hw, length_app, length_ids_after, Hr, Hreq. split; [|intros _; lia].
    rewrite Hids at 1. rewrite <- ids_after_app. reflexivity.
  - unfold written_ids. rewrite Hs2. cbn [map]. rewrite app_nil_r.
    split; [assumption | discriminate].
Qed.

Lemma in_sequence_react (ev : event) (c : DahuaVTOClient) (ids : list Z) :
  in_sequence c ids ->
  in_sequence (fst (fst (react ev c))) (ids ++ written_ids (snd (fst (react ev c)))).
Proof.
  intros Hinv. destruct (event_eq_closes ev) as [-> | Hev].
  - destruct Hinv as (Ht & Hids & Hreq).
    unfold react, assign, written_ids. cbn [fst snd written map]. rewrite app_nil_r.
    unfold in_sequence, close_transport, is_open.
    destruct (transport c) as [t|] eqn:E; [|congruence].
    destruct c; cbn. repeat split; [discriminate | assumption | discriminate].
  - apply (in_sequence_sends c); [assumption | apply (counts_react ev Hev c)].
Qed.

Lemma in_sequence_run (evs : list event) (c : DahuaVTOClient) (ids : list Z) :
  in_sequence c ids ->
  in_sequence (fst (run evs c)) (ids ++ written_ids (snd (run evs c))).
Proof.
  revert c ids. induction evs as [|ev evs IH]; intros c ids Hinv.
  - cbn. now rewrite app_nil_r.
  - cbn [run]. pose proof (in_sequence_react ev c ids Hinv) as Hstep.
    destruct (react ev c) as [[c1 e1] x]. cbn [fst snd] in Hstep.
    specialize (IH c1 _ Hstep).
    destruct (run evs c1) as [c2 e2]. cbn [fst snd] in IH |- *.
    unfold written_ids in *. now rewrite written_app, map_app, app_assoc.
Qed.

(** [connection_made] with the broker reached: the probe is written with
    id 1 if the transport is open, and nothing is written otherwise. *)
Lemma in_sequence_connect (environ : string -> option string) (t : Transport)
  (http : option string) :
  in_sequence (fst (connect environ t http true))
    (written_ids (snd (connect environ t http true)))
  /\ (is_closing t = false ->
      written_ids (snd (connect environ t http true)) = [1]).
Proof.
  unfold connect, connection_made, load_dahua_info, initialize_mqtt_client, pre_login,
    transport_is_closing, try_except, bind, ret, emit, self, assign, orelse, raise, init.
  destruct t as [[|]]; destruct http as [text|]; cbn;
    (split; [|intros H; try discriminate H; reflexivity]);
    unfold in_sequence, is_open; cbn; repeat split; try discriminate; reflexivity.
Qed.

End CounterFacts.

(** C6.  Within one connection the request counter starts at 1, the
    pre-login probe is written with id 1, [send] adds one to the counter
    before it writes, and so the ids of the requests written to the
    transport, in the order they are written, are 1, 2, 3, ... whatever
    arrives, whenever the timers fire and whenever the transport closes. *)
Theorem request_ids_consecutive :
  forall (P : Platform) (environ : string -> option string) (t : Transport)
         (http : option string) (evs : list event),
    request_id (init environ) = 1
    /\ (is_closing t = false ->
        written_ids (snd (connect environ t http true)) = [1])
    /\ (forall (c : DahuaVTOClient) (md : Messages.MessageData),
           is_open c = true ->
           send md c = (set_request_id (request_id c + 1) c,
                        [Write (Messages.set_id md (request_id c + 1))], inl tt))
    /\ written_ids (snd (connection environ t http true evs))
       = map Z.of_nat
           (seq 1 (List.length (written (snd (connection environ t http true evs))))).
Proof.
  intros P environ t http evs. split; [reflexivity|].
  destruct (in_sequence_connect environ t http) as [Hinv Hfirst].
  split; [exact Hfirst|]. split.
  - intros c md Ho. unfold is_open in Ho.
    destruct (transport c) as [t'|] eqn:Ht; [|discriminate Ho].
    apply (send_open c t' md Ht). now apply negb_true_iff in Ho.
  - unfold connection.
    destruct (connect environ t http true) as [c0 es0]. cbn [fst snd] in Hinv.
    pose proof (in_sequence_run evs c0 _ Hinv) as (_ & Hids & _).
    destruct (run evs c0) as [c1 es1]. cbn [fst snd] in Hids |- *.
    unfold written_ids in *. rewrite written_app, map_app, Hids.
    rewrite length_app, !length_map, <- length_app.
    unfold ids_after. apply map_ext. intros i. lia.
Qed.

(** The theorem at the session of the examples, with two keep-alives. *)
Lemma request_ids_consecutive_witness :
  written_ids (snd (@connect example_platform example_environ (mkTransport false) None true))
  = [1]
  /\ written_ids
       (snd (@connection example_platform example_environ (mkTransport false) None true
               [DataReceived challenge_chunk; DataReceived success_chunk;
                TimerFires; TimerFires]))
     = [1; 2; 3; 4; 5].
Proof.
  pose proof (request_ids_consecutive example_platform example_environ
                (mkTransport false) None
                [DataReceived challenge_chunk; DataReceived success_chunk;
                 TimerFires; TimerFires]) as (_ & Hfirst & _ & Hall).
  split; [exact (Hfirst eq_refl)|].
  rewrite Hall. vm_compute. reflexivity.
Defined.

(* ================================================================== *)
(** * The keep-alive task after the connection is torn down *)

Section KeepAliveFacts.
Context {P : Platform}.

Lemma keep_alive_closing (c : DahuaVTOClient) (t : Transport) :
  transport c = Some t -> is_closing t = true ->
  keep_alive c
  = (set_request_id (request_id c + 1) c,
     [Log DEBUG "Keep alive"; StartTimer (keep_alive_interval c)], inl tt).
Proof.
  intros Ht Hc. step_m. destruct c; cbn in Ht |- *. rewrite Ht. cbn. rewrite Hc.
  reflexivity.
Qed.

Lemma run_timers_closing (n : nat) (c : DahuaVTOClient) (t : Transport) :
  transport c = Some t -> is_closing t = true ->
  run (repeat TimerFires n) c
  = (set_request_id (request_id c + Z.of_nat n) c,
     List.concat (repeat [Log DEBUG "Keep alive"; StartTimer (keep_alive_interval c)] n)).
Proof.
  revert c. induction n as [|n IH]; intros c Ht Hc.
  - cbn. destruct c; cbn. now rewrite Z.add_0_r.
  - cbn [repeat run react]. rewrite (keep_alive_closing c t Ht Hc).
    rewrite (IH (set_request_id (request_id c + 1) c) ltac:(destruct c; exact Ht) Hc).
    destruct c; unfold set_request_id;
      cbn [request_id keep_alive_interval List.concat app dahua_details base_url
           username password mqtt_broker_topic_prefix realm random sessionId transport].
    do 2 f_equal. lia.
Qed.

End KeepAliveFacts.

(** C8, as the code has it.  A keep-alive task scheduled on a connection is
    not cancelled when the connection is torn down.  Once the transport is
    closing, each firing of the task writes nothing to the transport, but it
    still takes the next request id and starts a timer for its next firing,
    with the interval unchanged, and so on without end. *)
Theorem keep_alive_survives_close :
  forall (P : Platform) (c : DahuaVTOClient) (t : Transport) (n : nat),
    transport c = Some t ->
    let after := run (TransportCloses :: repeat TimerFires n) c in
    written (snd after) = []
    /\ timers (snd after) = repeat (keep_alive_interval c) n
    /\ request_id (fst after) = request_id c + Z.of_nat n
    /\ transport (fst after) = Some (mkTransport true).
Proof.
  intros P c t n Ht after. subst after.
  cbn [run react]. unfold assign.
  assert (Hc : transport (close_transport c) = Some (mkTransport true)).
  { unfold close_transport. rewrite Ht. now destruct c. }
  rewrite (run_timers_closing n _ _ Hc eq_refl). cbn [fst snd app].
  assert (Hk : keep_alive_interval (close_transport c) = keep_alive_interval c).
  { unfold close_transport. rewrite Ht. now destruct c. }
  assert (Hr : request_id (close_transport c) = request_id c).
  { unfold close_transport. rewrite Ht. now destruct c. }
  rewrite Hk, Hr. split; [|split; [|split]].
  - induction n as [|n IH]; [reflexivity | exact IH].
  - induction n as [|n IH]; [reflexivity | cbn; now rewrite IH].
  - now destruct (close_transport c).
  - destruct (close_transport c); exact Hc.
Qed.

(** The theorem at the attached client of the examples and three firings. *)
Lemma keep_alive_survives_close_witness :
  written (snd (@run example_platform
                  (TransportCloses :: repeat TimerFires 3) attached_client)) = []
  /\ timers (snd (@run example_platform
                   (TransportCloses :: repeat TimerFires 3) attached_client))
     = [PyInt 25; PyInt 25; PyInt 25].
Proof.
  destruct (keep_alive_survives_close example_platform attached_client
              (mkTransport false) 3 eq_refl) as (Hw & Ht & _).
  split; [exact Hw | exact Ht].
Defined.

(** C8 as the specification states it fails: after the transport of the
    attached client of the examples has closed, a firing of the keep-alive
    task starts the timer of the next firing, and that one the next. *)
Lemma keep_alive_reschedules_after_close :
  @run example_platform [TransportCloses; TimerFires; TimerFires] attached_client
  = (set_request_id 5 (close_transport attached_client),
     [Log DEBUG "Keep alive"; StartTimer (PyInt 25);
      Log DEBUG "Keep alive"; StartTimer (PyInt 25)]).
Proof. vm_compute. reflexivity. Qed.

(* ================================================================== *)
(** * The reconnect loop *)

(** C7.  The loop of the manager has no bound on its passes: pass [n]
    follows pass [n - 1] whatever that one did, so after any number of
    passes the process is still in the loop.  A pass in which the
    connection is made and the loop later stopped (the transport closed)
    ends with a wait of 5 seconds, a pass in which a call of the [try]
    raises, the making of the connection in the first place, ends with a
    wait of 30 seconds; each pass waits once.  The loss of the transport
    and the end of the stream both stop the loop of the pass, which is what
    makes [run_forever] return. *)
Theorem reconnect_backoff :
  forall (attempts : nat -> Manager.attempt) (n : nat),
    Manager.sleeps (Manager.initialize attempts n)
    = map (fun i => match attempts i with
                    | Manager.Returns => 5
                    | Manager.Raises _ => 30
                    end) (seq 0 n)
    /\ Manager.sleeps (Manager.iteration Manager.Returns) = [5]
    /\ Manager.sleeps (Manager.iteration (Manager.Raises Manager.run_until_complete)) = [30]
    /\ Manager.initialize attempts (S n)
       = (Manager.initialize attempts n ++ Manager.iteration (attempts n))%list
    /\ (forall (P : Platform) (c : DahuaVTOClient),
           In LoopStop (snd (fst (connection_lost c)))
           /\ In LoopStop (snd (fst (eof_received c)))).
Proof.
  intros attempts n. split; [|repeat split; cbn; auto].
  induction n as [|n IH]; [reflexivity|].
  rewrite seq_S, map_app. cbn [Manager.initialize map Nat.add].
  assert (Happ : forall es es', Manager.sleeps (es ++ es')
                                = (Manager.sleeps es ++ Manager.sleeps es')%list).
  { induction es as [|[lv tx|s] es IHes]; intros es'; cbn; rewrite ?IHes; reflexivity. }
  rewrite Happ, IH. f_equal. destruct (attempts n); reflexivity.
Qed.

(* ================================================================== *)
(** * The JSON decoder never runs out of fuel *)

Section JsonFacts.
Context {P : Platform}.

Lemma skip_ws_length (s : string) :
  (String.length (Json.skip_ws s) <= String.length s)%nat.
Proof.
  induction s as [|c s IH]; cbn; [lia|].
  destruct (Json.is_ws c); cbn; lia.
Qed.

Lemma startswith_length (p s : string) :
  Py.startswith p s = true -> (String.length p <= String.length s)%nat.
Proof.
  revert s. induction p as [|a p IH]; intros s; cbn; [lia|].
  destruct s as [|b s]; [discriminate|].
  intros H. apply andb_true_iff in H as [_ H]. apply IH in H. cbn. lia.
Qed.

Lemma substring_length (n m : nat) (s : string) :
  (String.length (String.substring n m s) <= String.length s - n)%nat.
Proof.
  revert n m. induction s as [|c s IH]; intros n m.
  - destruct n, m; cbn; lia.
  - destruct n as [|n].
    + destruct m as [|m]; cbn; [lia|]. specialize (IH 0%nat m). lia.
    + cbn. apply IH.
Qed.

Lemma take_digits_length (s : string) :
  (String.length (snd (Json.take_digits s)) <= String.length s)%nat.
Proof.
  induction s as [|c s IH]; cbn; [lia|].
  destruct (Json.is_digit c); [|cbn; lia].
  destruct (Json.take_digits s) as [ds rest]. cbn in *. lia.
Qed.

Lemma match_integer_length (s i r : string) :
  Json.match_integer s = Some (i, r) -> (String.length r < String.length s)%nat.
Proof.
  unfold Json.match_integer.
  assert (H : forall sign s1,
             match s1 with
             | String c r0 =>
                 if Ascii.eqb c "0" then Some (sign ++ "0", r0)
                 else if Json.is_digit c
                      then let '(ds, rest) := Json.take_digits r0 in
                           Some (sign ++ String c ds, rest)
                      else None
             | EmptyString => None
             end = Some (i, r) -> (String.length r < String.length s1)%nat).
  { intros sign [|c r0]; [discriminate|].
    destruct (Ascii.eqb c "0"); [intros [= _ <-]; cbn; lia|].
    destruct (Json.is_digit c); [|discriminate].
    pose proof (take_digits_length r0) as Hd.
    destruct (Json.take_digits r0) as [ds rest]. intros [= _ <-]. cbn in *. lia. }
  destruct s as [|c s']; [discriminate|].
  destruct (Ascii.eqb c "-"); intros Hm.
  - apply (H "-" s') in Hm. cbn. lia.
  - apply (H EmptyString (String c s')) in Hm. exact Hm.
Qed.

Lemma match_frac_length (s : string) :
  (String.length (snd (Json.match_frac s)) <= String.length s)%nat.
Proof.
  unfold Json.match_frac. destruct s as [|c r]; [cbn; lia|].
  pose proof (take_digits_length r) as Hd.
  destruct (Ascii.eqb c "."); [|cbn; lia].
  destruct (Json.take_digits r) as [[|d ds] rest]; cbn in *; lia.
Qed.

Lemma match_exp_length (s : string) :
  (String.length (snd (Json.match_exp s)) <= String.length s)%nat.
Proof.
  unfold Json.match_exp. destruct s as [|e r]; [cbn; lia|].
  destruct (Ascii.eqb e "e" || Ascii.eqb e "E"); [|cbn; lia].
  destruct r as [|c r']; [cbn; lia|].
  pose proof (take_digits_length r') as Hd.
  pose proof (take_digits_length (String c r')) as Hd'.
  destruct (Ascii.eqb c "-" || Ascii.eqb c "+").
  - destruct (Json.take_digits r') as [[|d ds] rest]; cbn in *; lia.
  - destruct (Json.take_digits (String c r')) as [[|d ds] rest]; cbn in *; lia.
Qed.

Lemma scan_number_length (s : string) (v : option pyval) (r : string) :
  Json.scan_number s = Some (v, r) -> (String.length r < String.length s)%nat.
Proof.
  unfold Json.scan_number.
  destruct (Json.match_integer s) as [[i r1]|] eqn:Hi; [|discriminate].
  apply match_integer_length in Hi.
  pose proof (match_frac_length r1) as Hf.
  destruct (Json.match_frac r1) as [frac r2].
  pose proof (match_exp_length r2) as He.
  destruct (Json.match_exp r2) as [exp r3]. cbn in *.
  destruct frac; destruct exp; intros [= _ <-]; lia.
Qed.

Lemma scanstring_length (n : nat) :
  forall (s : string) (cs : list Json.code) (r : string),
    (String.length s <= n)%nat ->
    Json.scanstring s = Some (cs, r) -> (String.length r < String.length s)%nat.
Proof.
  induction n as [|n IH]; intros s cs r Hn.
  - destruct s; [discriminate | cbn in Hn; lia].
  - destruct s as [|c s1]; [discriminate|]. cbn [Json.scanstring].
    destruct (Ascii.eqb c Py.dquote); [intros [= _ <-]; cbn; lia|].
    destruct (Ascii.eqb c "\").
    + destruct s1 as [|e s2]; [discriminate|].
      destruct (Ascii.eqb e "u").
      * destruct s2 as [|h1 [|h2 [|h3 [|h4 s3]]]]; try discriminate.
        destruct (Json.hex4 h1 h2 h3 h4); [|discriminate].
        destruct (Json.scanstring s3) as [[cs' rest]|] eqn:E; [|discriminate].
        intros [= _ <-]. apply IH in E; cbn in *; lia.
      * destruct (Json.backslash e); [|discriminate].
        destruct (Json.scanstring s2) as [[cs' rest]|] eqn:E; [|discriminate].
        intros [= _ <-]. apply IH in E; cbn in *; lia.
    + destruct (Py.byte_val c <? 32); [discriminate|].
      destruct (Json.scanstring s1) as [[cs' rest]|] eqn:E; [|discriminate].
      intros [= _ <-]. apply IH in E; cbn in *; lia.
Qed.

Lemma scan_within (fuel : nat) :
  (forall room s, (2 * String.length s < fuel)%nat ->
                  within s (Json.scan_once fuel room s))
  /\ (forall room s acc, (2 * String.length s < fuel)%nat ->
                         within s (Json.scan_members fuel room s acc))
  /\ (forall room s acc, (2 * String.length s + 1 < fuel)%nat ->
                         within s (Json.scan_elements fuel room s acc)).
Proof.
  induction fuel as [|fuel (IHonce & IHmembers & IHelements)].
  - repeat split; intros; lia.
  - split; [|split].
    + intros room s Hf. destruct s as [|c r]; [exact I|]. cbn [Json.scan_once].
      cbn [String.length] in Hf.
      destruct (Ascii.eqb c Py.dquote).
      { destruct (Json.scanstring r) as [[cs rest]|] eqn:E; [|exact I].
        apply (scanstring_length _ _ _ _ (le_n _)) in E. cbn. lia. }
      destruct (Ascii.eqb c "{").
      { destruct room as [|room]; [exact I|].
        pose proof (skip_ws_length r) as Hws.
        destruct (Json.skip_ws r) as [|c1 r1]; [exact I|]. cbn [String.length] in Hws.
        destruct (Ascii.eqb c1 "}"); [cbn; lia|].
        destruct (Ascii.eqb c1 Py.dquote); [|exact I].
        specialize (IHmembers room r1 [] ltac:(lia)).
        destruct (Json.scan_members fuel room r1 []); cbn in *; try lia; exact I. }
      destruct (Ascii.eqb c "[").
      { destruct room as [|room]; [exact I|].
        pose proof (skip_ws_length r) as Hws.
        destruct (Json.skip_ws r) as [|c1 r1].
        - specialize (IHelements room EmptyString [] ltac:(cbn; lia)).
          destruct (Json.scan_elements fuel room EmptyString []);
            cbn in *; try lia; exact I.
        - cbn [String.length] in Hws.
          destruct (Ascii.eqb c1 "]"); [cbn; lia|].
          specialize (IHelements room (String c1 r1) [] ltac:(cbn; lia)).
          destruct (Json.scan_elements fuel room (String c1 r1) []);
            cbn in *; try lia; exact I. }
      assert (Hlit : forall (p : string) (k : nat) (v : pyval),
                 Py.startswith p (String c r) = true -> k = String.length p ->
                 (0 < k)%nat ->
                 within (String c r)
                   (Json.Scanned v (String.substring k (String.length (String c r))
                                      (String c r)))).
      { intros p k v Hp -> Hk. apply startswith_length in Hp.
        pose proof (substring_length (String.length p) (String.length (String c r))
                      (String c r)) as Hsub.
        cbn [within]. cbn [String.length] in *. lia. }
      destruct (Py.startswith "null" (String c r)) eqn:E1;
        [apply (Hlit "null"); [assumption | reflexivity | cbn; lia]|].
      destruct (Py.startswith "true" (String c r)) eqn:E2;
        [apply (Hlit "true"); [assumption | reflexivity | cbn; lia]|].
      destruct (Py.startswith "false" (String c r)) eqn:E3;
        [apply (Hlit "false"); [assumption | reflexivity | cbn; lia]|].
      destruct (Json.scan_number (String c r)) as [[[v|] rest]|] eqn:En;
        [apply scan_number_length in En; exact En | exact I |].
      destruct (Py.startswith "NaN" (String c r)) eqn:E4;
        [apply (Hlit "NaN"); [assumption | reflexivity | cbn; lia]|].
      destruct (Py.startswith "Infinity" (String c r)) eqn:E5;
        [apply (Hlit "Infinity"); [assumption | reflexivity | cbn; lia]|].
      destruct (Py.startswith "-Infinity" (String c r)) eqn:E6;
        [apply (Hlit "-Infinity"); [assumption | reflexivity | cbn; lia]|].
      exact I.
    + intros room s acc Hf. cbn [Json.scan_members].
      destruct (Json.scanstring s) as [[cs r]|] eqn:E; [|exact I].
      apply (scanstring_length _ _ _ _ (le_n _)) in E.
      pose proof (skip_ws_length r) as Hws.
      destruct (Json.skip_ws r) as [|c1 r1]; [exact I|]. cbn [String.length] in Hws.
      destruct (Ascii.eqb c1 ":"); cbn [negb]; [|exact I].
      pose proof (skip_ws_length r1) as Hws1.
      specialize (IHonce room (Json.skip_ws r1) ltac:(lia)).
      destruct (Json.scan_once fuel room (Json.skip_ws r1)) as [v r2| |];
        cbn [within] in IHonce; [|exact I | contradiction].
      pose proof (skip_ws_length r2) as Hws2.
      destruct (Json.skip_ws r2) as [|c3 r3]; [exact I|]. cbn [String.length] in Hws2.
      destruct (Ascii.eqb c3 "}"); [cbn; lia|].
      destruct (Ascii.eqb c3 ","); [|exact I].
      pose proof (skip_ws_length r3) as Hws3.
      destruct (Json.skip_ws r3) as [|c4 r4]; [exact I|]. cbn [String.length] in Hws3.
      destruct (Ascii.eqb c4 Py.dquote); [|exact I].
      specialize (IHmembers room r4 (Dict.set acc (Json.text_of None cs) v) ltac:(lia)).
      destruct (Json.scan_members fuel room r4 _); cbn in *; try lia; exact I.
    + intros room s acc Hf. cbn [Json.scan_elements].
      specialize (IHonce room s ltac:(lia)).
      destruct (Json.scan_once fuel room s) as [v r| |];
        cbn [within] in IHonce; [|exact I | contradiction].
      pose proof (skip_ws_length r) as Hws.
      destruct (Json.skip_ws r) as [|c1 r1]; [exact I|]. cbn [String.length] in Hws.
      destruct (Ascii.eqb c1 "]"); [cbn; lia|].
      destruct (Ascii.eqb c1 ","); [|exact I].
      pose proof (skip_ws_length r1) as Hws1.
      specialize (IHelements room (Json.skip_ws r1) (acc ++ [v])%list ltac:(lia)).
      destruct (Json.scan_elements fuel room (Json.skip_ws r1) _);
        cbn in *; try lia; exact I.
Qed.

(** [loads] gives its scan fuel enough: [None] is always an error of the
    text, never the bound on the recursion. *)
Lemma loads_fuel (s : string) :
  Json.scan_once (2 * String.length (Json.skip_ws s) + 2) json_nesting_limit
    (Json.skip_ws s)
  <> Json.OutOfFuel.
Proof.
  intros H.
  pose proof (proj1 (scan_within (2 * String.length (Json.skip_ws s) + 2))
                json_nesting_limit (Json.skip_ws s) ltac:(lia)) as Hw.
  rewrite H in Hw. exact Hw.
Qed.

End JsonFacts.
(* ================================================================== *)
(** * What lies outside the frozen claims: edges of the decoder *)

Section DecoderEdges.
Context {P : Platform}.

(** The text of a chunk without NUL holds no place where it splits. *)
Lemma split_go_no_nul (q : ascii) (data acc : string) :
  is_quote q -> no_nul data = true ->
  Py.split_go "\x00" (Py.repr_body q data ++ String q EmptyString) 0 acc
  = [acc ++ Py.repr_body q data ++ String q EmptyString].
Proof.
  intros Hq. destruct (is_quote_tail q Hq) as (_ & _ & Hqs).
  revert acc. induction data as [|c data IH]; intros acc H.
  - cbn [Py.repr_body append]. apply Hqs.
  - cbn [no_nul] in H. apply andb_true_iff in H as [H Hr].
    apply andb_true_iff in H as [Hn He]. apply negb_true_iff in Hn, He.
    cbn [Py.repr_body].
    rewrite append_assoc, (split_go_repr_byte q c data acc Hq Hn He), IH by assumption.
    now rewrite !append_assoc.
Qed.

Lemma response_parts_no_nul (data : string) :
  no_nul data = true -> response_parts data = [Py.bytes_repr data].
Proof.
  intros H. unfold response_parts, Py.split, Py.bytes_repr.
  pose proof (repr_quote_is_quote data) as Hq.
  set (q := Py.repr_quote data) in *. cbv zeta.
  assert (Hhead : forall t, Py.split_go "\x00" (String "b" (String q t)) 0 EmptyString
                            = Py.split_go "\x00" t 0 (String "b" (String q EmptyString))).
  { intros t. destruct Hq as [-> | ->]; reflexivity. }
  rewrite Hhead, (split_go_no_nul q data _ Hq H). reflexivity.
Qed.

(** An object is all a text that begins with a brace parses to. *)
Lemma scan_members_object (fuel room : nat) :
  forall (s : string) (acc : list (string * pyval)) (v : pyval) (rest : string),
    Json.scan_members fuel room s acc = Json.Scanned v rest -> exists d, v = PyDict d.
Proof.
  induction fuel as [|fuel IH]; intros s acc v rest; [discriminate|].
  cbn [Json.scan_members].
  destruct (Json.scanstring s) as [[cs r]|]; [|discriminate].
  destruct (Json.skip_ws r) as [|c1 r1]; [discriminate|].
  destruct (Ascii.eqb c1 ":"); cbn [negb]; [|discriminate].
  destruct (Json.scan_once fuel room (Json.skip_ws r1)) as [w r2| |]; try discriminate.
  destruct (Json.skip_ws r2) as [|c3 r3]; [discriminate|].
  destruct (Ascii.eqb c3 "}"); [intros [= <- _]; now eexists|].
  destruct (Ascii.eqb c3 ","); [|discriminate].
  destruct (Json.skip_ws r3) as [|c4 r4]; [discriminate|].
  destruct (Ascii.eqb c4 Py.dquote); [|discriminate].
  apply IH.
Qed.

Lemma loads_object (s : string) (v : pyval) :
  Py.startswith "{" s = true -> Json.loads s = Some v -> exists d, v = PyDict d.
Proof.
  destruct s as [|c r]; [discriminate|]. cbn [Py.startswith].
  rewrite andb_true_r. intros Hc. apply Ascii.eqb_eq in Hc. subst c.
  unfold Json.loads. change (Json.skip_ws (String "{" r)) with (String "{"%char r).
  rewrite Nat.add_comm. cbn [Nat.add Json.scan_once].
  change (Ascii.eqb "{" Py.dquote) with false. cbn [Ascii.eqb Bool.eqb andb].
  cbv iota.
  destruct json_nesting_limit as [|room]; [discriminate|].
  destruct (Json.skip_ws r) as [|c1 r1]; [discriminate|].
  destruct (Ascii.eqb c1 "}").
  - destruct (Json.skip_ws r1); [intros [= <-]; now eexists | discriminate].
  - destruct (Ascii.eqb c1 Py.dquote); [|discriminate].
    destruct (Json.scan_members _ _ r1 []) as [w rest| |] eqn:E; try discriminate.
    destruct (Json.skip_ws rest); [|discriminate].
    intros [= <-]. eapply scan_members_object. exact E.
Qed.

Lemma slice_to_startswith (n : nat) (s : string) :
  Py.startswith "{" s = true -> Py.startswith "{" (Py.slice_to (S n) s) = true.
Proof.
  destruct s as [|c r]; [discriminate|]. unfold Py.slice_to.
  cbn [String.substring Py.startswith]. exact (fun H => H).
Qed.

Lemma scan_parts_object (parts : list string) :
  forall r, (r = PyNone \/ exists d, r = PyDict d) ->
            let r' := fst (scan_parts parts r) in
            r' = PyNone \/ exists d, r' = PyDict d.
Proof.
  induction parts as [|s parts IH]; intros r Hr; [exact Hr|].
  cbn [scan_parts].
  destruct (Py.startswith "{" s) eqn:Hs; [|apply IH, Hr].
  destruct (Py.rindex "}" s) as [i|]; [|exact Hr].
  destruct (Json.loads _) as [v|] eqn:Hv; [|exact Hr].
  apply IH. right. rewrite Nat.add_comm in Hv.
  exact (loads_object _ _ (slice_to_startswith i s Hs) Hv).
Qed.

End DecoderEdges.

(** X1.  A chunk with no NUL byte (and no backslash followed by x00) is
    one segment, the text of the whole chunk, which begins with the letter b
    of a bytes literal: nothing of it is decoded.  [parse_response] returns
    [None] and logs nothing, also when the chunk is a complete JSON
    object. *)
Theorem parse_response_without_nul :
  forall (P : Platform) (data : string),
    no_nul data = true ->
    response_parts data = [Py.bytes_repr data]
    /\ parse_response data = (PyNone, []).
Proof.
  intros P data H. pose proof (response_parts_no_nul data H) as Hparts.
  split; [exact Hparts|].
  unfold parse_response. rewrite Hparts. reflexivity.
Qed.

(** The theorem at a chunk that is a JSON object and nothing else. *)
Lemma parse_response_without_nul_witness :
  Json.loads (lit "{`id`:2,`params`:{`keepAliveInterval`:30}}")
  = Some (@PyDict example_platform
            [("id", PyInt 2); ("params", PyDict [("keepAliveInterval", PyInt 30)])])
  /\ @parse_response example_platform (lit "{`id`:2,`params`:{`keepAliveInterval`:30}}")
     = (PyNone, []).
Proof.
  split; [vm_compute; reflexivity|].
  apply (parse_response_without_nul example_platform
           (lit "{`id`:2,`params`:{`keepAliveInterval`:30}}")).
  vm_compute. reflexivity.
Defined.

(** X2.  Whatever the chunk, what [parse_response] returns is [None] or a
    JSON object: a segment is decoded only if it begins with a brace, and
    such a text parses to an object or not at all. *)
Theorem parse_response_none_or_object :
  forall (P : Platform) (data : string),
    fst (parse_response data) = PyNone
    \/ exists m, fst (parse_response data) = PyDict m.
Proof.
  intros P data. unfold parse_response.
  pose proof (scan_parts_object (response_parts data) PyNone (or_introl eq_refl)) as H.
  cbv zeta in H.
  destruct (scan_parts (response_parts data) PyNone) as [r [x|]]; exact H.
Qed.
(* ================================================================== *)
(** * What a callback leaves alone *)

Section Frames.
Context {P : Platform}.

Context {X : Type} (proj : DahuaVTOClient -> X) (ok : effect -> bool).

Lemma stays_ret {A} (a : A) : stays proj ok (ret a).
Proof. intros c. now split. Qed.

Lemma stays_raise {A} (x : exn) : stays proj ok (@raise P A x).
Proof. intros c. now split. Qed.

Lemma stays_self : stays proj ok self.
Proof. intros c. now split. Qed.

Lemma stays_orelse {A} (x : exn) (o : option A) : stays proj ok (orelse x o).
Proof. destruct o; [apply stays_ret | apply stays_raise]. Qed.

Lemma stays_emit (e : effect) : ok e = true -> stays proj ok (emit e).
Proof. intros H c. split; [reflexivity|]. cbn. now rewrite H. Qed.

Lemma stays_assign (f : DahuaVTOClient -> DahuaVTOClient) :
  (forall c, proj (f c) = proj c) -> stays proj ok (assign f).
Proof. intros H c. split; [apply H | reflexivity]. Qed.

Lemma stays_bind {A B} (m : M A) (f : A -> M B) :
  stays proj ok m -> (forall a, stays proj ok (f a)) -> stays proj ok (bind m f).
Proof.
  intros Hm Hf c. specialize (Hm c). unfold bind.
  destruct (m c) as [[c1 e1] [a|x]]; cbn [fst snd] in Hm |- *; [|assumption].
  specialize (Hf a c1). destruct (f a c1) as [[c2 e2] r2]; cbn [fst snd] in Hf |- *.
  destruct Hm as [Hp1 He1], Hf as [Hp2 He2]. split; [congruence|].
  now rewrite forallb_app, He1, He2.
Qed.

Lemma stays_try_except (body handler : M unit) :
  stays proj ok body -> stays proj ok handler -> stays proj ok (try_except body handler).
Proof.
  intros Hb Hh c. specialize (Hb c). unfold try_except.
  destruct (body c) as [[c1 e1] [a|x]]; cbn [fst snd] in Hb |- *; [assumption|].
  specialize (Hh c1). destruct (handler c1) as [[c2 e2] r2]; cbn [fst snd] in Hh |- *.
  destruct Hb as [Hp1 He1], Hh as [Hp2 He2]. split; [congruence|].
  now rewrite forallb_app, He1, He2.
Qed.

End Frames.

Ltac stays_step :=
  lazymatch goal with
  | |- stays _ _ (bind _ _) => apply stays_bind; [|intro]
  | |- stays _ _ (ret _) => apply stays_ret
  | |- stays _ _ (raise _) => apply stays_raise
  | |- stays _ _ self => apply stays_self
  | |- stays _ _ (orelse _ _) => apply stays_orelse
  | |- stays _ _ (emit _) => apply stays_emit; reflexivity
  | |- stays _ _ (assign _) => apply stays_assign; intros []; reflexivity
  | |- stays _ _ (try_except _ _) => apply stays_try_except
  | |- stays _ _ (if ?b then _ else _) => destruct b
  | |- stays _ _ (match ?x with _ => _ end) => destruct x
  | |- stays _ _ (let _ := _ in _) => cbv zeta
  end.

Section FrameFacts.
Context {P : Platform}.

Lemma dispatcher_effects (es : list effect) :
  forallb dispatcher_effect es = true -> written es = [] /\ timers es = [].
Proof.
  induction es as [|e es IH]; [now split|].
  cbn [forallb]. intros H. apply andb_true_iff in H as [He Hes].
  destruct e; try discriminate He; cbn [written timers]; now apply IH.
Qed.

Lemma handshake_effects (es : list effect) :
  forallb handshake_effect es = true -> published es = [].
Proof.
  induction es as [|e es IH]; [reflexivity|].
  cbn [forallb]. intros H. apply andb_true_iff in H as [He Hes].
  destruct e; try discriminate He; cbn [published]; now apply IH.
Qed.

Lemma stays_dispatch_events (l : list pyval) :
  stays (fun c => c) dispatcher_effect (dispatch_events l).
Proof.
  induction l as [|message l IH]; cbn [dispatch_events]; [apply stays_ret|].
  apply stays_bind; [|intros _; exact IH].
  unfold dispatch_event. repeat stays_step.
Qed.

Lemma stays_handle_notify_event_stream (params_ : pyval) :
  stays (fun c => c) dispatcher_effect (handle_notify_event_stream params_).
Proof.
  unfold handle_notify_event_stream, for_each_event.
  repeat stays_step; apply stays_dispatch_events.
Qed.

(** The dispatcher catches what its body raises. *)
Lemma handle_notify_event_stream_returns (params_ : pyval) (c : DahuaVTOClient) :
  snd (handle_notify_event_stream params_ c) = inl tt.
Proof.
  unfold handle_notify_event_stream, try_except.
  destruct (bind _ _ c) as [[c1 e1] [a|x]]; [reflexivity|].
  reflexivity.
Qed.

Lemma stays_send {X : Type} (proj : DahuaVTOClient -> X) (md : Messages.MessageData) :
  (forall c n, proj (set_request_id n c) = proj c) ->
  stays proj handshake_effect (send md).
Proof.
  intros H. unfold send, transport_is_closing.
  apply stays_bind; [apply stays_assign; intros c; apply H | intros _].
  repeat stays_step.
Qed.

Lemma stays_login : stays (fun _ : DahuaVTOClient => tt) handshake_effect login.
Proof. unfold login. repeat stays_step. now apply stays_send. Qed.

Lemma stays_handle_login_error (error message params_ : pyval) :
  stays (fun _ : DahuaVTOClient => tt) handshake_effect
    (handle_login_error error message params_).
Proof. unfold handle_login_error. repeat stays_step. apply stays_login. Qed.

Lemma stays_handle_login (params_ : pyval) :
  stays (fun _ : DahuaVTOClient => tt) handshake_effect (handle_login params_).
Proof.
  unfold handle_login, attach_event_manager. repeat stays_step. now apply stays_send.
Qed.

Lemma parse_response_log (data : string) :
  snd (parse_response data) = []
  \/ snd (parse_response data) = [Log ERROR "Failed to read data"].
Proof.
  unfold parse_response.
  destruct (scan_parts (response_parts data) PyNone) as [r [x|]]; [now right | now left].
Qed.

Lemma settings_set_request_id (c : DahuaVTOClient) (n : Z) :
  settings (set_request_id n c) = settings c.
Proof. now destruct c. Qed.

Lemma stays_settings_send (md : Messages.MessageData) :
  stays settings any_effect (send md).
Proof.
  unfold send, transport_is_closing.
  apply stays_bind; [apply stays_assign; intros c; apply settings_set_request_id | intros _].
  repeat stays_step.
Qed.

Lemma stays_settings_dispatch_events (l : list pyval) :
  stays settings any_effect (dispatch_events l).
Proof.
  induction l as [|message l IH]; cbn [dispatch_events]; [apply stays_ret|].
  apply stays_bind; [|intros _; exact IH].
  unfold dispatch_event. repeat stays_step.
Qed.

Lemma any_effects (es : list effect) : forallb any_effect es = true.
Proof. induction es as [|e es IH]; [reflexivity | exact IH]. Qed.

Lemma stays_settings_data_received (data : string) :
  stays settings any_effect (data_received data).
Proof.
  unfold data_received.
  destruct (parse_response data) as [message logged].
  apply stays_try_except; [|repeat stays_step].
  apply stays_bind; [intros c; split; [reflexivity | apply any_effects] | intros _].
  unfold handle_login_error, handle_login, login, attach_event_manager,
    handle_notify_event_stream, for_each_event.
  repeat stays_step;
    first [ apply stays_settings_send | apply stays_settings_dispatch_events ].
Qed.

Lemma stays_settings_react (ev : event) : stays settings any_effect (react ev).
Proof.
  destruct ev; cbn [react].
  - apply stays_settings_data_received.
  - unfold keep_alive. repeat stays_step. apply stays_settings_send.
  - apply stays_assign. intros c. unfold close_transport.
    destruct (transport c); now destruct c.
  - unfold eof_received. repeat stays_step.
  - unfold connection_lost. repeat stays_step.
Qed.

End FrameFacts.

(** X3.  A chunk from which [parse_response] brings back nothing makes
    [data_received] fail on the first field it reads of the message: the
    failure is logged as an error of the handler, after what the decoder
    logged, and the client is left as it was, with nothing written. *)
Theorem data_received_without_object :
  forall (P : Platform) (c : DahuaVTOClient) (data : string) (logged : list effect),
    parse_response data = (PyNone, logged) ->
    data_received data c
    = (c,
       (logged ++ [Log DEBUG "Data received"; Log ERROR "Failed to handle message"])%list,
       inl tt).
Proof.
  intros P c data logged H. step_m. rewrite H. step_m.
  now rewrite app_nil_r, <- app_assoc.
Qed.

(** The theorem at a login response that reaches the client without its
    NUL framing. *)
Lemma data_received_without_object_witness :
  @data_received example_platform
    (lit "{`id`:2,`params`:{`keepAliveInterval`:30}}") example_client
  = (example_client,
     [Log DEBUG "Data received"; Log ERROR "Failed to handle message"],
     inl tt).
Proof.
  apply (data_received_without_object example_platform example_client
           (lit "{`id`:2,`params`:{`keepAliveInterval`:30}}") []).
  vm_compute. reflexivity.
Defined.

(** X4.  A decoded message whose id is neither 1 nor 2 (the responses to
    the attach request and to the keep-alives, and the notifications) leaves
    the client as it was, request counter and session included, writes
    nothing to the transport and starts no timer; unless its method is that
    of an event notification, all it leaves is the debug entry of its
    reception. *)
Theorem other_ids_change_nothing :
  forall (P : Platform) (c : DahuaVTOClient) (data : string)
         (m : list (string * pyval)) (logged : list effect),
    parse_response data = (PyDict m, logged) ->
    py_eq_int (field m "id") 1 = false ->
    py_eq_int (field m "id") 2 = false ->
    exists es,
      data_received data c = (c, es, inl tt)
      /\ written es = [] /\ timers es = []
      /\ (py_eq_str (field m "method") "client.notifyEventStream" = false ->
          es = (logged ++ [Log DEBUG "Data received"])%list).
Proof.
  intros P c data m logged Hparse H1 H2.
  destruct (parse_response_logged _ _ _ Hparse) as [Hw Ht].
  step_m. rewrite Hparse. step_m. rewrite H1, H2. step_m.
  destruct (py_eq_str (field m "method") "client.notifyEventStream").
  - destruct (stays_handle_notify_event_stream (field m "params") c) as [Hc He].
    pose proof (handle_notify_event_stream_returns (field m "params") c) as Hr.
    destruct (handle_notify_event_stream (field m "params") c) as [[c1 e1] r1].
    cbn [fst snd] in Hc, He, Hr. subst c1 r1.
    destruct (dispatcher_effects e1 He) as [Hw1 Ht1].
    eexists. split; [reflexivity|].
    rewrite !written_app, !timers_app, Hw, Ht, Hw1, Ht1.
    repeat split; try reflexivity. discriminate.
  - eexists. split; [reflexivity|].
    rewrite !written_app, !timers_app, Hw, Ht. repeat split; reflexivity.
Qed.

(** The theorem at the response of the device to the attach request. *)
Lemma other_ids_change_nothing_witness :
  @data_received example_platform
    (Py.NUL ++ lit "{`id`:3,`params`:{`SID`:513},`result`:true,`session`:42}" ++ Py.NUL)
    attached_client
  = (attached_client, [Log DEBUG "Data received"], inl tt).
Proof.
  destruct (other_ids_change_nothing example_platform attached_client
              (Py.NUL ++ lit "{`id`:3,`params`:{`SID`:513},`result`:true,`session`:42}"
                 ++ Py.NUL)
              [("id", PyInt 3); ("params", PyDict [("SID", PyInt 513)]);
               ("result", PyBool true); ("session", PyInt 42)]
              [] eq_refl eq_refl eq_refl) as (es & Heq & _ & _ & Hes).
  rewrite Heq, (Hes eq_refl). reflexivity.
Defined.

Ltac step_d :=
  cbv beta iota zeta delta
    [data_received try_except bind ret emit self assign orelse raise py_get
     py_is_not_none].

(** X5.  Nothing is published to the broker for a chunk unless the message
    decoded from it is an event notification: an object whose id is neither
    1 nor 2 and whose method is [client.notifyEventStream].  The responses
    of the login, and what cannot be decoded, are not published. *)
Theorem publishes_only_event_notifications :
  forall (P : Platform) (c : DahuaVTOClient) (data : string),
    is_event_notification (fst (parse_response data)) = false ->
    published (snd (fst (data_received data c))) = [].
Proof.
  intros P c data H.
  pose proof (parse_response_log data) as Hlog.
  destruct (parse_response data) as [message logged] eqn:Hparse.
  cbn [fst snd] in H, Hlog.
  assert (Hl : published logged = []) by (destruct Hlog as [-> | ->]; reflexivity).
  step_d. rewrite Hparse.
  destruct message as [| | | | | |m]; step_d; cbn [fst snd];
    rewrite ?published_app, ?Hl; try reflexivity.
  cbn [is_event_notification] in H.
  destruct (py_eq_int (field m "id") 1) eqn:H1.
  - destruct (field m "error") as [| | | | | |] eqn:He; step_d; cbn [fst snd];
      rewrite ?published_app, ?Hl; try reflexivity;
      match goal with
      | |- context [handle_login_error ?e ?msg ?p c] =>
          destruct (stays_handle_login_error e msg p c) as [_ Hs];
          destruct (handle_login_error e msg p c) as [[c1 e1] [a|x]];
          cbn [fst snd] in Hs |- *;
          rewrite ?published_app, ?Hl, (handshake_effects e1 Hs); reflexivity
      end.
  - destruct (py_eq_int (field m "id") 2) eqn:H2.
    + destruct (stays_handle_login (field m "params") c) as [_ Hs].
      destruct (handle_login (field m "params") c) as [[c1 e1] [a|x]];
        cbn [fst snd] in Hs |- *;
        rewrite ?published_app, ?Hl, (handshake_effects e1 Hs); reflexivity.
    + cbn [negb andb] in H. rewrite H. cbn [fst snd].
      rewrite ?published_app, ?Hl. reflexivity.
Qed.

(** The theorem at the challenge of the examples. *)
Lemma publishes_only_event_notifications_witness :
  published (snd (fst (@data_received example_platform challenge_chunk example_client)))
  = [].
Proof.
  apply (publishes_only_event_notifications example_platform example_client
           challenge_chunk).
  vm_compute. reflexivity.
Defined.

(** X6.  Whatever arrives and whenever the timers fire, the client keeps
    the device details it read when the connection was made, the address of
    the device, the user name and the password, and the topic prefix: no
    callback of the connection assigns them. *)
Theorem settings_fixed_for_the_connection :
  forall (P : Platform) (evs : list event) (c : DahuaVTOClient),
    settings (fst (run evs c)) = settings c.
Proof.
  intros P evs. induction evs as [|ev evs IH]; intros c; [reflexivity|].
  cbn [run]. destruct (stays_settings_react ev c) as [Hs _].
  destruct (react ev c) as [[c1 e1] x]. cbn [fst] in Hs.
  specialize (IH c1). destruct (run evs c1) as [c2 e2]. cbn [fst] in IH |- *.
  congruence.
Qed.

Section SteadyState.
Context {P : Platform}.

Lemma keep_alive_open (c : DahuaVTOClient) :
  is_open c = true ->
  keep_alive c
  = (set_request_id (request_id c + 1) c,
     [Log DEBUG "Keep alive"; Write (keep_alive_request c (request_id c + 1));
      StartTimer (keep_alive_interval c)], inl tt).
Proof.
  unfold is_open. intros Ho. step_m.
  destruct c as [dd bu un pw pf rl rd rid sid kai [[[|]]|]]; try discriminate Ho.
  reflexivity.
Qed.

Lemma flat_map_seq_shift {A : Type} (f : nat -> list A) (a n : nat) :
  flat_map f (seq (S a) n) = flat_map (fun i => f (S i)) (seq a n).
Proof.
  rewrite <- seq_shift. induction (seq a n) as [|i l IH]; cbn; congruence.
Qed.

Lemma run_timers_open (n : nat) :
  forall c : DahuaVTOClient,
    is_open c = true ->
    run (repeat TimerFires n) c
    = (set_request_id (request_id c + Z.of_nat n) c,
       flat_map (fun i => [Log DEBUG "Keep alive";
                           Write (keep_alive_request c (request_id c + Z.of_nat i));
                           StartTimer (keep_alive_interval c)]) (seq 1 n)).
Proof.
  induction n as [|n IH]; intros c Ho.
  - cbn. destruct c; cbn. now rewrite Z.add_0_r.
  - cbn [repeat run react]. rewrite (keep_alive_open c Ho).
    rewrite (IH (set_request_id (request_id c + 1) c))
      by (destruct c; exact Ho).
    cbn [seq flat_map]. f_equal.
    + destruct c; unfold set_request_id; cbn. f_equal. lia.
    + cbn [app]. do 3 f_equal.
      rewrite (flat_map_seq_shift _ 1 n).
      apply flat_map_ext. intros i.
      assert (E : request_id c + 1 + Z.of_nat i = request_id c + Z.of_nat (S i)) by lia.
      destruct c; unfold keep_alive_request; cbn in E |- *. now rewrite E.
Qed.

End SteadyState.

(** X7.  On an open transport, [n] firings of the keep-alive timer write
    [n] [global.keepAlive] requests, under the [n] ids that follow the
    request counter, each with the session of the client and with the stored
    interval as its timeout; each firing starts the timer of the next with
    that same interval, and nothing but the request counter changes in the
    client. *)
Theorem keep_alive_while_open :
  forall (P : Platform) (c : DahuaVTOClient) (n : nat),
    is_open c = true ->
    let after := run (repeat TimerFires n) c in
    written (snd after)
    = map (fun i => keep_alive_request c (request_id c + Z.of_nat i)) (seq 1 n)
    /\ timers (snd after) = repeat (keep_alive_interval c) n
    /\ fst after = set_request_id (request_id c + Z.of_nat n) c.
Proof.
  intros P c n Ho after. subst after. rewrite (run_timers_open n c Ho).
  cbn [fst snd]. split; [|split; [|reflexivity]].
  - generalize (seq 1 n). intros l. induction l as [|i l IH]; [reflexivity|].
    cbn. now rewrite IH.
  - replace n with (List.length (seq 1 n)) at 2 by apply length_seq.
    generalize (seq 1 n). intros l.
    induction l as [|i l IH]; [reflexivity|]. cbn. now rewrite IH.
Qed.

(** The theorem at the attached client of the examples and two firings. *)
Lemma keep_alive_while_open_witness :
  written (snd (@run example_platform (repeat TimerFires 2) attached_client))
  = [Messages.mkMessageData 4 (PyInt 42) "global.keepAlive"
       (PyDict [("timeout", PyInt 25); ("active", PyBool true)]);
     Messages.mkMessageData 5 (PyInt 42) "global.keepAlive"
       (PyDict [("timeout", PyInt 25); ("active", PyBool true)])]
  /\ timers (snd (@run example_platform (repeat TimerFires 2) attached_client))
     = [PyInt 25; PyInt 25].
Proof.
  destruct (keep_alive_while_open example_platform attached_client 2 eq_refl)
    as (Hw & Ht & _).
  split; [exact Hw | exact Ht].
Defined.
(* ================================================================== *)
(** * Edges of the event dispatcher *)

(** X8.  The dispatcher stops at the first element of the event list that
    it cannot publish: the events before it are published, an error is
    logged, and the elements after it are not looked at.  This holds for an
    element that is no object, and for an event whose publication the broker
    client refuses. *)
Theorem event_list_cut_at_failure :
  forall (P : Platform) (c : DahuaVTOClient) (params_ : pyval)
         (evs : list (list (string * pyval))) (bad : pyval) (rest : list pyval),
    py_get params_ "eventList" = Some (PyList (map PyDict evs ++ bad :: rest)) ->
    (forall d, In d evs ->
               publish_raises (event_topic c d) (event_payload c d) = false) ->
    (is_dict bad = false ->
     handle_notify_event_stream params_ c
     = (c,
        (flat_map (publication c) evs ++ [Log ERROR "Failed to handle event"])%list,
        inl tt))
    /\ (forall d, bad = PyDict d ->
          publish_raises (event_topic c d) (event_payload c d) = true ->
          handle_notify_event_stream params_ c
          = (c,
             (flat_map (publication c) evs
              ++ [Log DEBUG "Publishing MQTT message";
                  Log ERROR "Failed to handle event"])%list,
             inl tt)).
Proof.
  intros P c params_ evs bad rest Hlist Hok.
  pose proof (dispatch_events_app c evs (bad :: rest) Hok) as Happ.
  split.
  - intros Hbad.
    unfold handle_notify_event_stream, try_except, bind at 1. rewrite Hlist.
    cbn [orelse ret for_each_event]. rewrite Happ.
    cbn [dispatch_events]. unfold bind. rewrite (dispatch_event_no_object c bad Hbad).
    cbn [fst snd emit app]. now rewrite app_nil_r.
  - intros d -> Href.
    unfold handle_notify_event_stream, try_except, bind at 1. rewrite Hlist.
    cbn [orelse ret for_each_event]. rewrite Happ.
    cbn [dispatch_events]. unfold bind. rewrite (dispatch_event_refused c d Href).
    cbn [fst snd emit app]. now rewrite <- app_assoc.
Qed.

(** The theorem at a list of a local alarm, a text and a second alarm: the
    first alarm is published and the second is not. *)
Lemma event_list_cut_at_failure_witness :
  @handle_notify_event_stream example_platform
    (PyDict [("eventList",
              PyList [PyDict [("Code", PyStr "AlarmLocal")]; PyStr "BackKeyLight";
                      PyDict [("Code", PyStr "DoorStatus")]])])
    example_client
  = (example_client,
     [Log DEBUG "Publishing MQTT message";
      Publish "Dahua/AlarmLocal/Event"
        (lit "{
    `Code`: `AlarmLocal`,
    `deviceType`: `VTO2000A`,
    `serialNumber`: `ABC123`
}");
      Log ERROR "Failed to handle event"],
     inl tt).
Proof.
  refine (proj1 (event_list_cut_at_failure example_platform example_client
                   (PyDict [("eventList",
                             PyList [PyDict [("Code", PyStr "AlarmLocal")];
                                     PyStr "BackKeyLight";
                                     PyDict [("Code", PyStr "DoorStatus")]])])
                   [[("Code", PyStr "AlarmLocal")]] (PyStr "BackKeyLight")
                   [PyDict [("Code", PyStr "DoorStatus")]] _ _) _).
  - reflexivity.
  - intros d [<- | []]. vm_compute. reflexivity.
  - reflexivity.
Defined.

(** X9.  When the params of a notification are no object, or their
    [eventList] is absent or anything but a list, nothing is published and
    the client is left as it was; the dispatcher returns all the same. *)
Theorem event_list_must_be_a_list :
  forall (P : Platform) (c : DahuaVTOClient) (params_ : pyval),
    (forall l, py_get params_ "eventList" <> Some (PyList l)) ->
    fst (fst (handle_notify_event_stream params_ c)) = c
    /\ published (snd (fst (handle_notify_event_stream params_ c))) = []
    /\ snd (handle_notify_event_stream params_ c) = inl tt.
Proof.
  intros P c params_ Hno.
  unfold handle_notify_event_stream, try_except, bind.
  destruct (py_get params_ "eventList") as [v|]; cbn [orelse ret raise];
    [|now repeat split].
  destruct v as [| | | | s | l | d]; cbn [for_each_event raise];
    try (now repeat split).
  - pose proof (dispatch_events_texts (fun ch => String ch EmptyString)
                  (list_ascii_of_string s) c) as H.
    destruct (dispatch_events _ c) as [[c1 e1] [a|x]]; cbn [fst] in H;
      injection H as -> ->; now repeat split.
  - exfalso. now apply (Hno l).
  - pose proof (dispatch_events_texts (fun k => k) (Dict.keys d) c) as H.
    destruct (dispatch_events _ c) as [[c1 e1] [a|x]]; cbn [fst] in H;
      injection H as -> ->; now repeat split.
Qed.

(** The theorem at params whose [eventList] is one event and not a list
    of events. *)
Lemma event_list_must_be_a_list_witness :
  published
    (snd (fst (@handle_notify_event_stream example_platform
                 (PyDict [("eventList", PyDict [("Code", PyStr "AlarmLocal")])])
                 example_client)))
  = [].
Proof.
  apply (event_list_must_be_a_list example_platform example_client
           (PyDict [("eventList", PyDict [("Code", PyStr "AlarmLocal")])])).
  intros l H. discriminate H.
Defined.
(* ================================================================== *)
(** * The device details *)

Section SplitFacts.

Lemma startswith_app (p s : string) : Py.startswith p (p ++ s) = true.
Proof.
  induction p as [|a p IH]; [reflexivity|].
  cbn [append Py.startswith]. now rewrite Ascii.eqb_refl.
Qed.

Lemma contains_app (c : ascii) (s t : string) :
  Py.contains c (s ++ t) = Py.contains c s || Py.contains c t.
Proof.
  induction s as [|a s IH]; [reflexivity|].
  cbn [append Py.contains]. now rewrite IH, orb_assoc.
Qed.

(** Past the rest of an occurrence of the separator. *)
Lemma split_go_skip (sep p rest acc : string) :
  Py.split_go sep (p ++ rest) (String.length p) acc = Py.split_go sep rest 0 acc.
Proof.
  induction p as [|a p IH]; [reflexivity|].
  cbn [append String.length Py.split_go]. exact IH.
Qed.

(** A text without the first character of the separator is one piece. *)
Lemma split_go_free (c : ascii) (p s acc : string) :
  Py.contains c s = false ->
  Py.split_go (String c p) s 0 acc = [acc ++ s].
Proof.
  revert acc. induction s as [|a s IH]; intros acc H.
  - cbn. now rewrite append_nil_r.
  - cbn [Py.contains] in H. apply orb_false_iff in H as [Ha Hs].
    cbn [Py.split_go Py.startswith]. rewrite Ascii.eqb_sym, Ha. cbn [andb].
    rewrite (IH _ Hs), append_assoc. reflexivity.
Qed.

(** Up to the first occurrence of the separator. *)
Lemma split_go_at (c : ascii) (p s rest acc : string) :
  Py.contains c s = false ->
  Py.split_go (String c p) (s ++ String c p ++ rest) 0 acc
  = (acc ++ s) :: Py.split_go (String c p) rest 0 EmptyString.
Proof.
  revert acc. induction s as [|a s IH]; intros acc H.
  - cbn [append Py.split_go].
    change (String c (p ++ rest)) with (String c p ++ rest).
    rewrite startswith_app, append_nil_r.
    cbn [String.length Nat.pred]. now rewrite split_go_skip.
  - cbn [Py.contains] in H. apply orb_false_iff in H as [Ha Hs].
    cbn [append Py.split_go Py.startswith]. rewrite Ascii.eqb_sym, Ha. cbn [andb].
    rewrite (IH _ Hs), append_assoc. reflexivity.
Qed.

Lemma concat_empty_cons (x : string) (xs : list string) :
  String.concat EmptyString (x :: xs) = x ++ String.concat EmptyString xs.
Proof. destruct xs; cbn; [now rewrite append_nil_r | reflexivity]. Qed.

(** The pieces of a line between its signs of equality. *)
Lemma split_key_value (k v : string) :
  free_of "=" k = true -> free_of "=" v = true ->
  Py.split "=" (k ++ "=" ++ v) = [k; v].
Proof.
  unfold free_of. intros Hk Hv. apply negb_true_iff in Hk, Hv.
  unfold Py.split.
  change (k ++ "=" ++ v) with (k ++ String "=" EmptyString ++ v).
  rewrite (split_go_at "=" EmptyString k v EmptyString Hk).
  now rewrite (split_go_free "=" EmptyString v EmptyString Hv).
Qed.

Lemma split_key_value_more (k v w : string) :
  free_of "=" k = true -> free_of "=" v = true ->
  exists more, Py.split "=" (k ++ "=" ++ v ++ "=" ++ w) = k :: v :: more.
Proof.
  unfold free_of. intros Hk Hv. apply negb_true_iff in Hk, Hv.
  unfold Py.split.
  change (k ++ "=" ++ v ++ "=" ++ w)
    with (k ++ String "=" EmptyString ++ (v ++ String "=" EmptyString ++ w)).
  rewrite (split_go_at "=" EmptyString k _ EmptyString Hk).
  rewrite (split_go_at "=" EmptyString v w EmptyString Hv).
  now eexists.
Qed.

(** The lines of the text of the details. *)
Lemma split_details_text (kvs : list (string * string)) :
  forallb plain_detail kvs = true ->
  Py.split CRLF (details_text kvs)
  = (map (fun kv => (fst kv ++ "=" ++ snd kv)%string) kvs ++ [EmptyString])%list.
Proof.
  unfold Py.split, details_text. induction kvs as [|[k v] kvs IH]; intros H.
  - reflexivity.
  - cbn [forallb] in H. apply andb_true_iff in H as [Hkv H].
    unfold plain_detail, free_of in Hkv. cbn [fst snd] in Hkv.
    apply andb_true_iff in Hkv as [Hkv Hv2]. apply andb_true_iff in Hkv as [Hkv Hv1].
    apply andb_true_iff in Hkv as [Hk1 Hk2].
    apply negb_true_iff in Hk2, Hv2.
    cbn [map]. rewrite concat_empty_cons. unfold detail_line at 1. cbn [fst snd].
    replace ((k ++ "=" ++ v ++ CRLF) ++ String.concat EmptyString (map detail_line kvs))
      with ((k ++ "=" ++ v) ++ CRLF ++ String.concat EmptyString (map detail_line kvs))
      by (now rewrite !append_assoc).
    unfold CRLF at 1 2.
    rewrite split_go_at.
    + fold CRLF. rewrite (IH H). reflexivity.
    + rewrite !contains_app, Hk2, Hv2. reflexivity.
Qed.

End SplitFacts.

Section DetailFacts.
Context {P : Platform}.

Lemma contains_key_value (k v : string) : Py.contains "=" (k ++ "=" ++ v) = true.
Proof. rewrite contains_app. cbn. now rewrite orb_true_r. Qed.

Lemma read_details_app (lines lines' : list string) (d : list (string * string)) :
  read_details (lines ++ lines') d = read_details lines' (read_details lines d).
Proof.
  revert d. induction lines as [|line lines IH]; intros d; [reflexivity|].
  cbn [app read_details].
  destruct (Py.contains "=" line); [|apply IH].
  destruct (Py.split "=" line) as [|k [|v more]]; apply IH.
Qed.

Lemma read_details_lines (kvs : list (string * string)) (d : list (string * string)) :
  forallb plain_detail kvs = true ->
  read_details (map (fun kv => fst kv ++ "=" ++ snd kv) kvs) d
  = fold_left (fun d kv => Dict.set d (fst kv) (snd kv)) kvs d.
Proof.
  revert d. induction kvs as [|[k v] kvs IH]; intros d H; [reflexivity|].
  cbn [forallb] in H. apply andb_true_iff in H as [Hkv H].
  unfold plain_detail in Hkv. cbn [fst snd] in Hkv.
  apply andb_true_iff in Hkv as [Hkv Hv2]. apply andb_true_iff in Hkv as [Hkv Hv1].
  apply andb_true_iff in Hkv as [Hk1 Hk2].
  cbn [map fold_left read_details fst snd].
  rewrite contains_key_value, (split_key_value k v Hk1 Hv1). apply IH, H.
Qed.

Lemma dict_get_app {V : Type} (d d' : list (string * V)) (k : string) :
  Dict.get (d ++ d') k
  = match Dict.get d k with Some v => Some v | None => Dict.get d' k end.
Proof.
  induction d as [|[k0 v0] d IH]; [reflexivity|].
  cbn [app Dict.get]. destruct (String.eqb k0 k); [reflexivity | exact IH].
Qed.

(** The last line of a key is the one that counts. *)
Lemma get_fold_set (kvs : list (string * string)) :
  forall (d : list (string * string)) (k : string),
    Dict.get (fold_left (fun d kv => Dict.set d (fst kv) (snd kv)) kvs d) k
    = match Dict.get (rev kvs) k with
      | Some v => Some v
      | None => Dict.get d k
      end.
Proof.
  induction kvs as [|[k0 v0] kvs IH]; intros d k; [reflexivity|].
  cbn [fold_left rev fst snd]. rewrite IH, dict_get_app, dict_get_set.
  cbn [Dict.get]. destruct (Dict.get (rev kvs) k); [reflexivity|].
  destruct (String.eqb k0 k); reflexivity.
Qed.

End DetailFacts.

(** X10.  When the device answers the request of its details with lines
    [key=value], each ended by CR LF, keys and values holding neither a sign
    of equality nor a CR, [load_dahua_info] sets each key to its value, in
    the order of the lines: a key keeps the place of its first line and
    has the value of its last, and the details the client had for other keys
    stay. *)
Theorem load_dahua_info_reads_details :
  forall (P : Platform) (c : DahuaVTOClient) (kvs : list (string * string)),
    forallb plain_detail kvs = true ->
    let c' := fst (fst (load_dahua_info (Some (details_text kvs)) c)) in
    dahua_details c'
    = fold_left (fun d kv => Dict.set d (fst kv) (snd kv)) kvs (dahua_details c)
    /\ forall k,
         Dict.get (dahua_details c') k
         = match Dict.get (rev kvs) k with
           | Some v => Some v
           | None => Dict.get (dahua_details c) k
           end.
Proof.
  intros P c kvs H c'.
  assert (Hd : dahua_details c'
               = fold_left (fun d kv => Dict.set d (fst kv) (snd kv)) kvs
                   (dahua_details c)).
  { subst c'. unfold load_dahua_info, try_except, bind, emit, self, orelse, ret, assign.
    cbn [fst snd]. rewrite (split_details_text kvs H), read_details_app.
    rewrite (read_details_lines kvs _ H). now destruct c. }
  split; [exact Hd|]. intros k. rewrite Hd. apply get_fold_set.
Qed.

(** The theorem at the details of a door station, one of them sent twice. *)
Lemma load_dahua_info_reads_details_witness :
  dahua_details
    (fst (fst (@load_dahua_info example_platform
                 (Some ("deviceType=VTO2000A" ++ CRLF ++ "serialNumber=ABC123" ++ CRLF
                        ++ "deviceType=VTO2111D" ++ CRLF))
                 (@init example_platform example_environ))))
  = [("deviceType", "VTO2111D"); ("serialNumber", "ABC123")].
Proof.
  exact (proj1 (load_dahua_info_reads_details example_platform
                  (@init example_platform example_environ)
                  [("deviceType", "VTO2000A"); ("serialNumber", "ABC123");
                   ("deviceType", "VTO2111D")] eq_refl)).
Defined.

(** X11.  Of a line with more than one sign of equality only the text
    between the first and the second is kept as the value: what follows the
    second sign is dropped. *)
Theorem detail_value_cut_at_equals :
  forall (k v w : string) (rest : list string) (details : list (string * string)),
    free_of "=" k = true -> free_of "=" v = true ->
    read_details ((k ++ "=" ++ v ++ "=" ++ w) :: rest) details
    = read_details rest (Dict.set details k v).
Proof.
  intros k v w rest details Hk Hv. cbn [read_details].
  rewrite contains_key_value.
  destruct (split_key_value_more k v w Hk Hv) as [more ->]. reflexivity.
Qed.

(** The theorem at a line whose value is a query. *)
Lemma detail_value_cut_at_equals_witness :
  read_details ["updateUrl=http://host/get?id=7"] []
  = [("updateUrl", "http://host/get?id")].
Proof.
  exact (detail_value_cut_at_equals "updateUrl" "http://host/get?id" "7"
           [] [] eq_refl eq_refl).
Defined.
(* ================================================================== *)
(** * The making of the connection when a service fails *)

(** X12.  When the request of the device details fails, [connection_made]
    logs the failure and goes on: the broker is connected and the pre-login
    probe is written (on a transport that is not closing), with the details
    as they were.  For a client fresh from [__init__] they are empty, and
    every event is then published as it was received. *)
Theorem connection_made_without_details :
  forall (P : Platform) (c : DahuaVTOClient) (t : Transport),
    connection_made t None true c
    = (set_transport (Some t) c,
       ([Log DEBUG "Connection established"; Log DEBUG "Loading Dahua details";
         HttpGet (base_url c ++ ENDPOINT_MAGICBOX_SYSINFO);
         Log ERROR "Failed to retrieve Dahua model";
         Log INFO "Websockets: Connecting MQTT Broker"; MqttConnect;
         Log DEBUG "Prepare pre-login message"]
        ++ (if is_closing t then []
            else [Write (Messages.login (Messages.new (request_id c) (sessionId c))
                           (username c) Messages.default_password)]))%list,
       inl tt)
    /\ forall (environ : string -> option string) (message : list (string * pyval)),
         enriched (fst (connect environ t None true)) message = message.
Proof.
  intros P c t. split.
  - unfold connection_made, load_dahua_info, initialize_mqtt_client, pre_login,
      transport_is_closing, try_except, bind, ret, emit, self, assign, orelse, raise.
    destruct t as [[|]]; destruct c; reflexivity.
  - intros environ message.
    unfold connect, connection_made, load_dahua_info, initialize_mqtt_client, pre_login,
      transport_is_closing, try_except, bind, ret, emit, self, assign, orelse, raise.
    destruct t as [[|]]; reflexivity.
Qed.

(** X13.  When the broker cannot be reached, [connection_made] logs the
    failure and stops there: whatever the device answered to the request of
    its details, the pre-login probe is not written and the request counter
    is not moved; the transport stays with the client. *)
Theorem connection_made_without_broker :
  forall (P : Platform) (c : DahuaVTOClient) (t : Transport) (http : option string),
    let after := connection_made t http false c in
    written (snd (fst after)) = []
    /\ In (Log ERROR "Failed to handle message") (snd (fst after))
    /\ transport (fst (fst after)) = Some t
    /\ request_id (fst (fst after)) = request_id c
    /\ snd after = inl tt.
Proof.
  intros P c t http after. subst after.
  unfold connection_made, load_dahua_info, initialize_mqtt_client, pre_login,
    transport_is_closing, orelse, try_except, bind, ret, emit, self, assign, raise.
  destruct http as [text|]; destruct c as [dd bu un pw pf rl rd rid sid kai tr];
    cbn [fst snd app written In transport request_id set_transport set_dahua_details];
    repeat split; auto 12.
Qed.

(* ================================================================== *)
(** * The door command *)

Section CommandFacts.
Context {P : Platform}.

Lemma access_control_open_door_effects (door_id : pyval) (http_ok : bool)
  (c : DahuaVTOClient) :
  access_control_open_door door_id http_ok c
  = (c,
     [Log DEBUG "Access Control - Open door";
      HttpGet (base_url c ++ ENDPOINT_ACCESS_CONTROL ++ py_str door_id);
      if http_ok then Log INFO "Access Control - Door was opened"
      else Log ERROR "Failed to open door"],
     inl tt).
Proof.
  unfold access_control_open_door, try_except, bind, emit, self, ret, raise.
  destruct http_ok; reflexivity.
Qed.

End CommandFacts.

Ltac step_c :=
  cbv beta iota zeta delta
    [on_mqtt_message decode_payload bind ret emit self orelse raise py_get_default].

(** X14.  A message on the open-door topic whose payload is absent or
    empty opens door 1, and one whose payload is a JSON object opens the
    door the object names under [Door], door 1 if it names none: one request
    is made to the access-control endpoint of the device, its channel the
    text of the door.  Whether the request succeeds or not, the callback
    returns and the client is left as it was. *)
Theorem open_door_command :
  forall (P : Platform) (c : DahuaVTOClient) (topic : string) (http_ok : bool),
    topic = mqtt_open_door_topic c ->
    let opens (payload : option string) (door : pyval) :=
      on_mqtt_message topic payload http_ok c
      = (c,
         [Log DEBUG "MQTT Message"; Log DEBUG "Access Control - Open door";
          HttpGet (base_url c ++ ENDPOINT_ACCESS_CONTROL ++ py_str door);
          if http_ok then Log INFO "Access Control - Door was opened"
          else Log ERROR "Failed to open door"],
         inl tt) in
    opens None (PyInt 1)
    /\ opens (Some EmptyString) (PyInt 1)
    /\ forall (s : string) (d : list (string * pyval)),
         utf8_valid 0 0x80 0xbf s = true ->
         Json.loads s = Some (PyDict d) ->
         opens (Some s) (door_of d).
Proof.
  intros P c topic http_ok -> opens. subst opens. cbv beta.
  split; [|split].
  - step_c. rewrite String.eqb_refl. step_c. cbn [Dict.get].
    now rewrite access_control_open_door_effects.
  - step_c. cbn [utf8_valid Nat.eqb]. step_c. rewrite String.eqb_refl. step_c.
    cbn [Dict.get]. now rewrite access_control_open_door_effects.
  - intros s d Hutf Hloads. step_c. rewrite Hutf. step_c.
    rewrite String.eqb_refl.
    destruct s as [|a r]; [discriminate Hloads|].
    step_c. rewrite Hloads. step_c. fold (door_of d).
    now rewrite access_control_open_door_effects.
Qed.

(** The theorem at a command for door 2. *)
Lemma open_door_command_witness :
  @on_mqtt_message example_platform "Dahua/Command/Open" (Some (lit "{`Door`: 2}")) true
    example_client
  = (example_client,
     [Log DEBUG "MQTT Message"; Log DEBUG "Access Control - Open door";
      HttpGet "http://192.168.1.110/cgi-bin/accessControl.cgi?action=openDoor&UserID=101&Type=Remote&channel=2";
      Log INFO "Access Control - Door was opened"],
     inl tt).
Proof.
  exact (proj2 (proj2 (open_door_command example_platform example_client
                         "Dahua/Command/Open" true eq_refl))
           (lit "{`Door`: 2}") [("Door", PyInt 2)] eq_refl eq_refl).
Defined.

(** X15.  A message on any topic but the open-door topic makes no request
    to the device and leaves the client as it was, whatever its payload. *)
Theorem other_topics_open_no_door :
  forall (P : Platform) (c : DahuaVTOClient) (topic : string)
         (payload : option string) (http_ok : bool),
    topic <> mqtt_open_door_topic c ->
    requested (snd (fst (on_mqtt_message topic payload http_ok c))) = []
    /\ fst (fst (on_mqtt_message topic payload http_ok c)) = c.
Proof.
  intros P c topic payload http_ok Hne.
  apply String.eqb_neq in Hne.
  unfold on_mqtt_message, decode_payload, bind, ret, emit, self, raise.
  destruct payload as [b|]; [destruct (utf8_valid 0 128 191 b)|];
    cbn [fst snd]; rewrite ?Hne; now split.
Qed.

(** The theorem at a message on the event topic of a local alarm. *)
Lemma other_topics_open_no_door_witness :
  requested
    (snd (fst (@on_mqtt_message example_platform "Dahua/AlarmLocal/Event"
                 (Some (lit "{`Door`: 2}")) true example_client)))
  = [].
Proof.
  apply (other_topics_open_no_door example_platform example_client
           "Dahua/AlarmLocal/Event" (Some (lit "{`Door`: 2}")) true).
  intros H. discriminate H.
Defined.

(** X16.  A message on the open-door topic whose payload is not empty and
    is no JSON object (text that does not parse, or a number, a string, a
    list) makes the callback raise, which nothing in it catches: no request
    is made to the device and no door is opened. *)
Theorem malformed_command_opens_no_door :
  forall (P : Platform) (c : DahuaVTOClient) (a : ascii) (r : string) (http_ok : bool),
    match Json.loads (String a r) with
    | Some v => is_dict v = false
    | None => True
    end ->
    let after := on_mqtt_message (mqtt_open_door_topic c) (Some (String a r)) http_ok c in
    requested (snd (fst after)) = []
    /\ fst (fst after) = c
    /\ exists x, snd after = inr x.
Proof.
  intros P c a r http_ok H after. subst after. step_c.
  destruct (utf8_valid 0 128 191 (String a r)); step_c;
    [|cbn [fst snd requested]; repeat split; now eexists].
  rewrite String.eqb_refl.
  destruct (Json.loads (String a r)) as [v|]; step_c;
    [|cbn [fst snd requested app]; repeat split; now eexists].
  destruct v; try discriminate H; step_c;
    cbn [fst snd requested app]; repeat split; now eexists.
Qed.

(** The theorem at a payload that is the number of the door and nothing
    else. *)
Lemma malformed_command_opens_no_door_witness :
  requested
    (snd (fst (@on_mqtt_message example_platform "Dahua/Command/Open" (Some "2") true
                 example_client)))
  = []
  /\ fst (fst (@on_mqtt_message example_platform "Dahua/Command/Open" (Some "2") true
                 example_client))
     = example_client
  /\ exists x,
       snd (@on_mqtt_message example_platform "Dahua/Command/Open" (Some "2") true
              example_client)
       = inr x.
Proof.
  exact (malformed_command_opens_no_door example_platform example_client
           "2"%char EmptyString true eq_refl).
Defined.
(* ================================================================== *)
(** * The reconnection to the broker *)

Section BrokerFacts.

Lemma broker_sleeps_app (es es' : list Broker.effect) :
  Broker.sleeps (es ++ es') = (Broker.sleeps es ++ Broker.sleeps es')%list.
Proof.
  induction es as [|[lv tx|s] es IH]; cbn; rewrite ?IH; reflexivity.
Qed.

(** [k] passes whose [connect] raises, from pass [i] on. *)
Lemma reconnect_refused (attempts : nat -> bool) (k : nat) :
  forall i fuel,
    (forall j, (j < k)%nat -> attempts (i + j)%nat = false) ->
    Broker.reconnect attempts i (k + fuel)
    = ((List.concat (repeat (fst (Broker.pass false)) k)
        ++ fst (Broker.reconnect attempts (i + k) fuel))%list,
       snd (Broker.reconnect attempts (i + k) fuel)).
Proof.
  induction k as [|k IH]; intros i fuel H.
  - cbn [Nat.add repeat List.concat app]. rewrite Nat.add_0_r.
    now destruct (Broker.reconnect attempts i fuel).
  - cbn [Nat.add Broker.reconnect].
    rewrite <- (Nat.add_0_r i) at 1. rewrite (H 0%nat) by lia.
    cbn [Broker.pass]. cbv iota beta.
    rewrite (IH (S i) fuel)
      by (intros j Hj; replace (S i + j)%nat with (i + S j)%nat by lia; apply H; lia).
    replace (S i + k)%nat with (i + S k)%nat by lia.
    reflexivity.
Qed.

Lemma sleeps_refused (k : nat) :
  Broker.sleeps (List.concat (repeat (fst (Broker.pass false)) k)) = repeat 60 k.
Proof.
  induction k as [|k IH]; [reflexivity|].
  cbn [repeat List.concat]. rewrite broker_sleeps_app, IH. reflexivity.
Qed.

End BrokerFacts.

(** X17.  [on_mqtt_disconnect] stays in its loop as long as the broker
    refuses the connection, waiting 60 seconds after each refusal: after [k]
    refusals it has waited [k] times 60 seconds and has not returned.  It
    returns with the first connection that is made, without a further
    wait. *)
Theorem reconnect_until_connected :
  forall (attempts : nat -> bool) (k : nat),
    (forall i, (i < k)%nat -> attempts i = false) ->
    (snd (Broker.on_mqtt_disconnect attempts k) = false
     /\ Broker.sleeps (fst (Broker.on_mqtt_disconnect attempts k)) = repeat 60 k)
    /\ (attempts k = true ->
        forall fuel, (k < fuel)%nat ->
          snd (Broker.on_mqtt_disconnect attempts fuel) = true
          /\ Broker.sleeps (fst (Broker.on_mqtt_disconnect attempts fuel)) = repeat 60 k).
Proof.
  intros attempts k H. unfold Broker.on_mqtt_disconnect. split.
  - pose proof (reconnect_refused attempts k 0 0 H) as E.
    rewrite Nat.add_0_r in E. rewrite E. cbn [fst snd Broker.reconnect].
    split; [reflexivity|]. now rewrite app_nil_r, sleeps_refused.
  - intros Hk fuel Hf.
    replace fuel with (k + S (fuel - S k))%nat by lia.
    rewrite (reconnect_refused attempts k 0 _ H).
    cbn [Nat.add Broker.reconnect]. rewrite Hk. cbn [Broker.pass fst snd].
    split; [reflexivity|].
    rewrite broker_sleeps_app, sleeps_refused. cbn [Broker.sleeps]. apply app_nil_r.
Qed.

(** The theorem at a broker that refuses two connections and takes the
    third. *)
Lemma reconnect_until_connected_witness :
  Broker.on_mqtt_disconnect (fun i => Nat.leb 2 i) 5
  = ([Broker.Log INFO "MQTT Broker got disconnected trying to reconnect";
      Broker.Log ERROR "Failed to reconnect, retry in 60 seconds"; Broker.Sleep 60;
      Broker.Log INFO "MQTT Broker got disconnected trying to reconnect";
      Broker.Log ERROR "Failed to reconnect, retry in 60 seconds"; Broker.Sleep 60;
      Broker.Log INFO "MQTT Broker got disconnected trying to reconnect"],
     true)
  /\ Broker.sleeps (fst (Broker.on_mqtt_disconnect (fun i => Nat.leb 2 i) 5)) = [60; 60].
Proof.
  split; [reflexivity|].
  refine (proj2 (proj2 (reconnect_until_connected (fun i => Nat.leb 2 i) 2 _)
                   eq_refl 5%nat _)).
  - intros i Hi. destruct i as [|[|i]]; [reflexivity | reflexivity | lia].
  - lia.
Defined.

(* ================================================================== *)
(** * The handshake as a whole *)

(** X18.  A challenge followed by the response to the login takes a client
    on an open transport through the whole handshake.  Two requests are
    written, under the two ids that follow the request counter: the login
    with the credential hash of the nonce and realm of the challenge, and
    the attach request.  Both carry the session of the challenge, which is
    the session the client keeps: the one the second response names is not
    read.  One timer is started, of the interval of the response less
    five. *)
Theorem handshake_reaches_attached :
  forall (P : Platform) (c : DahuaVTOClient) (t : Transport)
         (challenge response : string)
         (m1 m2 p1 p2 : list (string * pyval)) (l1 l2 : list effect) (k : Z),
    transport c = Some t -> is_closing t = false ->
    parse_response challenge = (PyDict m1, l1) ->
    py_eq_int (field m1 "id") 1 = true ->
    is_login_challenge (field m1 "error") = true ->
    field m1 "params" = PyDict p1 ->
    parse_response response = (PyDict m2, l2) ->
    py_eq_int (field m2 "id") 1 = false ->
    py_eq_int (field m2 "id") 2 = true ->
    field m2 "params" = PyDict p2 ->
    field p2 "keepAliveInterval" = PyInt k ->
    let after := run [DataReceived challenge; DataReceived response] c in
    let digest :=
      _get_hashed_password (field p1 "random") (field p1 "realm")
        (username c) (password c) in
    fst after
    = mkClient (dahua_details c) (base_url c) (username c) (password c)
        (mqtt_broker_topic_prefix c) (field p1 "realm") (field p1 "random")
        (request_id c + 2) (field m1 "session") (PyInt (k - 5)) (transport c)
    /\ written (snd after)
       = [Messages.mkMessageData (request_id c + 1) (field m1 "session") "global.login"
            (PyDict [("userName", username c); ("password", PyStr digest);
                     ("clientType", PyStr "..."); ("loginType", PyStr "Direct")]);
          Messages.attach
            (Messages.new (request_id c + 2) (field m1 "session"))]
    /\ timers (snd after) = [PyInt (k - 5)].
Proof.
  intros P c t challenge response m1 m2 p1 p2 l1 l2 k Ht Hopen
    Hparse1 Hid1 Hch Hp1 Hparse2 Hid2' Hid2 Hp2 Hk after digest.
  subst after digest.
  destruct (parse_response_logged _ _ _ Hparse1) as [Hw1 Ht1].
  destruct (parse_response_logged _ _ _ Hparse2) as [Hw2 Ht2].
  unfold is_login_challenge in Hch.
  destruct (field m1 "error") as [| | | | |l|e] eqn:He; try discriminate Hch.
  cbn [run react].
  assert (E1 : data_received challenge c
               = (mkClient (dahua_details c) (base_url c) (username c) (password c)
                    (mqtt_broker_topic_prefix c) (field p1 "realm") (field p1 "random")
                    (request_id c + 1) (field m1 "session") (keep_alive_interval c)
                    (transport c),
                  (l1 ++
                   [Log DEBUG "Data received"; Log DEBUG "Prepare login message";
                    Write (Messages.mkMessageData (request_id c + 1) (field m1 "session")
                             "global.login"
                             (PyDict [("userName", username c);
                                      ("password",
                                       PyStr (_get_hashed_password (field p1 "random")
                                                (field p1 "realm") (username c)
                                                (password c)));
                                      ("clientType", PyStr "...");
                                      ("loginType", PyStr "Direct")]))])%list,
                  inl tt)).
  { step_m. rewrite Hparse1. step_m. rewrite Hid1. step_m. rewrite He. step_m.
    rewrite Hch. step_m. rewrite Hp1. step_m.
    destruct c; cbn in Ht |- *. rewrite Ht. cbn. rewrite Hopen. reflexivity. }
  rewrite E1.
  set (c1 := mkClient _ _ _ _ _ _ _ _ _ _ _).
  assert (E2 : data_received response c1
               = (set_request_id (request_id c + 2)
                    (set_keep_alive_interval (PyInt (k - 5)) c1),
                  (l2 ++
                   [Log DEBUG "Data received"; StartTimer (PyInt (k - 5));
                    Log INFO "Attach event manager";
                    Write (Messages.attach
                             (Messages.new (request_id c + 2) (field m1 "session")))])%list,
                  inl tt)).
  { step_m. rewrite Hparse2. step_m. rewrite Hid2', Hid2. step_m. rewrite Hp2. step_m.
    rewrite Hk. subst c1. cbn. rewrite Ht. cbn. rewrite Hopen. cbn.
    replace (request_id c + 1 + 1) with (request_id c + 2) by lia. reflexivity. }
  rewrite E2. cbn [fst snd]. split; [reflexivity|].
  rewrite !written_app, !timers_app, Hw1, Ht1, Hw2, Ht2. split; reflexivity.
Qed.

(** The theorem at the challenge and the response of the examples. *)
Lemma handshake_reaches_attached_witness :
  written (snd (@run example_platform
                  [DataReceived challenge_chunk; DataReceived success_chunk]
                  example_client))
  = [Messages.mkMessageData 2 (PyInt 42) "global.login"
       (PyDict [("userName", PyStr "admin");
                ("password", PyStr "E817FB850DFB426FB006DD8A0A2FEA7A");
                ("clientType", PyStr "..."); ("loginType", PyStr "Direct")]);
     Messages.mkMessageData 3 (PyInt 42) "<event-attach method>" (PyDict [])]
  /\ timers (snd (@run example_platform
                    [DataReceived challenge_chunk; DataReceived success_chunk]
                    example_client))
     = [PyInt 25].
Proof.
  refine (proj2 (handshake_reaches_attached example_platform example_client
                   (mkTransport false) challenge_chunk success_chunk
                   challenge_message success_message
                   [("random", PyStr "123"); ("realm", PyStr "abc")]
                   [("keepAliveInterval", PyInt 30)] [] [] 30
                   _ _ _ _ _ _ _ _ _ _ _));
    vm_compute; reflexivity.
Defined.
(* ================================================================== *)
(** * The request ids from any state of the client *)

Section CounterEdges.
Context {P : Platform}.

Lemma react_transport (ev : event) (c : DahuaVTOClient) :
  transport c <> None -> transport (fst (fst (react ev c))) <> None.
Proof.
  intros Ht. destruct (event_eq_closes ev) as [-> | Hev].
  - cbn [react assign fst]. unfold close_transport.
    destruct (transport c) eqn:E; [|congruence]. now destruct c.
  - destruct (counts_react ev Hev c) as [Hsame _]. congruence.
Qed.

Lemma react_stays_closed (ev : event) (c : DahuaVTOClient) :
  transport c <> None -> is_open c = false ->
  is_open (fst (fst (react ev c))) = false
  /\ written (snd (fst (react ev c))) = [].
Proof.
  intros Ht Ho. destruct (event_eq_closes ev) as [-> | Hev].
  - cbn [react assign fst snd]. split; [|reflexivity].
    unfold close_transport, is_open.
    destruct (transport c) eqn:E; [|congruence]. now destruct c.
  - destruct (counts_react ev Hev c) as [Hsame Hw]. rewrite Ho in Hw.
    split; [|exact Hw]. unfold is_open in *. now rewrite Hsame.
Qed.

Lemma run_closed (evs : list event) :
  forall c, transport c <> None -> is_open c = false -> written (snd (run evs c)) = [].
Proof.
  induction evs as [|ev evs IH]; intros c Ht Ho; [reflexivity|].
  cbn [run]. pose proof (react_transport ev c Ht) as Ht1.
  destruct (react_stays_closed ev c Ht Ho) as [Ho1 Hw1].
  destruct (react ev c) as [[c1 e1] x]. cbn [fst snd] in Ht1, Ho1, Hw1.
  specialize (IH c1 Ht1 Ho1). destruct (run evs c1) as [c2 e2]. cbn [snd] in IH |- *.
  now rewrite written_app, Hw1, IH.
Qed.

Lemma run_ids (evs : list event) :
  forall c, transport c <> None ->
            written_ids (snd (run evs c))
            = ids_after (request_id c) (List.length (written (snd (run evs c)))).
Proof.
  induction evs as [|ev evs IH]; intros c Ht; [reflexivity|].
  destruct (is_open c) eqn:Ho.
  - cbn [run]. pose proof (react_transport ev c Ht) as Ht1.
    destruct (event_eq_closes ev) as [-> | Hev].
    + cbn [react assign]. specialize (IH (close_transport c)).
      assert (Hr : request_id (close_transport c) = request_id c).
      { unfold close_transport. destruct (transport c); now destruct c. }
      rewrite Hr in IH. cbn [react assign fst] in Ht1. specialize (IH Ht1).
      destruct (run evs (close_transport c)) as [c2 e2]. exact IH.
    + destruct (counts_react ev Hev c) as [_ Hs]. rewrite Ho in Hs.
      destruct (react ev c) as [[c1 e1] x]. cbn [fst snd] in Ht1, Hs.
      destruct Hs as [Hw Hr]. specialize (IH c1 Ht1).
      destruct (run evs c1) as [c2 e2]. cbn [snd] in IH |- *.
      unfold written_ids in *. rewrite written_app, map_app, Hw, IH, Hr.
      now rewrite length_app, ids_after_app.
  - unfold written_ids. now rewrite (run_closed (ev :: evs) c Ht Ho).
Qed.

End CounterEdges.

(** X19.  From any state of a client whose connection has been made, the
    ids of the requests written over a run of events are the consecutive
    integers that follow the request counter; and once the transport is
    closing nothing is written again, whatever arrives.  So when the broker
    could not be reached and the pre-login probe was left out, the first
    request written has id 2: no request of that connection has id 1. *)
Theorem request_ids_follow_counter :
  forall (P : Platform) (evs : list event) (c : DahuaVTOClient),
    transport c <> None ->
    written_ids (snd (run evs c))
    = ids_after (request_id c) (List.length (written (snd (run evs c))))
    /\ (is_open c = false -> written (snd (run evs c)) = []).
Proof.
  intros P evs c Ht. split; [now apply run_ids | now apply run_closed].
Qed.

(** The theorem at the connection of the examples made without the
    broker. *)
Lemma request_ids_follow_counter_witness :
  written_ids
    (snd (@run example_platform
            [DataReceived challenge_chunk; DataReceived success_chunk; TimerFires]
            (fst (@connect example_platform example_environ (mkTransport false) None
                    false))))
  = [2; 3; 4].
Proof.
  rewrite (proj1 (request_ids_follow_counter example_platform
                    [DataReceived challenge_chunk; DataReceived success_chunk; TimerFires]
                    (fst (@connect example_platform example_environ (mkTransport false)
                            None false))
                    ltac:(discriminate))).
  vm_compute. reflexivity.
Defined.
